(** * Transceiver management: EEPROM access, identification, CMIS bring-up

  A shallow embedding of the Python sources

  - [sonic_platform_base/sfp_standard.py] (class [SfpStandard]): the locked,
    retrying raw EEPROM access, the per-port EEPROM cache, the module-type
    identification cascade [get_eeprom_type] and the entry points of the
    decoders;
  - [sonic_sfp/ext_media_cmis_init.py] (class [cmis_init]): the CMIS 3.x and
    CMIS 4.x initialization sequences;
  - [sonic_sfp/ext_media_common.py]: the form-factor tests and their table;
  - [sonic_sfp/ext_media_api.py]: [get_max_port_power] and
    [default_cmis_3_4_init];
  - [sonic_sfp/inf8628.py] and [sonic_sfp/sff8024.py]: the decoders of the
    status bytes and of the abbreviated type name, with their tables;
  - [xcvrd.py]: [strip_unit_and_beautify] and [_transceiver_info_fixup].

  Python integers are [Z]; the bytes behind the sysfs node are [byte]; the
  "hex string" buffers of [get_eeprom_raw] are lists of [string]; a Python
  exception that leaves a function is the result [Exn]. *)

From Stdlib Require Import ZArith String Ascii List Lia Bool.
From Stdlib Require Import QArith_base DecimalString.
From Stdlib Require Import Strings.Byte.
From stdpp Require Import base option list strings gmap.

Open Scope Z_scope.

(** ** Results of calls that may raise *)

Inductive result (A : Type) : Type :=
| Ok (a : A)
| Exn.
Arguments Ok {A} a.
Arguments Exn {A}.

(** ** Two-digit hexadecimal strings *)

Module Hex.

(** ["0123456789abcdef"[d]], the digit that [format(.., 'x')] prints:
    code 48 + d for a decimal digit, 97 + (d - 10) for a letter. *)
Definition hexdigit (d : Z) : ascii :=
  ascii_of_N (Z.to_N (if d <? 10 then 48 + d else 87 + d)).

(** ["{0:0{1}x}".format(b, 2)] for a byte [b] (0 <= b < 256), the only
    values the callers format. *)
Definition hex2 (b : Z) : string :=
  String (hexdigit (b / 16)) (String (hexdigit (b mod 16)) EmptyString).

(** The value of a hexadecimal digit, in either case. *)
Definition hexval (c : ascii) : option Z :=
  let code := Z.of_N (N_of_ascii c) in
  if (48 <=? code) && (code <=? 57) then Some (code - 48)
  else if (97 <=? code) && (code <=? 102) then Some (code - 87)
  else if (65 <=? code) && (code <=? 70) then Some (code - 55)
  else None.

Fixpoint int16_from (acc : Z) (s : string) : option Z :=
  match s with
  | EmptyString => Some acc
  | String c s' =>
      match hexval c with
      | Some d => int16_from (16 * acc + d) s'
      | None => None
      end
  end.

(** [int(s, 16)] on a non-empty string of hexadecimal digits; [None] is the
    [ValueError].  (Python also accepts a sign, a [0x] prefix, underscores
    and surrounding blanks; [get_eeprom_raw] produces none of them.) *)
Definition int16 (s : string) : option Z :=
  match s with
  | EmptyString => None
  | _ => int16_from 0 s
  end.

End Hex.

(** ** The EEPROM access layer of [SfpStandard] *)

Module Channel.
Import Hex.

Definition SFP_EEPROM_MANDATORY_FIELD_OFFSET_LIMIT : nat := 256.

(** What the access layer does to the outside world, oldest first. *)
Inductive event : Type :=
| EvRead (offset num_bytes : nat)    (* one open/seek/read attempt *)
| EvSleep (ms : Z)                   (* time.sleep, in milliseconds *)
| EvOpenW (offset : nat)             (* open for writing and seek *)
| EvWrite (offset : nat) (b : byte). (* one byte handed to the file *)

(** The module behind [eeprom_path]: a byte-addressable node, a presence
    pin, and a schedule of transient I/O faults (one entry is consumed by
    each open/seek/read attempt and by each open for writing; [true] is an
    [IOError]; an exhausted schedule means no more faults). *)
Record eeprom : Type := {
  present : bool;
  contents : list byte;
  faults : list bool;
  journal : list event
}.

Definition log (e : event) (d : eeprom) : eeprom :=
  {| present := present d; contents := contents d;
     faults := faults d; journal := journal d ++ [e] |}.

Definition next_fault (d : eeprom) : bool * eeprom :=
  match faults d with
  | [] => (false, d)
  | f :: fs =>
      (f, {| present := present d; contents := contents d;
             faults := fs; journal := journal d |})
  end.

Definition store (pos : nat) (b : byte) (d : eeprom) : eeprom :=
  {| present := present d; contents := <[pos := b]> (contents d);
     faults := faults d; journal := journal d ++ [EvWrite pos b] |}.

Definition byte_to_Z (b : byte) : Z := Z.of_N (Byte.to_N b).

(** [v.to_bytes(1, "little")]: [None] is the [OverflowError]. *)
Definition byte_of_Z (v : Z) : option byte :=
  if (0 <=? v) && (v <? 256) then Byte.of_N (Z.to_N v) else None.

(** One pass through the [try] block of [__read_eeprom]: open (if needed),
    seek, read.  A read near the end of the node returns fewer bytes. *)
Definition io_read (offset num_bytes : nat) (d : eeprom)
  : option (list byte) * eeprom :=
  let (f, d1) := next_fault d in
  let d2 := log (EvRead offset num_bytes) d1 in
  if f then (None, d2)
  else (Some (take num_bytes (drop offset (contents d2))), d2).

Definition retry_expiry : nat := 4.
Definition retry_interval_ms : Z := 250.

(** The [while retry_count < retry_expiry] loop; [remaining] is
    [retry_expiry - retry_count]. *)
Fixpoint read_attempts (remaining : nat) (offset num_bytes : nat) (d : eeprom)
  : option (list byte) * eeprom :=
  match remaining with
  | O => (None, d)
  | S remaining' =>
      match io_read offset num_bytes d with
      | (Some buf, d') => (Some buf, d')
      | (None, d') =>
          if (offset <? SFP_EEPROM_MANDATORY_FIELD_OFFSET_LIMIT)%nat
             && (offset + num_bytes <=? SFP_EEPROM_MANDATORY_FIELD_OFFSET_LIMIT)%nat
          then read_attempts remaining' offset num_bytes
                 (log (EvSleep retry_interval_ms) d')
          else (None, d')
      end
  end.

(** [while len(eeprom_raw) < num_bytes: eeprom_raw.append(x)] *)
Definition pad_to {A} (num_bytes : nat) (x : A) (l : list A) : list A :=
  l ++ replicate (num_bytes - length l) x.

Definition __read_eeprom (offset num_bytes : nat) (d : eeprom)
  : option (list Z) * eeprom :=
  if negb (present d) then (None, d)
  else
    match read_attempts retry_expiry offset num_bytes d with
    | (None, d') => (None, d')
    | (Some buf, d') => (Some (pad_to num_bytes 0 (map byte_to_Z buf)), d')
    end.

(** [read_eeprom] is [__read_eeprom] under [eeprom_lock]; the model is
    sequential, so the lock has no effect. *)
Definition read_eeprom (offset num_bytes : nat) (d : eeprom)
  : option (list Z) * eeprom :=
  __read_eeprom offset num_bytes d.

(** The [for i in range(num_bytes)] loop of [__write_eeprom]; [false] is
    any exception (index out of range, value not a byte, I/O error past the
    end of the node), which the caller turns into [False]. *)
Fixpoint write_each (pos : nat) (num_bytes : nat) (write_buffer : list Z)
  (d : eeprom) : bool * eeprom :=
  match num_bytes with
  | O => (true, d)
  | S n' =>
      match write_buffer with
      | [] => (false, d)
      | v :: rest =>
          match byte_of_Z v with
          | None => (false, d)
          | Some b =>
              if (pos <? length (contents d))%nat
              then write_each (S pos) n' rest (store pos b d)
              else (false, d)
          end
      end
  end.

Definition __write_eeprom (offset num_bytes : nat) (write_buffer : list Z)
  (d : eeprom) : bool * eeprom :=
  if negb (present d) then (false, d)
  else
    let (f, d1) := next_fault d in
    let d2 := log (EvOpenW offset) d1 in
    if f then (false, d2) else write_each offset num_bytes write_buffer d2.

Definition write_eeprom (offset num_bytes : nat) (write_buffer : list Z)
  (d : eeprom) : bool * eeprom :=
  __write_eeprom offset num_bytes write_buffer d.

(** [modify_eeprom_byte(offset, value, mask=0xff)]; [Exn] is the
    [ValueError] of [bytearray] on a value outside [range(256)]. *)
Definition modify_eeprom_byte (offset : nat) (value mask : Z) (d : eeprom)
  : result bool * eeprom :=
  match read_eeprom offset 1 d with
  | (None, d1) => (Ok false, d1)
  | (Some [], d1) => (Ok false, d1)
  | (Some (old :: _), d1) =>
      let new := Z.land value mask in
      if negb (new =? Z.land old mask) then
        let b := Z.lor (Z.land old (Z.lnot mask)) new in
        if (0 <=? b) && (b <? 256) then
          let (ret, d2) := write_eeprom offset 1 [b] d1 in (Ok ret, d2)
        else (Exn, d1)
      else (Ok true, d1)
  end.

(** [get_eeprom_raw(offset = 0, num_bytes = 256)] *)
Definition get_eeprom_raw (offset num_bytes : nat) (d : eeprom)
  : option (list string) * eeprom :=
  match read_eeprom offset num_bytes d with
  | (None, d') => (None, d')
  | (Some buf, d') => (Some (pad_to num_bytes "00"%string (map hex2 buf)), d')
  end.

(** Number of bytes physically written so far. *)
Definition is_write (e : event) : bool :=
  match e with EvWrite _ _ => true | _ => false end.
Definition writes (d : eeprom) : nat := length (List.filter is_write (journal d)).

Definition is_attempt (e : event) : bool :=
  match e with EvRead _ _ => true | _ => false end.


(** Concrete modules for the examples. *)
Definition failing_module : eeprom :=
  {| present := true; contents := replicate 512 x00;
     faults := [true; true; true; true]; journal := [] |}.

Definition short_module : eeprom :=
  {| present := true; contents := replicate 20 xab; faults := []; journal := [] |}.

Definition register_module : eeprom :=
  {| present := true; contents := replicate 20 x05; faults := []; journal := [] |}.

End Channel.

(** ** Sequencing of calls that may raise *)

#[export] Instance result_ret : MRet result := fun _ a => Ok a.
#[export] Instance result_bind : MBind result :=
  fun _ _ f m => match m with Ok a => f a | Exn => Exn end.

(** ** Module-type identification ([get_eeprom_type]) *)

Module Identify.
Import Hex.

Inductive eeprom_type : Type :=
| XCVR_EEPROM_TYPE_UNKNOWN
| XCVR_EEPROM_TYPE_SFP
| XCVR_EEPROM_TYPE_QSFP
| XCVR_EEPROM_TYPE_QSFPDD
| XCVR_EEPROM_TYPE_SFPDD
| XCVR_EEPROM_TYPE_QSFP56.

Definition XCVR_EEPROM_TYPE_OSFP : eeprom_type := XCVR_EEPROM_TYPE_QSFPDD.

Definition is_unknown (t : eeprom_type) : bool :=
  match t with XCVR_EEPROM_TYPE_UNKNOWN => true | _ => false end.

Inductive port_type : Type :=
| PORT_TYPE_NONE
| PORT_TYPE_SFP
| PORT_TYPE_QSFP
| PORT_TYPE_QSFPDD
| PORT_TYPE_SFPDD.

Definition SFF8024_TYPE_SFP : list string := ["03"]%string.
Definition SFF8024_TYPE_QSFP : list string := ["0c"; "0d"; "11"]%string.
Definition SFF8024_TYPE_QSFPDD : list string := ["18"; "19"]%string.
Definition SFF8024_TYPE_QSFP_CMIS_COMPLIANT : list string := ["1e"]%string.
Definition SFF8024_TYPE_SFPDD : list string := ["1a"]%string.

Definition SFF8472_CC_BASE : nat := 63.
Definition SFF8472_CC_BASE_START : nat := 0.
Definition SFF8636_CC_BASE : nat := 191.
Definition SFF8636_CC_BASE_START : nat := 129.
Definition CMIS_CHECKSUM : nat := 222.
Definition CMIS_CHECKSUM_START : nat := 129.

(** [x in l] for a list of strings. *)
Definition str_in (x : string) (l : list string) : bool :=
  existsb (String.eqb x) l.

(** [needle in s] for strings. *)
Fixpoint contains (needle s : string) : bool :=
  String.prefix needle s
  || match s with
     | EmptyString => false
     | String _ s' => contains needle s'
     end.

(** [raw[i]]: [Exn] is the [IndexError]. *)
Definition item (raw : list string) (i : nat) : result string :=
  match raw !! i with Some x => Ok x | None => Exn end.

(** [int(s, 16)]: [Exn] is the [ValueError]. *)
Definition int (s : string) : result Z :=
  match int16 s with Some v => Ok v | None => Exn end.

(** [for i in range(start, start + count): sum += int(raw[i], 16)] *)
Fixpoint sum_hex (raw : list string) (start count : nat) (sum : Z) : result Z :=
  match count with
  | O => Ok sum
  | S count' =>
      x ← item raw start;
      v ← int x;
      sum_hex raw (S start) count' (sum + v)
  end.

(** [((sum + int(id1, 16)) & 0xff) == int(raw[cc], 16) or
     ((sum + int(id2, 16)) & 0xff) == int(raw[cc], 16)],
    with Python's left-to-right, short-circuit evaluation. *)
Definition cc_matches (sum : Z) (id1 id2 : string) (raw : list string) (cc : nat)
  : result bool :=
  a ← int id1;
  x ← item raw cc;
  c ← int x;
  if Z.land (sum + a) 255 =? c then Ok true
  else
    b ← int id2;
    x' ← item raw cc;
    c' ← int x';
    Ok (Z.land (sum + b) 255 =? c').

(** [sffbase.py] (the field engine) and [sff8436.py] are not among the
    sources.  Identification consumes two strings of a decoded record, the
    vendor name and the vendor part number; the two decoders it calls are
    taken as parameters.  [None] stands for any exception inside them. *)
Record field_engine : Type := {
  (* inf8628InterfaceId(raw): 'Vendor Name', 'Vendor Part Number' *)
  inf8628_vendor : list string -> option (string * string);
  (* sff8436InterfaceId(raw): 'Vendor Name', 'Vendor PN' *)
  sff8436_vendor : list string -> option (string * string)
}.

(** Lines 386-398: the identifier that byte 0 and byte 128 resolve to, and
    the (possibly reassigned) [id1]. *)
Definition resolve_id (id1 id2 : string) : string * string :=
  let family :=
    SFF8024_TYPE_QSFP ++ SFF8024_TYPE_QSFPDD ++ SFF8024_TYPE_QSFP_CMIS_COMPLIANT in
  if str_in id1 family then (id1, id1)
  else if str_in id2 family then (id2, id1)
  else if (id1 =? "05")%string && (id2 =? "01")%string
       then ("11", "11")%string
  else ("0c"%string, id1).

(** Lines 400-413: vendor name and part number, ["Unknown"] on any
    exception. *)
Definition vendor_part (eng : field_engine) (id : string) (raw : list string)
  : string * string :=
  let decoded :=
    if str_in id (SFF8024_TYPE_QSFPDD ++ SFF8024_TYPE_QSFP_CMIS_COMPLIANT)
    then inf8628_vendor eng raw
    else sff8436_vendor eng raw in
  match decoded with
  | Some vp => vp
  | None => ("Unknown", "Unknown")%string
  end.

(** ['FIT \0ON TENG'] *)
Definition FIT_NUL_ON_TENG : string :=
  ("FIT " ++ String Ascii.zero "ON TENG")%string.

(** [raw[0] = raw[128] = id] *)
Definition set_ids (id : string) (raw : list string) : list string :=
  <[128%nat := id]> (<[0%nat := id]> raw).

(** Lines 415-422: the vendor overrides that return at once. *)
Definition vendor_override (vend part : string) : option eeprom_type :=
  if contains FIT_NUL_ON_TENG part then Some XCVR_EEPROM_TYPE_QSFP
  else if (vend =? "FIT HON TENG")%string && (part =? "CU4EP54-01000-EF")%string
       then Some XCVR_EEPROM_TYPE_QSFPDD
  else None.

(** Lines 424-431: QSFPDD check code validation. *)
Definition qsfpdd_check (id id1 id2 : string) (raw : list string)
  (type : eeprom_type) : result eeprom_type :=
  if str_in id SFF8024_TYPE_QSFPDD then
    sum ← sum_hex raw CMIS_CHECKSUM_START (CMIS_CHECKSUM - CMIS_CHECKSUM_START) 0;
    m ← cc_matches sum id1 id2 raw CMIS_CHECKSUM;
    Ok (if m : bool then XCVR_EEPROM_TYPE_OSFP else type)
  else Ok type.

Definition qsfp56_eeprom_identifiers : list (Z * Z * Z * Z * Z) :=
  [ (0x01, 0x0F, 0x0E, 0x44, 0x01);    (* 200G QSFP56 SR4 *)
    (0x02, 0x0F, 0x18, 0x44, 0x01) ].  (* 200G QSFP56 FR4 *)

Definition tuple5_eqb (x y : Z * Z * Z * Z * Z) : bool :=
  let '(a, b, c, d, e) := x in
  let '(a', b', c', d', e') := y in
  (a =? a') && (b =? b') && (c =? c') && (d =? d') && (e =? e').

(** Lines 433-447: QSFP56 validation. *)
Definition qsfp56_check (id : string) (raw : list string) (type : eeprom_type)
  : result eeprom_type :=
  if str_in id SFF8024_TYPE_QSFP_CMIS_COMPLIANT then
    byte85 ← item raw 85 ≫= int;
    byte86 ← item raw 86 ≫= int;
    byte87 ← item raw 87 ≫= int;
    byte88 ← item raw 88 ≫= int;
    byte89 ← item raw 89 ≫= int;
    let eeprom_data := (byte85, byte86, byte87, byte88, byte89) in
    Ok (if existsb (tuple5_eqb eeprom_data) qsfp56_eeprom_identifiers
        then XCVR_EEPROM_TYPE_QSFP56 else type)
  else Ok type.

(** Lines 449-459: QSFP28 check code validation (CC_BASE). *)
Definition qsfp28_check (id1 id2 : string) (raw : list string)
  (type : eeprom_type) : result eeprom_type :=
  if is_unknown type then
    r0 ← item raw 0;
    if str_in r0 SFF8024_TYPE_QSFP then
      sum ← sum_hex raw SFF8636_CC_BASE_START
              (SFF8636_CC_BASE - SFF8636_CC_BASE_START) 0;
      m ← cc_matches sum id1 id2 raw SFF8636_CC_BASE;
      Ok (if m : bool then XCVR_EEPROM_TYPE_QSFP else type)
    else Ok type
  else Ok type.

(** Lines 460-469: write the resolved identifier back into the buffer, or
    apply the last vendor override. *)
Definition settle (eng : field_engine) (id : string) (raw : list string)
  (type : eeprom_type) : result (eeprom_type * list string) :=
  if negb (is_unknown type) then Ok (type, set_ids id raw)
  else
    match sff8436_vendor eng raw with
    | None => Exn
    | Some (vend, pn) =>
        if contains "FIT" vend && contains "U4DP34-0B001-EF" pn
        then Ok (XCVR_EEPROM_TYPE_QSFP, set_ids id raw)
        else Ok (type, raw)
    end.

(** Lines 470-483: SFP-DD by identifier, then SFP check code validation
    (CC_BASE). *)
Definition sfp_stage (raw : list string) (type : eeprom_type)
  : result eeprom_type :=
  if is_unknown type then
    r0 ← item raw 0;
    if str_in r0 SFF8024_TYPE_SFPDD then Ok XCVR_EEPROM_TYPE_SFPDD
    else
      sum ← sum_hex raw SFF8472_CC_BASE_START
              (SFF8472_CC_BASE - SFF8472_CC_BASE_START) 0;
      c ← item raw SFF8472_CC_BASE ≫= int;
      Ok (if Z.land sum 255 =? c then XCVR_EEPROM_TYPE_SFP else type)
  else Ok type.

(** Lines 380-469: the block for QSFP and QSFP-DD ports. *)
Definition qsfp_block (eng : field_engine) (raw : list string)
  : result (eeprom_type * list string) :=
  r0 ← item raw 0;
  id2 ← item raw 128;
  let '(id, id1) := resolve_id r0 id2 in
  let '(vend, part) := vendor_part eng id raw in
  match vendor_override vend part with
  | Some t => Ok (t, set_ids id raw)
  | None =>
      t ← qsfpdd_check id id1 id2 raw XCVR_EEPROM_TYPE_UNKNOWN;
      t ← qsfp56_check id raw t;
      t ← qsfp28_check id1 id2 raw t;
      settle eng id raw t
  end.

(** [get_eeprom_type(eeprom_ifraw)].  The buffer is a Python list that the
    function updates in place: the result carries the buffer as the function
    leaves it.  (The [eeprom_ifraw is None] guard returns UNKNOWN; no caller
    passes [None].)  The two vendor overrides that [return] from inside the
    QSFP block yield a type other than UNKNOWN, which [sfp_stage] returns
    unchanged. *)
Definition get_eeprom_type (eng : field_engine) (pt : port_type)
  (raw : list string) : result (eeprom_type * list string) :=
  '(type, raw') ←
    match pt with
    | PORT_TYPE_QSFP | PORT_TYPE_QSFPDD => qsfp_block eng raw
    | _ => Ok (XCVR_EEPROM_TYPE_UNKNOWN, raw)
    end;
  type' ← sfp_stage raw' type;
  Ok (type', raw').

(** Modelled from the spec: the String decode-kind of the field engine
    ([sffbase.parse] on a field of type ['str']; sffbase.py is not among the
    sources): "trim trailing fill bytes, decode as ASCII".  The fill byte is
    the space. *)
Fixpoint rtrim (s : string) : string :=
  match s with
  | EmptyString => EmptyString
  | String c s' =>
      match rtrim s' with
      | EmptyString => if Ascii.eqb c " " then EmptyString else String c EmptyString
      | t => String c t
      end
  end.

Fixpoint ascii_of_hex (l : list string) : option string :=
  match l with
  | [] => Some EmptyString
  | x :: l' =>
      match int16 x, ascii_of_hex l' with
      | Some v, Some s => Some (String (ascii_of_N (Z.to_N v)) s)
      | _, _ => None
      end
  end.

Definition decode_str (raw : list string) (offset size : nat) : option string :=
  let field := take size (drop offset raw) in
  if (length field <? size)%nat then None
  else rtrim <$> ascii_of_hex field.

(** A field engine for closed examples.  The CMIS vendor fields are the
    ['str'] fields 'Vendor Name' (offset 129, size 16) and 'Vendor Part
    Number' (offset 148, size 16) of [inf8628InterfaceId.interface_id]; the
    offsets of the two SFF-8636 fields are parameters, since sff8436.py is
    not among the sources. *)
Definition str_engine (sff8436_name sff8436_pn : nat) : field_engine :=
  {| inf8628_vendor := fun raw =>
       match decode_str raw 129 16, decode_str raw 148 16 with
       | Some v, Some p => Some (v, p)
       | _, _ => None
       end;
     sff8436_vendor := fun raw =>
       match decode_str raw sff8436_name 16, decode_str raw sff8436_pn 16 with
       | Some v, Some p => Some (v, p)
       | _, _ => None
       end |}.

(** The SFF-8636 offsets of the vendor name and the vendor part number. *)
Definition sff8636_engine : field_engine := str_engine 148 168.

(** What is left of the cascade once the checks of the QSFP block have not
    classified the buffer: the last vendor override, then [sfp_stage]. *)
Definition rest_of_cascade (eng : field_engine) (id : string) (raw : list string)
  : result (eeprom_type * list string) :=
  '(type, raw') ← settle eng id raw XCVR_EEPROM_TYPE_UNKNOWN;
  type' ← sfp_stage raw' type;
  Ok (type', raw').

Definition qsfp_port (pt : port_type) : bool :=
  match pt with PORT_TYPE_QSFP | PORT_TYPE_QSFPDD => true | _ => false end.

(** [is_qsfp56(eeprom)] of ext_media_common.py, the form-factor test of the
    extended media layer.  [read_eeprom_byte] and [get_cmis_version] come
    from ext_media_utils.py, which is not among the sources: they are
    parameters, the first taken at the offset of its
    [media_eeprom_address(offset=..)] argument. *)
Definition is_qsfp56 {E : Type} (read_eeprom_byte : E -> Z -> Z)
  (get_cmis_version : E -> Z) (eeprom : E) : bool :=
  if negb (read_eeprom_byte eeprom 0 =? 0x1E)
     || negb ((get_cmis_version eeprom =? 0x40) || (get_cmis_version eeprom =? 0x50))
  then false
  else
    let byte85 := read_eeprom_byte eeprom 85 in
    let byte86 := read_eeprom_byte eeprom 86 in
    let byte87 := read_eeprom_byte eeprom 87 in
    let byte88 := read_eeprom_byte eeprom 88 in
    let byte89 := read_eeprom_byte eeprom 89 in
    let eeprom_data := (byte85, byte86, byte87, byte88, byte89) in
    if existsb (tuple5_eqb eeprom_data) qsfp56_eeprom_identifiers then true
    else false.

(** Concrete buffers for the examples: [n] entries ["00"], patched. *)
Definition hex_buffer (n : nat) (patches : list (nat * Z)) : list string :=
  foldr (fun p acc => <[p.1 := hex2 p.2]> acc) (replicate n "00"%string) patches.


(** Identifier 0x18 at bytes 0 and 128, a correct CMIS checksum at 222, and
    a correct SFF-8472 check code at 63. *)
Definition qsfpdd_buffer : list string :=
  hex_buffer 256 [(0%nat, 0x18); (63%nat, 0x18); (128%nat, 0x18); (222%nat, 0x18)].

(** The same with byte 130 changed from 0x00 to 0x01. *)
Definition qsfpdd_buffer_flipped : list string :=
  <[130%nat := "01"%string]> qsfpdd_buffer.

(** Identifier 0x1e and the 200G QSFP56 SR4 signature at bytes 85..89. *)
Definition qsfp56_buffer : list string :=
  hex_buffer 256 [(0%nat, 0x1e); (128%nat, 0x1e); (85%nat, 0x01); (86%nat, 0x0F);
                  (87%nat, 0x0E); (88%nat, 0x44); (89%nat, 0x01)].


End Identify.

(** ** The per-port EEPROM cache and the entry points of the decoders *)

Module Sfp.
Import Hex Channel Identify.

(** An [SfpStandard] object: the abstract property [port_type], the
    attribute [eeprom_cache] and the module behind [eeprom_path]. *)
Record sfp : Type := {
  port : port_type;
  eeprom_cache : option (list string);
  dev : eeprom
}.

Definition with_cache (c : option (list string)) (h : sfp) : sfp :=
  {| port := port h; eeprom_cache := c; dev := dev h |}.

Definition with_dev (d : eeprom) (h : sfp) : sfp :=
  {| port := port h; eeprom_cache := eeprom_cache h; dev := d |}.

Definition populate_eeprom_cache (h : sfp) : sfp :=
  match eeprom_cache h with
  | Some _ => h
  | None =>
      let num_bytes :=
        match port h with
        | PORT_TYPE_QSFPDD | PORT_TYPE_SFPDD => 384%nat
        | PORT_TYPE_QSFP => 256%nat
        | _ => 128%nat
        end in
      let (eeprom_ifraw, d') := get_eeprom_raw 0 num_bytes (dev h) in
      {| port := port h; eeprom_cache := eeprom_ifraw; dev := d' |}
  end.

Definition clear_eeprom_cache (h : sfp) : sfp :=
  match eeprom_cache h with
  | Some _ => with_cache None h
  | None => h
  end.

(** [l[offset:]] when [length == 0], [l[offset:(offset+length)]] otherwise. *)
Definition cache_slice {A} (offset length : nat) (l : list A) : list A :=
  if (length =? 0)%nat then drop offset l else take length (drop offset l).

Fixpoint ints_of_hex (l : list string) : result (list Z) :=
  match l with
  | [] => Ok []
  | x :: l' => v ← int x; vs ← ints_of_hex l'; Ok (v :: vs)
  end.

(** [get_eeprom_cache_raw(offset=0, length=0)]: works on a copy
    ([self.eeprom_cache[:]]) of the cache. *)
Definition get_eeprom_cache_raw (offset length : nat) (h : sfp)
  : result (option (list Z)) * sfp :=
  let h1 := match eeprom_cache h with None => populate_eeprom_cache h | Some _ => h end in
  match eeprom_cache h1 with
  | None => (Ok None, h1)
  | Some cache =>
      let eeprom_bytes := cache in
      (bytes ← ints_of_hex eeprom_bytes; Ok (Some (cache_slice offset length bytes)), h1)
  end.

(** [get_eeprom_cache(offset=0, length=0)]: a slice (a new list). *)
Definition get_eeprom_cache (offset length : nat) (h : sfp)
  : option (list string) * sfp :=
  let h1 := match eeprom_cache h with None => populate_eeprom_cache h | Some _ => h end in
  match eeprom_cache h1 with
  | None => (None, h1)
  | Some cache => (Some (cache_slice offset length cache), h1)
  end.

(** A record of the decoders: field name to value, values in their string
    form. *)
Abbreviation dict := (gmap string string).

(** [{}.fromkeys(keys, 'N/A')] *)
Definition fromkeys (keys : list string) : dict :=
  list_to_map ((fun k => (k, "N/A"%string)) <$> keys).

Definition info_dict_keys : list string :=
  [ "type"; "hardware_rev"; "serial"; "manufacturer";
    "model"; "connector"; "encoding"; "ext_identifier";
    "ext_rateselect_compliance"; "cable_type"; "cable_length"; "nominal_bit_rate";
    "specification_compliance"; "type_abbrv_name"; "vendor_date"; "vendor_oui";
    "application_advertisement" ]%string.

Definition dom_info_dict_keys : list string :=
  [ "temperature"; "voltage"; "rx1power";
    "rx2power"; "rx3power"; "rx4power";
    "tx1bias"; "tx2bias"; "tx3bias";
    "tx4bias"; "tx1power"; "tx2power";
    "tx3power"; "tx4power" ]%string.

Definition dom_threshold_keys : list string :=
  [ "temphighalarm"; "temphighwarning";
    "templowalarm"; "templowwarning";
    "vcchighalarm"; "vcchighwarning";
    "vcclowalarm"; "vcclowwarning";
    "rxpowerhighalarm"; "rxpowerhighwarning";
    "rxpowerlowalarm"; "rxpowerlowwarning";
    "txpowerhighalarm"; "txpowerhighwarning";
    "txpowerlowalarm"; "txpowerlowwarning";
    "txbiashighalarm"; "txbiashighwarning";
    "txbiaslowalarm"; "txbiaslowwarning" ]%string.

(** How far an entry point of the decoders is followed.  The per-standard
    decoding that comes after the dispatch on the identified type runs the
    field tables of sff8436.py, sff8472.py, mis2.py and inf8628.py through
    sffbase.py, which is not among the sources: the model stops at the
    dispatch and records the type, the buffer and the record built so far. *)
Inductive outcome (A : Type) : Type :=
| Returned (a : A)
| Decodes (type : eeprom_type) (raw : list string) (so_far : dict).
Arguments Returned {A} a.
Arguments Decodes {A} type raw so_far.

(** [get_transceiver_info()], lines 665-684.  [eeprom_ifraw] is the cache
    list itself, so what [get_eeprom_type] writes into its argument is
    written into the cache. *)
Definition get_transceiver_info (eng : field_engine) (h : sfp)
  : result (outcome (option dict)) * sfp :=
  let transceiver_info_dict := fromkeys info_dict_keys in
  let h1 := populate_eeprom_cache h in
  match eeprom_cache h1 with
  | None => (Ok (Returned None), h1)
  | Some eeprom_ifraw =>
      match get_eeprom_type eng (port h1) eeprom_ifraw with
      | Exn => (Exn, h1)
      | Ok (type, raw') =>
          let h2 := with_cache (Some raw') h1 in
          if is_unknown type then (Ok (Returned None), h2)
          else (Ok (Decodes type raw' transceiver_info_dict), h2)
      end
  end.

(** The common head of [get_transceiver_bulk_status()] (lines 941-959) and
    [get_transceiver_threshold_info()] (lines 1261-1283): a fresh
    [get_eeprom_raw()] of the first 256 bytes is identified. *)
Definition dom_entry (keys : list string) (eng : field_engine) (h : sfp)
  : result (outcome dict) * sfp :=
  let info := fromkeys keys in
  match get_eeprom_raw 0 256 (dev h) with
  | (None, d') => (Ok (Returned info), with_dev d' h)
  | (Some eeprom_ifraw, d') =>
      let h1 := with_dev d' h in
      match get_eeprom_type eng (port h1) eeprom_ifraw with
      | Exn => (Exn, h1)
      | Ok (type, raw') =>
          if is_unknown type then (Ok (Returned info), h1)
          else (Ok (Decodes type raw' info), h1)
      end
  end.

Definition get_transceiver_bulk_status : field_engine -> sfp -> result (outcome dict) * sfp :=
  dom_entry dom_info_dict_keys.

Definition get_transceiver_threshold_info : field_engine -> sfp -> result (outcome dict) * sfp :=
  dom_entry dom_threshold_keys.

(** The operations on a handle that the cache invariant ranges over. *)
Inductive cache_op : Type :=
| OpPopulate
| OpCacheRaw (offset length : nat)
| OpCache (offset length : nat)
| OpInfo
| OpBulkStatus
| OpThresholdInfo
| OpRead (offset num_bytes : nat)
| OpWrite (offset num_bytes : nat) (write_buffer : list Z)
| OpModify (offset : nat) (value mask : Z).

Definition run_op (eng : field_engine) (op : cache_op) (h : sfp) : sfp :=
  match op with
  | OpPopulate => populate_eeprom_cache h
  | OpCacheRaw o l => snd (get_eeprom_cache_raw o l h)
  | OpCache o l => snd (get_eeprom_cache o l h)
  | OpInfo => snd (get_transceiver_info eng h)
  | OpBulkStatus => snd (get_transceiver_bulk_status eng h)
  | OpThresholdInfo => snd (get_transceiver_threshold_info eng h)
  | OpRead o n => with_dev (snd (read_eeprom o n (dev h))) h
  | OpWrite o n b => with_dev (snd (write_eeprom o n b (dev h))) h
  | OpModify o v m => with_dev (snd (modify_eeprom_byte o v m (dev h))) h
  end.



(** A QSFP-DD module whose byte 0 reads 0x00 and whose byte 128 holds the
    identifier. *)
Definition mismatch_handle : sfp :=
  {| port := PORT_TYPE_QSFPDD; eeprom_cache := None;
     dev := {| present := true; contents := <[128%nat := x18]> (replicate 384 x00);
               faults := []; journal := [] |} |}.

Definition cached_handle : sfp :=
  {| port := PORT_TYPE_QSFPDD; eeprom_cache := Some qsfpdd_buffer;
     dev := {| present := true; contents := replicate 384 x00;
               faults := []; journal := [] |} |}.

End Sfp.

(** ** CMIS initialization ([cmis_init]) *)

Module Cmis.

(** [media_eeprom_address(page, offset)] of ext_media_utils.py, which is not
    among the sources: [_page_to_flat_offset] reads its attributes [page] and
    [offset]; where the page is not given it is taken to be 0. *)
Record media_eeprom_address : Type := { page : Z; offset : Z }.

Definition SEC_TO_MS : Z := 1000.
Definition MIN_TO_MS : Z := 60 * SEC_TO_MS.

(** Encoding for the datapath timeouts. *)
Definition timeout_map_ms (code : Z) : option Z :=
  match code with
  | 0 => Some 1 | 1 => Some 5 | 2 => Some 10 | 3 => Some 50 | 4 => Some 100
  | 5 => Some 500 | 6 => Some (1 * SEC_TO_MS) | 7 => Some (5 * SEC_TO_MS)
  | 8 => Some (10 * SEC_TO_MS) | 9 => Some (1 * MIN_TO_MS)
  | 10 => Some (5 * MIN_TO_MS) | 11 => Some (10 * MIN_TO_MS)
  | 12 => Some (50 * MIN_TO_MS)
  | _ => None
  end.

(** Addr, len of bytes to read. *)
Definition FORM_FACTOR_VER_ADDR := ({| page := 0; offset := 0 |}, 1).
Definition CMIS_VER_ADDR := ({| page := 0; offset := 1 |}, 1).
Definition MOD_PWR_LIMIT_ADDR := ({| page := 0; offset := 201 |}, 1).
Definition MOD_FLAGS_ADDR := ({| page := 0; offset := 3 |}, 9).
Definition DATAPATH_DE_INIT_ADDR := ({| page := 0x10; offset := 128 |}, 1).
Definition LOW_PWR_ADDR := ({| page := 0; offset := 26 |}, 1).
Definition MOD_FAULT_ADDR := ({| page := 0; offset := 8 |}, 1).
Definition TX_DISABLE_ADDR := ({| page := 0x10; offset := 130 |}, 1).
Definition STAGED_CS0_APPLY_ADDR := ({| page := 0x10; offset := 143 |}, 1).
Definition STAGED_CS0_SELECT_ADDR := ({| page := 0x10; offset := 145 |}, 8).
Definition DATAPATH_INIT_TIMEOUT := ({| page := 0x01; offset := 144 |}, 1).
Definition DATAPATH_ACTIVATED_STATE_ADDR := ({| page := 0x11; offset := 128 |}, 4).
Definition GENERAL_FAULTS_ADDR := ({| page := 0x11; offset := 134 |}, 9).
Definition CONFIG_ERRORS_ADDR := ({| page := 0x11; offset := 202 |}, 4).
Definition CMIS_MAX_POWER_CLASS_ADDR := ({| page := 0; offset := 200 |}, 1).
Definition CMIS_MEDIA_TYPE_ENCODING_ADDR := ({| page := 0; offset := 85 |}, 1).

Definition MOD_STATE_MASK : Z := 0x7.
Definition MOD_STATE_READY : Z := 3.

Definition DATAPATH_STATE_ACTIVATE : Z := 0x44444444.
Definition DATAPATH_STATE_INITIALIZED : Z := 0x77777777.
Definition CONFIG_STATE_ACCEPTED : Z := 0x11111111.

Definition INIT_TYPE_QUICK : Z := 2.
Definition INIT_TYPE_MEDIUM : Z := 1.
Definition INIT_TYPE_COMPLETE : Z := 0.
Definition INIT_TYPE_AUTO : Z := -1.

Definition DEFAULT_APPLICATION : Z := 1.

(** The driver uses a flat addressing space, while the device is paged. *)
Definition _page_to_flat_offset (addr : media_eeprom_address) : Z :=
  if (page addr >? 0) && (offset addr >? 127)
  then ((page addr + 1) * 128) + Z.land (offset addr) 0x7f
  else offset addr.

(** What a session does to the module and the platform; a trace lists the
    actions newest first. *)
Inductive action : Type :=
| RegWrite (flat_offset : Z) (bytes : list Z) (* sfp_obj.write_eeprom *)
| ModuleReset                                 (* sfp_obj.reset() *)
| SetLpmode (state : bool)                   (* sfp_obj.set_lpmode *)
| Sleep (ms : Z).                            (* time.sleep *)

(** The calls of [self.logger] are left out: they write to syslog when
    logging is on and have no other effect.  Where the evaluation of a log
    message can raise (the [hex(err)] of an unbound [err] in
    [initialize_cmis4]) the exception is kept.

    A [cmis_init] object.  [sfp_obj] is any object with [read_eeprom],
    [write_eeprom], [reset] and, optionally, the lpmode and IntL hooks; how
    it answers is given per kind of call by the number of earlier calls of
    that kind, so that a session ranges over every behaviour of the module.
    [on_read k offset length = None] is [read_eeprom] returning [None];
    [on_reset k = None] is [reset] raising.  [lpmode_ctl] and [intl_ctl] say
    whether the constructor found the hooks; without them the dummy methods
    stay. *)
Record session : Type := {
  on_read : nat -> Z -> Z -> option (list Z);
  on_reset : nat -> option bool;
  on_get_lpmode : nat -> bool;
  on_get_intl_state : nat -> bool;
  lpmode_ctl : bool;
  intl_ctl : bool;
  cmis_ver : Z
}.

(** The mutable part: call counters, [self.lanes_per_port], the actions. *)
Record st : Type := {
  reads : nat;
  resets : nat;
  lpmode_gets : nat;
  intl_gets : nat;
  lanes : Z;
  trace : list action
}.

Definition M (A : Type) : Type := st -> result A * st.

Definition ret {A} (a : A) : M A := fun s => (Ok a, s).

Definition bind {A B} (m : M A) (f : A -> M B) : M B :=
  fun s => match m s with
           | (Ok a, s') => f a s'
           | (Exn, s') => (Exn, s')
           end.

Definition raise {A} : M A := fun s => (Exn, s).

(** [try: m except Exception: handler] *)
Definition try_except {A} (m handler : M A) : M A :=
  fun s => match m s with
           | (Ok a, s') => (Ok a, s')
           | (Exn, s') => handler s'
           end.

Declare Scope cmis_scope.
Delimit Scope cmis_scope with cmis.
Notation "x <- m ;; k" := (bind m (fun x => k))
  (at level 20, m at level 99, k at level 200, only parsing) : cmis_scope.
Notation "m ;; k" := (bind m (fun _ => k))
  (at level 100, k at level 200, right associativity, only parsing) : cmis_scope.
Open Scope cmis_scope.

Definition act (a : action) : M unit :=
  fun s => (Ok tt, {| reads := reads s; resets := resets s;
                      lpmode_gets := lpmode_gets s; intl_gets := intl_gets s;
                      lanes := lanes s; trace := a :: trace s |}).

Definition sleep (ms : Z) : M unit := act (Sleep ms).

(** [buf[i]]: raises on [None] (TypeError) and past the end (IndexError). *)
Definition idx (buf : option (list Z)) (i : nat) : M Z :=
  match buf with
  | Some l => match l !! i with Some v => ret v | None => raise end
  | None => raise
  end.

(** [(buf[0] << 24) | (buf[1] << 16) | (buf[2] << 8) | buf[3]] *)
Definition word32 (buf : option (list Z)) : M Z :=
  b0 <- idx buf 0 ;; b1 <- idx buf 1 ;; b2 <- idx buf 2 ;; b3 <- idx buf 3 ;;
  ret (Z.lor (Z.lor (Z.lor (Z.shiftl b0 24) (Z.shiftl b1 16)) (Z.shiftl b2 8)) b3).

(** The same without effects, for use under a [try]. *)
Definition word32_pure (buf : option (list Z)) : option Z :=
  match buf with
  | Some l =>
      match l !! 0%nat, l !! 1%nat, l !! 2%nat, l !! 3%nat with
      | Some b0, Some b1, Some b2, Some b3 =>
          Some (Z.lor (Z.lor (Z.lor (Z.shiftl b0 24) (Z.shiftl b1 16)) (Z.shiftl b2 8)) b3)
      | _, _, _, _ => None
      end
  | None => None
  end.

(** [bytes[i] |= m] *)
Definition ior (i : nat) (m : Z) (bytes : list Z) : list Z :=
  alter (fun b => Z.lor b m) i bytes.

(** Lines 346-383: the application-select array of [initialize_cmis4]. *)
Definition cmis4_app_select (application lanes_per_port retries : Z) : list Z :=
  let bytes := replicate 8 (Z.shiftl application 4) in
  let bytes :=
    if lanes_per_port =? 8 then bytes
    else if lanes_per_port =? 4 then
      ior 7 0x08 (ior 6 0x08 (ior 5 0x08 (ior 4 0x08 bytes)))
    else if lanes_per_port =? 2 then
      ior 7 0x0c (ior 6 0x0c (ior 5 0x08 (ior 4 0x08 (ior 3 0x04 (ior 2 0x04 bytes)))))
    else if lanes_per_port =? 1 then
      ior 7 0x0e (ior 6 0x0c (ior 5 0x0a (ior 4 0x08
        (ior 3 0x06 (ior 2 0x04 (ior 1 0x02 bytes))))))
    else bytes in
  (* Toggle the BIT0 (i.e. application-defined) and try again *)
  if negb (Z.land retries 0x01 =? 0) then
    ior 7 0x01 (ior 6 0x01 (ior 5 0x01 (ior 4 0x01
      (ior 3 0x01 (ior 2 0x01 (ior 1 0x01 (ior 0 0x01 bytes)))))))
  else bytes.

(** Lines 536-573: the application-select array of [initialize_cmis3]. *)
Definition cmis3_app_select (application lanes_per_port retries : Z) : list Z :=
  let bytes := replicate 8 (Z.shiftl application 4) in
  let bytes :=
    if lanes_per_port =? 8 then bytes
    else if lanes_per_port =? 4 then
      ior 7 0x08 (ior 6 0x08 (ior 5 0x08 (ior 4 0x08 bytes)))
    else if lanes_per_port =? 2 then
      ior 7 0x0c (ior 6 0x0c (ior 5 0x08 (ior 4 0x08 (ior 3 0x04 (ior 2 0x04 bytes)))))
    else if lanes_per_port =? 1 then
      ior 7 0x0e (ior 6 0x0c (ior 5 0x0a (ior 4 0x08
        (ior 3 0x06 (ior 2 0x04 (ior 1 0x02 bytes))))))
    else bytes in
  (* Toggle the BIT0 (i.e. application-defined) and try again *)
  if retries =? 0 then
    ior 7 0x01 (ior 6 0x01 (ior 5 0x01 (ior 4 0x01
      (ior 3 0x01 (ior 2 0x01 (ior 1 0x01 (ior 0 0x01 bytes)))))))
  else bytes.

(** The [bitmask] dictionary of [initialize_cmis4]; [None] is the KeyError. *)
Definition bitmask (lanes_per_port : Z) : option Z :=
  match lanes_per_port with
  | 2 => Some 0xffffffff
  | 4 => Some 0xffff0000
  | 8 => Some 0xffffffff
  | _ => None
  end.

(** [test_dp_actv(da)] of [initialize_cmis3]: all equal to 0x44 or 0x77. *)
Definition test_dp_actv (da : option (list Z)) : M bool :=
  orig <- idx da 0 ;;
  match da with
  | Some l =>
      if forallb (fun d => d =? orig) l
      then ret ((orig =? 0x44) || (orig =? 0x77))
      else ret false
  | None => raise
  end.

(** Pure part of [determine_init_type]. *)
Definition init_type_of (cmis_ver m_type : Z) : Z :=
  if (m_type =? 0x03) || (m_type =? 0x05) then INIT_TYPE_QUICK
  else if cmis_ver =? 0x30 then INIT_TYPE_COMPLETE
  else if m_type =? 0x04 then INIT_TYPE_MEDIUM
  else if (m_type =? 0x01) || (m_type =? 0x02) then INIT_TYPE_COMPLETE
  else INIT_TYPE_QUICK.

(** Where one pass through [initialize_cmis3] ends: with a [return] of a
    boolean, or with the tail call
    [return self.initialize_cmis3(application, self.lanes_per_port, retries', init_type', force)]. *)
Inductive attempt : Type :=
| Done (ret : bool)
| Again (retries init_type : Z).

Section Session.
Variable self : session.

(** [self.sfp_obj.read_eeprom(offset, length)] *)
Definition sfp_read_eeprom (flat_offset length : Z) : M (option (list Z)) :=
  fun s => (Ok (on_read self (reads s) flat_offset length),
            {| reads := S (reads s); resets := resets s;
               lpmode_gets := lpmode_gets s; intl_gets := intl_gets s;
               lanes := lanes s; trace := trace s |}).

Definition read_bytes (addr : media_eeprom_address) (length : Z)
  : M (option (list Z)) :=
  sfp_read_eeprom (_page_to_flat_offset addr) length.

Definition write_bytes (addr : media_eeprom_address) (bytes : list Z) : M unit :=
  act (RegWrite (_page_to_flat_offset addr) bytes).

(** [reset()]: the 2 s delay is skipped when [sfp_obj.reset()] raises. *)
Definition reset : M bool :=
  fun s =>
    let s' := {| reads := reads s; resets := S (resets s);
                 lpmode_gets := lpmode_gets s; intl_gets := intl_gets s;
                 lanes := lanes s; trace := ModuleReset :: trace s |} in
    match on_reset self (resets s) with
    | Some r => (r' <- sleep 2000 ;; ret r) s'
    | None => (Ok false, s')
    end.

Definition get_lpmode : M bool :=
  if lpmode_ctl self then
    fun s => (Ok (on_get_lpmode self (lpmode_gets s)),
              {| reads := reads s; resets := resets s;
                 lpmode_gets := S (lpmode_gets s); intl_gets := intl_gets s;
                 lanes := lanes s; trace := trace s |})
  else ret true.

Definition set_lpmode (state : bool) : M unit :=
  if lpmode_ctl self then act (SetLpmode state) else ret tt.

(** Active low; [false] implies interrupt triggered. *)
Definition get_intl_state : M bool :=
  if intl_ctl self then
    fun s => (Ok (on_get_intl_state self (intl_gets s)),
              {| reads := reads s; resets := resets s;
                 lpmode_gets := lpmode_gets s; intl_gets := S (intl_gets s);
                 lanes := lanes s; trace := trace s |})
  else ret true.

Definition get_general_faults : M (option (list Z)) :=
  read_bytes (fst GENERAL_FAULTS_ADDR) (snd GENERAL_FAULTS_ADDR).

Definition get_module_flags : M (option (list Z)) :=
  read_bytes (fst MOD_FLAGS_ADDR) (snd MOD_FLAGS_ADDR).

Definition get_datapath_activated_states : M (option (list Z)) :=
  read_bytes (fst DATAPATH_ACTIVATED_STATE_ADDR) (snd DATAPATH_ACTIVATED_STATE_ADDR).

Definition get_config_errors : M (option (list Z)) :=
  read_bytes (fst CONFIG_ERRORS_ADDR) (snd CONFIG_ERRORS_ADDR).

Definition set_datapath_init (state : bool) : M unit :=
  let val :=
    if cmis_ver self <? 0x40
    then (if state then 0xFF else 0x00)
    else (if state then 0x00 else 0xFF) in
  write_bytes (fst DATAPATH_DE_INIT_ADDR) [val].

Definition set_high_power : M unit :=
  write_bytes (fst LOW_PWR_ADDR) [0x00].

Definition get_mod_fault : M Z :=
  buf <- read_bytes (fst MOD_FAULT_ADDR) (snd MOD_FAULT_ADDR) ;;
  idx buf 0.

Definition set_tx_disable (state : bool) : M unit :=
  let val := if state then 0xFF else 0x00 in
  write_bytes (fst TX_DISABLE_ADDR) [val].

Definition get_datapath_timeout : M Z :=
  buf <- read_bytes (fst DATAPATH_INIT_TIMEOUT) (snd DATAPATH_INIT_TIMEOUT) ;;
  val <- idx buf 0 ;;
  let val := Z.land val 0x0F in
  ret (match timeout_map_ms val with Some t => t | None => 10 * SEC_TO_MS end).

(** [check_power_compat()]: after the two reads, [self.max_port_power()]
    calls the number that the constructor stored in [max_port_power], which
    raises TypeError. *)
Definition check_power_compat : M bool :=
  buf <- read_bytes (fst CMIS_MAX_POWER_CLASS_ADDR) (snd CMIS_MAX_POWER_CLASS_ADDR) ;;
  _ <- idx buf 0 ;;
  buf <- read_bytes (fst CMIS_MAX_POWER_CLASS_ADDR) (snd CMIS_MAX_POWER_CLASS_ADDR) ;;
  _ <- idx buf 0 ;;
  raise.

Definition determine_init_type : M Z :=
  buf <- read_bytes (fst CMIS_MEDIA_TYPE_ENCODING_ADDR) (snd CMIS_MEDIA_TYPE_ENCODING_ADDR) ;;
  m_type <- idx buf 0 ;;
  ret (init_type_of (cmis_ver self) m_type).

(** [for t in range(n)]: wait for the datapaths to report 0x11111111. *)
Fixpoint deinit_wait (n : nat) : M unit :=
  match n with
  | O => ret tt
  | S n' =>
      sleep 1000 ;;
      buf <- get_datapath_activated_states ;;
      err_d <- word32 buf ;;
      if err_d =? 0x11111111 then ret tt else deinit_wait n'
  end.

(** [for t in range(n)] of [initialize_cmis4], config errors: the body is
    under [try ... except: continue].  Returns [conf_ready] and [err]
    ([None] while the local is unbound). *)
Fixpoint config_poll (n : nat) (lanes_per_port : Z) (err : option Z)
  : M (bool * option Z) :=
  match n with
  | O => ret (false, err)
  | S n' =>
      sleep 1000 ;;
      buf <- get_config_errors ;;
      match word32_pure buf with
      | None => config_poll n' lanes_per_port err
      | Some e =>
          match bitmask lanes_per_port with
          | None => config_poll n' lanes_per_port (Some e)
          | Some bm =>
              if negb (Z.land e bm =? Z.land CONFIG_STATE_ACCEPTED bm)
              then config_poll n' lanes_per_port (Some e)
              else ret (true, Some e)
          end
      end
  end.

(** [for t in range(n)] of [initialize_cmis4], datapath states. *)
Fixpoint datapath_poll (n : nat) (lanes_per_port : Z) (err : option Z)
  : M (bool * option Z) :=
  match n with
  | O => ret (false, err)
  | S n' =>
      sleep 1000 ;;
      buf <- get_datapath_activated_states ;;
      match buf with
      | None => datapath_poll n' lanes_per_port err
      | Some _ =>
          e <- word32 buf ;;
          match bitmask lanes_per_port with
          | None => raise
          | Some bm =>
              if negb (Z.land e bm =? Z.land DATAPATH_STATE_ACTIVATE bm)
                 && negb (Z.land e bm =? Z.land DATAPATH_STATE_INITIALIZED bm)
              then datapath_poll n' lanes_per_port (Some e)
              else ret (true, Some e)
          end
      end
  end.

(** The [while not ready and retries >= 0] loop of [initialize_cmis4].
    [retries] goes down by one per iteration, so [n] counts the iterations
    left: [n = retries + 1].  Returns [ready]. *)
Fixpoint cmis4_attempts (n : nat) (application lanes_per_port : Z)
  (err : option Z) : M bool :=
  match n with
  | O => ret false
  | S n' =>
      let retries := Z.of_nat n' in
      reset ;;
      write_bytes (fst LOW_PWR_ADDR) [0x10] ;;
      set_tx_disable true ;;
      set_datapath_init false ;;
      sleep 1000 ;;
      deinit_wait 20 ;;
      write_bytes (fst STAGED_CS0_SELECT_ADDR)
        (cmis4_app_select application lanes_per_port retries) ;;
      write_bytes (fst STAGED_CS0_APPLY_ADDR) [0xff] ;;
      set_high_power ;;
      r <- config_poll 5 lanes_per_port err ;;
      let '(conf_ready, err) := r in
      if negb conf_ready then
        (* hex(err) in the log message: UnboundLocalError if never bound *)
        match err with None => raise | Some _ => ret tt end ;;
        cmis4_attempts n' application lanes_per_port err
      else
        set_datapath_init true ;;
        r <- datapath_poll 30 lanes_per_port err ;;
        let '(ready, err) := r in
        if ready then ret true
        else cmis4_attempts n' application lanes_per_port err
  end.

Definition initialize_cmis4 (application lanes_per_port retries : Z) : M bool :=
  buf <- read_bytes (fst STAGED_CS0_SELECT_ADDR) 1 ;;
  b <- idx buf 0 ;;
  let cur := Z.shiftr b 4 in
  buf <- read_bytes (fst MOD_FLAGS_ADDR) 1 ;;
  b <- idx buf 0 ;;
  let sta := Z.land (Z.shiftr b 1) MOD_STATE_MASK in
  if (cur =? application) && (sta =? MOD_STATE_READY) then ret true
  else
    let retries := retries * 2 in
    ready <- cmis4_attempts (Z.to_nat (retries + 1)) application lanes_per_port None ;;
    set_tx_disable false ;;
    ret ready.

(** [while self.get_intl_state() == True and intl_timeout > 0] *)
Fixpoint wait_intl (intl_timeout : nat) : M unit :=
  b <- get_intl_state ;;
  if b : bool then
    match intl_timeout with
    | O => ret tt
    | S t => sleep 1000 ;; wait_intl t
    end
  else ret tt.

(** [while not test_dp_actv(dp_actv) and dp_init_timeout > 0]: the timeout,
    in seconds as a float in the source, goes down by 1.0 per iteration, so
    the loop has [n] iterations left where [n] is the timeout rounded up. *)
Fixpoint wait_dp_actv (n : nat) (dp_actv : option (list Z)) : M unit :=
  ok <- test_dp_actv dp_actv ;;
  if ok : bool then ret tt
  else
    match n with
    | O => ret tt
    | S n' =>
        dp_actv' <- get_datapath_activated_states ;;
        sleep 1000 ;;
        wait_dp_actv n' dp_actv'
    end.

(** [while passes < 3]: returns [err_seen]. *)
Fixpoint flag_passes (n : nat) (err_seen : bool) : M bool :=
  match n with
  | O => ret err_seen
  | S n' =>
      mod_flags <- get_module_flags ;;
      f0 <- idx mod_flags 0 ;;
      f5 <- idx mod_flags 5 ;;
      let err_seen := negb (Z.land f0 (Z.shiftl 3 1) =? Z.shiftl 3 1)
                      || negb (Z.land f5 0x06 =? 0) in
      if negb err_seen then ret false else flag_passes n' true
  end.

(** [initialize_cmis3] from [if init_type == INIT_TYPE_AUTO] on. *)
Definition cmis3_sequence (application lanes_per_port retries init_type : Z)
  : M attempt :=
  init_type <- (if init_type =? INIT_TYPE_AUTO then determine_init_type
                else ret init_type) ;;
  if init_type =? INIT_TYPE_QUICK then
    set_lpmode false ;;
    sleep 3000 ;;
    l <- get_lpmode ;;
    ret (Done (negb l))
  else
    wait_intl 5 ;;
    get_module_flags ;;
    get_general_faults ;;
    set_tx_disable true ;;
    (if init_type =? INIT_TYPE_COMPLETE then set_datapath_init false else ret tt) ;;
    deinit_wait 20 ;;
    wait_intl 10 ;;
    get_mod_fault ;;
    (if init_type =? INIT_TYPE_COMPLETE then
       write_bytes (fst STAGED_CS0_SELECT_ADDR)
         (cmis3_app_select application lanes_per_port retries) ;;
       write_bytes (fst STAGED_CS0_APPLY_ADDR) [0xff] ;;
       sleep 1000 ;;
       set_high_power ;;
       set_datapath_init true ;;
       t <- get_datapath_timeout ;;
       let dp_init_timeout := t * 2 in
       dp_actv <- get_datapath_activated_states ;;
       wait_dp_actv (Z.to_nat ((dp_init_timeout + 999) / 1000)) dp_actv
     else ret tt) ;;
    (if negb (init_type =? INIT_TYPE_COMPLETE) then set_high_power else ret tt) ;;
    set_tx_disable false ;;
    retry <- (if init_type =? INIT_TYPE_COMPLETE then
                sleep 1000 ;;
                dp_actv <- get_datapath_activated_states ;;
                match dp_actv with
                | Some l => ret (existsb (fun d => negb (d =? 0x44)) l)
                | None => raise
                end
              else ret false) ;;
    if retry : bool then ret (Again (retries - 1) init_type)
    else
      err_seen <- flag_passes 3 false ;;
      if err_seen : bool then ret (Again (retries - 3) INIT_TYPE_COMPLETE)
      else ret (Done true).

(** One pass through [initialize_cmis3]. *)
Definition cmis3_attempt (application lanes_per_port retries init_type : Z)
  (force : bool) : M attempt :=
  if retries <? 0 then ret (Done false)
  else
    buf <- read_bytes (fst STAGED_CS0_SELECT_ADDR) 1 ;;
    b <- idx buf 0 ;;
    let cur := Z.shiftr b 4 in
    buf <- read_bytes (fst MOD_FLAGS_ADDR) 1 ;;
    b <- idx buf 0 ;;
    let sta := Z.land (Z.shiftr b 1) MOD_STATE_MASK in
    if (cur =? application) && (sta =? MOD_STATE_READY) then ret (Done true)
    else if force then
      reset ;;
      set_lpmode true ;;
      sleep 2000 ;;
      cmis3_sequence application lanes_per_port retries init_type
    else
      incompatible <- check_power_compat ;;
      if incompatible : bool then ret (Done false)
      else cmis3_sequence application lanes_per_port retries init_type.

(** [initialize_cmis3]: the recursion of the source, one level per unit of
    [depth]; running out of depth raises (as Python's recursion limit does).
    [initialize_cmis3] below gives it more depth than it can use. *)
Fixpoint cmis3_run (depth : nat) (application lanes_per_port retries init_type : Z)
  (force : bool) : M bool :=
  match depth with
  | O => raise
  | S depth' =>
      a <- cmis3_attempt application lanes_per_port retries init_type force ;;
      match a with
      | Done r => ret r
      | Again retries' init_type' =>
          fun s => cmis3_run depth' application (lanes s) retries' init_type' force s
      end
  end.

Definition initialize_cmis3 (application lanes_per_port retries init_type : Z)
  (force : bool) : M bool :=
  cmis3_run (S (Z.to_nat (retries + 1))) application lanes_per_port retries
    init_type force.

Definition set_lanes_per_port (lanes_per_port : Z) : M unit :=
  fun s => (Ok tt, {| reads := reads s; resets := resets s;
                      lpmode_gets := lpmode_gets s; intl_gets := intl_gets s;
                      lanes := lanes_per_port; trace := trace s |}).

(** The [try] block of [initialize]. *)
Definition initialize_body (application lanes_per_port retries : Z) : M bool :=
  set_lanes_per_port lanes_per_port ;;
  if cmis_ver self >=? 0x40 then
    initialize_cmis4 application lanes_per_port retries
  else if cmis_ver self >=? 0x30 then
    initialize_cmis3 application lanes_per_port retries INIT_TYPE_AUTO true
  else ret false.

(** [initialize(application, lanes_per_port, retries)] *)
Definition initialize (application lanes_per_port retries : Z) : M bool :=
  try_except (initialize_body application lanes_per_port retries) (ret false).

End Session.

Definition start : st :=
  {| reads := 0; resets := 0; lpmode_gets := 0; intl_gets := 0;
     lanes := 1; trace := [] |}.

(** The writes of a trace to the tx-disable register, newest first. *)
Definition tx_disable_writes (tr : list action) : list (list Z) :=
  omap (fun a => match a with
                 | RegWrite o bytes =>
                     if o =? _page_to_flat_offset (fst TX_DISABLE_ADDR)
                     then Some bytes else None
                 | _ => None
                 end) tr.

(** The writes of a trace to the staged application-select registers. *)
Definition app_select_writes (tr : list action) : list (list Z) :=
  omap (fun a => match a with
                 | RegWrite o bytes =>
                     if o =? _page_to_flat_offset (fst STAGED_CS0_SELECT_ADDR)
                     then Some bytes else None
                 | _ => None
                 end) tr.


(** The lane markers as the specification gives them. *)
Definition lane_markers (lanes_per_port : Z) : list Z :=
  if lanes_per_port =? 8 then [0; 0; 0; 0; 0; 0; 0; 0]
  else if lanes_per_port =? 4 then [0; 0; 0; 0; 0x08; 0x08; 0x08; 0x08]
  else if lanes_per_port =? 2 then [0; 0; 0x04; 0x04; 0x08; 0x08; 0x0c; 0x0c]
  else if lanes_per_port =? 1 then [0; 0x02; 0x04; 0x06; 0x08; 0x0a; 0x0c; 0x0e]
  else [0; 0; 0; 0; 0; 0; 0; 0].

(** [(application << 4) | lane_role_bits], with bit 0 of every byte set on a
    toggled attempt. *)
Definition app_select_pattern (application lanes_per_port : Z) (toggle : bool)
  : list Z :=
  map (fun marker =>
         Z.lor (Z.lor (Z.shiftl application 4) marker) (if toggle then 0x01 else 0))
      (lane_markers lanes_per_port).

Definition supported_lanes (lanes_per_port : Z) : Prop :=
  lanes_per_port = 1 \/ lanes_per_port = 2 \/ lanes_per_port = 4 \/ lanes_per_port = 8.

(** A write to the application-select registers carries the pattern. *)
Definition select_conforms (application lanes_per_port : Z) (a : action) : Prop :=
  match a with
  | RegWrite o bytes =>
      if o =? _page_to_flat_offset (fst STAGED_CS0_SELECT_ADDR)
      then exists toggle, bytes = app_select_pattern application lanes_per_port toggle
      else True
  | _ => True
  end.


(** [P] holds of every action that is not a register write. *)
Definition benign (P : action -> Prop) : Prop :=
  (forall ms, P (Sleep ms)) /\ P ModuleReset /\ (forall b, P (SetLpmode b)).

(** [m] adds to the trace only actions that satisfy [P], and leaves
    [self.lanes_per_port] at [L]. *)
Definition appends (P : action -> Prop) (L : Z) {A} (m : M A) : Prop :=
  forall s, lanes s = L ->
    exists l, trace (snd (m s)) = l ++ trace s /\ Forall P l /\ lanes (snd (m s)) = L.

(** Every value that [m] returns satisfies [Q]. *)
Definition returns {A} (Q : A -> Prop) (m : M A) : Prop :=
  forall s a s', m s = (Ok a, s') -> Q a.




(** A tail call of [initialize_cmis3] is made with a smaller [retries], and
    only when [retries] was not negative. *)
Definition smaller_retries (retries : Z) (a : attempt) : Prop :=
  match a with
  | Done _ => True
  | Again retries' _ => 0 <= retries /\ retries' < retries
  end.

(** Concrete sessions for the examples: a module that answers a read by the
    number [k] of earlier reads, the flat offset and the length. *)
Definition answering (answer : nat -> Z -> Z -> option (list Z)) (ver : Z)
  : session :=
  {| on_read := answer;
     on_reset := fun _ => Some true;
     on_get_lpmode := fun _ => false;
     on_get_intl_state := fun _ => false;
     lpmode_ctl := true; intl_ctl := true;
     cmis_ver := ver |}.


(** CMIS 4.0; the application is already selected and the module is ready. *)
Definition ready_session : session :=
  answering (fun _ o _ => if o =? 2193 then Some [0x10] else Some [0x06]) 0x40.

(** CMIS 4.0; the configuration is never accepted. *)
Definition rejecting_session : session :=
  answering (fun _ o _ =>
               if o =? 2304 then Some [0x11; 0x11; 0x11; 0x11]
               else Some [0; 0; 0; 0]) 0x40.

(** CMIS 4.0; every read of the datapath states fails. *)
Definition unreadable_session : session :=
  answering (fun _ o _ => if o =? 2304 then None else Some [0; 0; 0; 0]) 0x40.

(** CMIS 3.0, an active cable (media type encoding 0x04). *)
Definition active_cable_session : session :=
  answering (fun _ _ _ => Some [0x04]) 0x30.

(** CMIS 3.0, a multi-mode optic (media type encoding 0x01). *)
Definition optical_session : session :=
  answering (fun _ _ _ => Some [0x01]) 0x30.

End Cmis.

(** ** Module type, low-power mode and soft reset of [SfpStandard] *)

Module Control.
Import Hex Channel Identify Sfp.

Definition SFF8472_CONNECTOR_ADDR : nat := 2.
Definition SFF8636_CONNECTOR_ADDR : nat := 130.
Definition SFF8636_PWR_CTRL_ADDR : nat := 93.
Definition CMIS_CONNECTOR_ADDR : nat := 203.

Definition CMIS_IDS : list Z := [0x18; 0x19].
Definition CMIS_REG_REV : nat := 1.
Definition CMIS_REG_MOD_CTRL : nat := 26.
Definition CMIS_REG_ID : nat := 128.
Definition CMIS_MOD_CTRL_SW_RESET : Z := 0x08.
Definition CMIS_MOD_CTRL_FORCE_LP : Z := 0x10.

(** [connector_dict] of sff8024.py. *)
Definition connector_dict : gmap string string :=
  list_to_map
    [ ("00", "Unknown or unspecified"); ("01", "SC");
      ("02", "FC Style 1 copper connector"); ("03", "FC Style 2 copper connector");
      ("04", "BNC/TNC"); ("05", "FC coax headers"); ("06", "Fiberjack");
      ("07", "LC"); ("08", "MT-RJ"); ("09", "MU"); ("0a", "SG");
      ("0b", "Optical Pigtail"); ("0c", "MPO 1x12"); ("0d", "MPO 2x16");
      ("20", "HSSDC II"); ("21", "Copper pigtail"); ("22", "RJ45");
      ("23", "No separable connector"); ("24", "MXC 2x16");
      ("25", "CS optical connector"); ("26", "SN optical connector");
      ("27", "MPO 2x12"); ("28", "MPO 1x16") ]%string.

(** The number of bytes that [populate_eeprom_cache] reads for a port. *)
Definition cache_size (pt : port_type) : nat :=
  match pt with
  | PORT_TYPE_QSFPDD | PORT_TYPE_SFPDD => 384%nat
  | PORT_TYPE_QSFP => 256%nat
  | _ => 128%nat
  end.

(** Methods of a handle that may raise. *)
Definition H (A : Type) : Type := sfp -> result A * sfp.

Definition hret {A} (a : A) : H A := fun h => (Ok a, h).

Definition hbind {A B} (m : H A) (f : A -> H B) : H B :=
  fun h => match m h with
           | (Ok a, h') => f a h'
           | (Exn, h') => (Exn, h')
           end.

Definition hraise {A} : H A := fun h => (Exn, h).

Declare Scope handle_scope.
Delimit Scope handle_scope with handle.
Notation "x <- m ;; k" := (hbind m (fun x => k))
  (at level 20, m at level 99, k at level 200, only parsing) : handle_scope.
Notation "m ;; k" := (hbind m (fun _ => k))
  (at level 100, k at level 200, right associativity, only parsing) : handle_scope.
Open Scope handle_scope.

(** A call on the module behind the handle. *)
Definition on_dev {A} (f : eeprom -> A * eeprom) : H A :=
  fun h => let (a, d') := f (dev h) in (Ok a, with_dev d' h).

(** A method of the handle that does not raise. *)
Definition total {A} (f : sfp -> A * sfp) : H A :=
  fun h => let (a, h') := f h in (Ok a, h').

(** [buf[i]]: [Exn] is the [IndexError]. *)
Definition hidx (buf : list Z) (i : nat) : H Z :=
  match buf !! i with Some v => hret v | None => hraise end.

(** [try: body except: return default] around a whole method body. *)
Definition guarded {A} (default : A) (body : H A) (h : sfp) : A * sfp :=
  match body h with
  | (Ok a, h') => (a, h')
  | (Exn, h') => (default, h')
  end.

(** The digits of [format(v, 'x')] for [v >= 0], most significant first. *)
Fixpoint hex_of (fuel : nat) (v : Z) (acc : string) : string :=
  let acc := String (hexdigit (v mod 16)) acc in
  match fuel with
  | O => acc
  | S fuel' => if v / 16 =? 0 then acc else hex_of fuel' (v / 16) acc
  end.

(** ["{0:0{1}x}".format(v, 2)] for any integer: at least two characters,
    zero-filled after the sign. *)
Definition format_02x (v : Z) : string :=
  if v <? 0 then String "-" (hex_of (Z.to_nat (Z.log2 (- v))) (- v) EmptyString)
  else
    let s := hex_of (Z.to_nat (Z.log2 v)) v EmptyString in
    if (String.length s <? 2)%nat then String "0" s else s.

(** [get_module_type()]: [len(buf)] raises when the cache cannot be
    populated and [get_eeprom_cache_raw] returns [None]. *)
Definition get_module_type : H Z :=
  buf <- get_eeprom_cache_raw 0 1 ;;
  match buf with
  | None => hraise
  | Some [] => hret 0
  | Some (b :: _) => hret b
  end.

Definition get_module_type_raw : H string :=
  mt <- get_module_type ;;
  hret (format_02x mt).

Definition __is_direct_attach_cable : H bool :=
  mtype <- get_module_type_raw ;;
  code <- (if str_in mtype SFF8024_TYPE_SFP then
             total (get_eeprom_cache SFF8472_CONNECTOR_ADDR 1)
           else if str_in mtype SFF8024_TYPE_QSFP then
             total (get_eeprom_cache SFF8636_CONNECTOR_ADDR 1)
           else if str_in mtype (SFF8024_TYPE_QSFPDD ++ SFF8024_TYPE_QSFP_CMIS_COMPLIANT) then
             total (get_eeprom_cache CMIS_CONNECTOR_ADDR 1)
           else hret None) ;;
  let ctype :=
    match code with
    | None | Some [] => None
    | Some (c :: _) => connector_dict !! c
    end in
  match ctype with
  | Some t => hret (str_in t ["Copper pigtail"; "No separable connector"]%string)
  | None => hret false
  end.

(** [d'] is the module [d] after calls that only read: the same bytes, the
    same presence, no byte written, and no pending fault if there was none. *)
Definition only_read (d d' : eeprom) : Prop :=
  contents d' = contents d /\ present d' = present d
  /\ writes d' = writes d /\ (faults d = [] -> faults d' = []).

(** [d'] has the size of [d] and the bytes of [d] outside [I]. *)
Definition same_outside (I : nat -> Prop) (d d' : eeprom) : Prop :=
  length (contents d') = length (contents d)
  /\ forall i : nat, ~ I i -> contents d' !! i = contents d !! i.

(** Whatever [m] returns or raises, it takes the module behind the handle
    to one related by [R], and keeps the port type. *)
Definition dev_related (R : eeprom -> eeprom -> Prop) {A} (m : H A) : Prop :=
  forall h : sfp, port (snd (m h)) = port h /\ R (dev h) (dev (snd (m h))).

(** What [get_module_type_raw] and [__is_direct_attach_cable] compute from
    a populated cache [c]. *)
Definition module_type_of_cache (c : list string) : result string :=
  bytes ← ints_of_hex c;
  Ok (format_02x (match cache_slice 0 1 bytes with b :: _ => b | [] => 0 end)).

Definition connector_of_cache (c : list string) (addr : nat) : option string :=
  match cache_slice addr 1 c with
  | [] => None
  | code :: _ => connector_dict !! code
  end.

Definition dac_of_cache (c : list string) : result bool :=
  mtype ← module_type_of_cache c;
  let ctype :=
    if str_in mtype SFF8024_TYPE_SFP then connector_of_cache c SFF8472_CONNECTOR_ADDR
    else if str_in mtype SFF8024_TYPE_QSFP then connector_of_cache c SFF8636_CONNECTOR_ADDR
    else if str_in mtype (SFF8024_TYPE_QSFPDD ++ SFF8024_TYPE_QSFP_CMIS_COMPLIANT)
         then connector_of_cache c CMIS_CONNECTOR_ADDR
    else None in
  Ok (match ctype with
      | Some t => str_in t ["Copper pigtail"; "No separable connector"]%string
      | None => false
      end).

(** The common head of [get_lpmode] and [set_lpmode]: is the module to be
    driven through the SFF-8636 power control byte? *)
Definition is_sff8636 : H bool :=
  fun h =>
    match port h with
    | PORT_TYPE_QSFP => hret true h
    | PORT_TYPE_QSFPDD =>
        (module_type <- get_module_type_raw ;;
         hret (negb (str_in module_type
                       (SFF8024_TYPE_QSFPDD ++ SFF8024_TYPE_QSFP_CMIS_COMPLIANT)))) h
    | _ => hret false h
    end.

(** [get_lpmode()]: [True] unless the power override bit is set and the
    power set bit is clear. *)
Definition get_lpmode : sfp -> bool * sfp :=
  guarded true
    (sff8636 <- is_sff8636 ;;
     if sff8636 : bool then
       dac <- __is_direct_attach_cable ;;
       if dac : bool then hret true
       else
         buf <- on_dev (read_eeprom SFF8636_PWR_CTRL_ADDR 1) ;;
         match buf with
         | None => hret true
         | Some l =>
             b <- hidx l 0 ;;
             if negb (Z.land b 0x01 =? 0)
             then hret (negb (Z.land b 0x02 =? 0))
             else hret true
         end
     else hret true).

(** [set_lpmode(lpmode)] *)
Definition set_lpmode (lpmode : bool) : sfp -> bool * sfp :=
  guarded false
    (sff8636 <- is_sff8636 ;;
     if sff8636 : bool then
       dac <- __is_direct_attach_cable ;;
       if dac : bool then hret lpmode
       else
         buf <- on_dev (read_eeprom SFF8636_PWR_CTRL_ADDR 1) ;;
         match buf with
         | None => hret false
         | Some l =>
             b <- hidx l 0 ;;
             let val := Z.land b 0xf0 in
             let val := if lpmode then Z.lor val 0x03  (* power class 1 only *)
                        else Z.lor val 0x0d in         (* power class 1-8 *)
             on_dev (write_eeprom SFF8636_PWR_CTRL_ADDR 1 [val])
         end
     else hret false).

(** [soft_reset()]: under [eeprom_lock], so with [__read_eeprom] and
    [__write_eeprom]. *)
Definition soft_reset : H bool :=
  fun h =>
    match port h with
    | PORT_TYPE_QSFPDD =>
        (id <- on_dev (__read_eeprom CMIS_REG_ID 1) ;;
         match id with
         | None => hret false
         | Some l =>
             id0 <- hidx l 0 ;;
             if negb (existsb (Z.eqb id0) CMIS_IDS) then hret false
             else
               rev <- on_dev (__read_eeprom CMIS_REG_REV 1) ;;
               match rev with
               | None => hret false
               | Some l =>
                   rev0 <- hidx l 0 ;;
                   if rev0 <? 0x30 then hret false
                   else
                     let off := CMIS_REG_MOD_CTRL in
                     let val := Z.lor CMIS_MOD_CTRL_SW_RESET CMIS_MOD_CTRL_FORCE_LP in
                     ret <- on_dev (__write_eeprom off 1 [val]) ;;
                     (if ret : bool then on_dev (fun d => (tt, log (EvSleep 1000) d))
                      else hret tt) ;;
                     hret ret
               end
         end) h
    | _ => hret false h
    end.

(** [__twos_comp(num, bits)]: [1 << (bits - 1)] raises for [bits < 1], and
    the function then returns 0. *)
Definition __twos_comp (num bits : Z) : Z :=
  if bits - 1 <? 0 then 0
  else if negb (Z.land num (Z.shiftl 1 (bits - 1)) =? 0) then num - Z.shiftl 1 bits
  else num.

(** [__get_byte(off)] *)
Definition __get_byte (off : nat) (d : eeprom) : Z * eeprom :=
  match read_eeprom off 1 d with
  | (Some (b :: _), d') => (b, d')
  | (_, d') => (0, d')
  end.

(** [__get_word(off)]: big-endian. *)
Definition __get_word (off : nat) (d : eeprom) : Z * eeprom :=
  match read_eeprom off 2 d with
  | (Some (b0 :: b1 :: _), d') => (Z.lor (Z.shiftl b0 8) b1, d')
  | (_, d') => (0, d')
  end.

(** A QSFP28 module with an LC connector, power control byte 0x50. *)
Definition qsfp_handle : sfp :=
  {| port := PORT_TYPE_QSFP; eeprom_cache := None;
     dev := {| present := true;
               contents := <[0%nat := x11]> (<[93%nat := x50]> (<[130%nat := x07]>
                             (replicate 256 x00)));
               faults := []; journal := [] |} |}.

(** A QSFP28 direct attach cable: no separable connector. *)
Definition qsfp_dac_handle : sfp :=
  {| port := PORT_TYPE_QSFP; eeprom_cache := None;
     dev := {| present := true;
               contents := <[0%nat := x11]> (<[93%nat := x50]> (<[130%nat := x23]>
                             (replicate 256 x00)));
               faults := []; journal := [] |} |}.

(** A QSFP port with nothing plugged in. *)
Definition empty_port_handle : sfp :=
  {| port := PORT_TYPE_QSFP; eeprom_cache := None;
     dev := {| present := false; contents := []; faults := []; journal := [] |} |}.

(** A QSFP-DD module, CMIS revision 4.0. *)
Definition qsfpdd_handle : sfp :=
  {| port := PORT_TYPE_QSFPDD; eeprom_cache := None;
     dev := {| present := true;
               contents := <[0%nat := x18]> (<[1%nat := x40]> (<[128%nat := x18]>
                             (replicate 384 x00)));
               faults := []; journal := [] |} |}.

End Control.

(** ** Form-factor detection of the extended media layer
       ([ext_media_common.py]) *)

Module FormFactor.
Import Identify.

(** The driver modules that the table maps to. *)
Inductive handler : Type :=
| ext_media_handler_sfp
| ext_media_handler_sfp_plus
| ext_media_handler_sfp28
| ext_media_handler_sfp56_dd
| ext_media_handler_qsfp_plus
| ext_media_handler_qsfp28
| ext_media_handler_qsfp_dd
| ext_media_handler_qsfp28_dd
| ext_media_handler_qsfp56
| ext_media_handler_qsfp56_dd
| ext_media_handler_qsfp56_depop.

(** [x in range(lo, hi)] *)
Definition in_range (x lo hi : Z) : bool := (lo <=? x) && (x <? hi).

(** [x in l] for a list of integers. *)
Definition int_in (x : Z) (l : list Z) : bool := existsb (Z.eqb x) l.

Definition tuple3_eqb (x y : Z * Z * Z) : bool :=
  let '(a, b, c) := x in
  let '(a', b', c') := y in
  (a =? a') && (b =? b') && (c =? c').

Definition sfp28_module_identifier : list Z :=
  [0x01; 0x02; 0x03; 0x04; 0x08; 0x0B; 0x0C; 0x0D; 0x18; 0x19; 0x38].

Definition qsfp_dd_eeprom_identifiers : list (Z * Z * Z) :=
  [ (0x04, 0x11, 0xFF);   (* 80G QDD to 8x10G SFP+ AOC breakout *)
    (0x04, 0x88, 0x11);   (* 80G QDD *)
    (0x07, 0x44, 0x11) ]. (* 80G QSFP-DD to 2x40G QSFP+ AOC *)

Definition qsfp28_dd_eeprom_identifiers : list (Z * Z * Z) :=
  [ (0x0B, 0x88, 0x01);   (* 200G Q28DD AOC *)
    (0x1A, 0x88, 0x01);   (* 200G Q28DD DAC *)
    (0x0B, 0x44, 0x11);   (* 200G Q28DD to 2x100G QSFP28 AOC breakout *)
    (0x1A, 0x44, 0x11);   (* 200G Q28DD to 2x100G QSFP28 DAC, breakout cable *)
    (0x05, 0x11, 0xFF);   (* 200G Q28DD to 8x25G SFP28 AOC breakout *)
    (0x14, 0x11, 0xFF);   (* 200G Q28DD to 8x25G SFP28 DAC, breakout cable *)
    (0x15, 0x11, 0xFF);   (* 200G Q28DD to 8x25G SFP28 DAC, breakout cable *)
    (0x16, 0x11, 0xFF) ]. (* 200G Q28DD to 8x25G SFP28 DAC, breakout cable *)

Section Readers.

(** [read_eeprom_byte] and [get_cmis_version] come from ext_media_utils.py,
    which is not among the sources: they are parameters, the first taken at
    the offset of its [media_eeprom_address(offset=..)] argument. *)
Context {E : Type}.
Variable read_eeprom_byte : E -> Z -> Z.
Variable get_cmis_version : E -> Z.

(** SFP if byte 0 = 0x03 and byte 12 in range (0x0 - 0x15). *)
Definition is_sfp (eeprom : E) : bool :=
  if (read_eeprom_byte eeprom 0 =? 0x03)
     && in_range (read_eeprom_byte eeprom 12) 0x0 0x16
  then true else false.

Definition is_sfp28 (eeprom : E) : bool :=
  let byte66 := read_eeprom_byte eeprom 66 in
  let byte36 := read_eeprom_byte eeprom 36 in
  if (read_eeprom_byte eeprom 0 =? 0x03)
     && (read_eeprom_byte eeprom 12 =? 0xFF)
     && (in_range byte66 0x67 0x71
         || ((byte66 =? 0x00) && int_in byte36 sfp28_module_identifier))
  then true else false.

(** SFP+ if byte 0 = 0x03 and byte 12 in range (0x16 - 0x8C). *)
Definition is_sfp_plus (eeprom : E) : bool :=
  if (read_eeprom_byte eeprom 0 =? 0x03)
     && in_range (read_eeprom_byte eeprom 12) 0x16 0x8D
  then true else false.

Definition is_qsfp_plus (eeprom : E) : bool :=
  if negb (int_in (read_eeprom_byte eeprom 0) [0x0C; 0x0D]) then false else true.

Definition is_qsfp56_depop (eeprom : E) : bool :=
  let byte192 := read_eeprom_byte eeprom 192 in
  let byte113 := read_eeprom_byte eeprom 113 in
  if (read_eeprom_byte eeprom 0 =? 0x11)
     && (((byte192 =? 0x40) && (byte113 =? 0x2c))
         || ((byte192 =? 0x40) && (byte113 =? 0x0c)))
  then true else false.

Definition is_qsfp28 (eeprom : E) : bool :=
  if is_qsfp56_depop eeprom then false
  else if negb (read_eeprom_byte eeprom 0 =? 0x11) then false
  else true.

Definition is_qsfp_dd (eeprom : E) : bool :=
  if negb (read_eeprom_byte eeprom 0 =? 0x18) then false
  else
    let byte86 := read_eeprom_byte eeprom 86 in
    let byte88 := read_eeprom_byte eeprom 88 in
    let byte89 := read_eeprom_byte eeprom 89 in
    let eeprom_data := (byte86, byte88, byte89) in
    if (0x30 <=? get_cmis_version eeprom)
       && existsb (tuple3_eqb eeprom_data) qsfp_dd_eeprom_identifiers
    then true else false.

Definition is_qsfp28_dd (eeprom : E) : bool :=
  if negb (read_eeprom_byte eeprom 0 =? 0x18) then false
  else
    let byte86 := read_eeprom_byte eeprom 86 in
    let byte88 := read_eeprom_byte eeprom 88 in
    let byte89 := read_eeprom_byte eeprom 89 in
    let eeprom_data := (byte86, byte88, byte89) in
    if (0x30 <=? get_cmis_version eeprom)
       && existsb (tuple3_eqb eeprom_data) qsfp28_dd_eeprom_identifiers
    then true else false.

Definition is_qsfp56_dd (eeprom : E) : bool :=
  if negb (read_eeprom_byte eeprom 0 =? 0x18) then false
  else negb (is_qsfp28_dd eeprom).

Definition is_sfp56_dd (eeprom : E) : bool :=
  if negb (read_eeprom_byte eeprom 0 =? 0x1A) then false else true.

(** Maps the handler to the name and the form factor driver module.  The
    keys of the dictionary are the eleven functions, in the order in which
    the literal lists them (the iteration order of a Python 3 [dict]). *)
Definition form_factor_handler_to_ff_info : list ((E -> bool) * (string * handler)) :=
  [ (is_sfp,          ("SFP", ext_media_handler_sfp));
    (is_sfp_plus,     ("SFP+", ext_media_handler_sfp_plus));
    (is_sfp28,        ("SFP28", ext_media_handler_sfp28));
    (is_sfp56_dd,     ("SFP56-DD", ext_media_handler_sfp56_dd));
    (is_qsfp_plus,    ("QSFP+", ext_media_handler_qsfp_plus));
    (is_qsfp28,       ("QSFP28", ext_media_handler_qsfp28));
    (is_qsfp_dd,      ("QSFP-DD", ext_media_handler_qsfp_dd));
    (is_qsfp28_dd,    ("QSFP28-DD", ext_media_handler_qsfp28_dd));
    (is_qsfp56 read_eeprom_byte get_cmis_version,
                      ("QSFP56", ext_media_handler_qsfp56));
    (is_qsfp56_dd,    ("QSFP56-DD", ext_media_handler_qsfp56_dd));
    (is_qsfp56_depop, ("QSFP56-DEPOP", ext_media_handler_qsfp56_depop)) ]%string.

(** Returns the form factor name and handler functions; [None] is the pair
    [(None, None)]. *)
Fixpoint first_match (table : list ((E -> bool) * (string * handler)))
  (eeprom_bytes : E) : option (string * handler) :=
  match table with
  | [] => None
  | (func, info) :: rest =>
      if func eeprom_bytes then Some info else first_match rest eeprom_bytes
  end.

Definition get_form_factor_info (eeprom_bytes : E) : option (string * handler) :=
  first_match form_factor_handler_to_ff_info eeprom_bytes.

(** The names of the entries of the table whose test accepts [eeprom]. *)
Definition accepted (eeprom : E) : list string :=
  map (fun p => fst (snd p))
      (List.filter (fun p => fst p eeprom) form_factor_handler_to_ff_info).

End Readers.

(** An EEPROM image for the examples: a list of bytes, a byte past the end
    reading 0, with the CMIS version at byte 1. *)
Definition image_byte (eeprom : list Z) (offset : Z) : Z :=
  nth (Z.to_nat offset) eeprom 0.

Definition image_version (eeprom : list Z) : Z := image_byte eeprom 1.

Definition image (patches : list (nat * Z)) : list Z :=
  foldr (fun p acc => <[p.1 := p.2]> acc) (replicate 256 0) patches.

End FormFactor.

(** ** The entry points of [ext_media_api.py] into the CMIS bring-up *)

Module MediaApi.
Import Identify Cmis.

(** The session with the version that the constructor read. *)
Definition with_ver (sfp_obj : session) (v : Z) : session :=
  {| on_read := on_read sfp_obj; on_reset := on_reset sfp_obj;
     on_get_lpmode := on_get_lpmode sfp_obj;
     on_get_intl_state := on_get_intl_state sfp_obj;
     lpmode_ctl := lpmode_ctl sfp_obj; intl_ctl := intl_ctl sfp_obj;
     cmis_ver := v |}.

(** [cmis_init(sfp_obj, logging=False)], the constructor: the hooks are
    looked up (what it finds is [lpmode_ctl] and [intl_ctl]), then the
    identifier and, for a CMIS identifier, the version are read.  The
    [cmis_ver] of [sfp_obj] is not looked at. *)
Definition cmis_init_new (sfp_obj : session) : M session :=
  set_lanes_per_port 1 ;;
  buf <- read_bytes sfp_obj (fst FORM_FACTOR_VER_ADDR) (snd FORM_FACTOR_VER_ADDR) ;;
  id <- idx buf 0 ;;
  if negb (existsb (Z.eqb id) [0x18; 0x19; 0x1e]) then ret (with_ver sfp_obj (-1))
  else
    (* get_cmis_ver() *)
    buf <- read_bytes sfp_obj (fst CMIS_VER_ADDR) (snd CMIS_VER_ADDR) ;;
    v <- idx buf 0 ;;
    ret (with_ver sfp_obj v).

(** [default_cmis_3_4_init(sfp_obj, application, lanes_per_port)] *)
Definition default_cmis_3_4_init (sfp_obj : session) (application lanes_per_port : Z)
  : M bool :=
  try_except
    (cmis_initializer <- cmis_init_new sfp_obj ;;
     initialize cmis_initializer application lanes_per_port 1)
    (ret false).

(** The platform object as [get_max_port_power] uses it: each of the two
    methods returns or raises (a missing method raises AttributeError). *)
Record port_object (P : Type) : Type := {
  get_max_port_power_method : result P;
  get_port_form_factor : result string
}.
Arguments get_max_port_power_method {P} _.
Arguments get_port_form_factor {P} _.

(** What [get_max_port_power] returns: the platform's own answer, one of
    the float literals, or [DEFAULT_NO_DATA_VALUE] (of ext_media_utils.py,
    which is not among the sources). *)
Inductive port_power (P : Type) : Type :=
| Reported (p : P)
| Watts (w : Q)
| DEFAULT_NO_DATA_VALUE.
Arguments Reported {P} p.
Arguments Watts {P} w.
Arguments DEFAULT_NO_DATA_VALUE {P}.

(** The name [port] is bound nowhere in ext_media_api.py: evaluating it
    raises NameError. *)
Definition port : result string := Exn.

(** The second [try] block of [get_max_port_power]: the port defaults. *)
Definition port_defaults (port_ff : string) : result Q :=
  if str_in port_ff ["QSFP"; "QSFP+"]%string then Ok 4.0%Q
  else if str_in port_ff ["QSFP28"]%string then Ok 4.5%Q
  else if str_in port_ff ["QSFP28-DD"]%string then Ok 8.0%Q
  else if str_in port_ff ["QSFP56"]%string then Ok 8.0%Q
  else
    p ← port;
    if str_in p ["QSFP56-DD"]%string then Ok 10.0%Q
    else Ok 2.5%Q.

(** [get_max_port_power(sfp_obj)]: gets the maximum power the port is
    allowed to dissipate. *)
Definition get_max_port_power {P} (sfp_obj : port_object P) : port_power P :=
  match get_max_port_power_method sfp_obj with
  | Ok p => Reported p
  | Exn =>
      match get_port_form_factor sfp_obj ≫= port_defaults with
      | Ok w => Watts w
      | Exn => DEFAULT_NO_DATA_VALUE
      end
  end.



(** Not a register write. *)
Definition no_register_write (a : action) : Prop :=
  match a with
  | RegWrite _ _ => False
  | _ => True
  end.

(** [m] calls [sfp_obj.reset()] at most [k] times. *)
Definition resets_within (k : nat) {A} (m : M A) : Prop :=
  forall s : st, (resets (snd (m s)) <= resets s + k)%nat.

(** An address as the CMIS memory map has it: offsets 0..127 are the lower
    memory, which has no page; offsets 128..255 are the page. *)
Definition canonical (addr : media_eeprom_address) : Prop :=
  0 <= offset addr < 256 /\ 0 <= page addr /\ (offset addr < 128 -> page addr = 0).

(** [CMIS_PAGE_ADDR_..h] of sfp_standard.py: [((page + 1) << 7)]. *)
Definition CMIS_PAGE_ADDR (page : Z) : Z := Z.shiftl (page + 1) 7.

(** A module whose identifier is not a CMIS one. *)
Definition sff8636_session : session :=
  answering (fun _ _ _ => Some [0x11]) 0.


End MediaApi.

(** ** Decoders of [inf8628InterfaceId] ([inf8628.py]) *)

Module Inf8628.
Import Hex Identify Control.

(** [type_abbrv_name] of sff8024.py. *)
Definition type_abbrv_name : gmap string string :=
  list_to_map
    [ ("00", "Unknown"); ("01", "GBIC"); ("02", "Soldered"); ("03", "SFP");
      ("04", "XBI300"); ("05", "XENPAK"); ("06", "XFP"); ("07", "XFF");
      ("08", "XFP-E"); ("09", "XPAK"); ("0a", "X2"); ("0b", "DWDM-SFP");
      ("0c", "QSFP"); ("0d", "QSFP+"); ("0e", "CXP"); ("0f", "HD4X");
      ("10", "HD8X"); ("11", "QSFP28"); ("12", "CXP2"); ("13", "CDFP-1/2");
      ("14", "HD4X-Fanout"); ("15", "HD8X-Fanout"); ("16", "CDFP-3");
      ("17", "MicroQSFP"); ("18", "QSFP-DD"); ("19", "OSFP-8X");
      ("1a", "SFP-DD"); ("1e", "QSFP_CMIS") ]%string.

(** [power_class_of_transceiver] of sff8024.py (CMIS4). *)
Definition power_class_of_transceiver : gmap string string :=
  list_to_map
    [ ("00", "Power Class 1"); ("01", "Power Class 2"); ("02", "Power Class 3");
      ("03", "Power Class 4"); ("04", "Power Class 5"); ("05", "Power Class 6");
      ("06", "Power Class 7"); ("07", "Power Class 8") ]%string.

(** [d[key]]: [Exn] is the [KeyError]. *)
Definition getitem (d : gmap string string) (key : string) : result string :=
  match d !! key with Some v => Ok v | None => Exn end.

(** [str(n)] for an integer. *)
Definition str_of_int (n : Z) : string := NilZero.string_of_int (Z.to_int n).

(** The decoders take [(self, eeprom_data, offset, size)]; none of those
    below looks at [size]. *)
Definition decode_power_class (eeprom_data : list string) (offset : nat)
  : result string :=
  x ← item eeprom_data offset ≫= int;
  let val := Z.land (Z.shiftr x 5) 0x07 in
  let raw := format_02x val in
  getitem power_class_of_transceiver raw.

Definition decode_module_state (eeprom_data : list string) (offset : nat)
  : result string :=
  module_state_byte ← item eeprom_data offset;
  v ← int module_state_byte;
  let module_state := Z.land v 14 in
  if module_state =? 2 then Ok "Low Power State"%string
  else if module_state =? 4 then Ok "Power Up State"%string
  else if module_state =? 6 then Ok "Ready State"%string
  else if module_state =? 8 then Ok "Power Down State"%string
  else if module_state =? 10 then Ok "Fault State"%string
  else Ok ("Unknown State " ++ str_of_int module_state)%string.

(** Routine to decode the module abbreviation name.  The list of QSFP56
    signatures in the source is the one of [get_eeprom_type]. *)
Definition decode_type_abbrv_name (eeprom_data : list string) (offset : nat)
  : result string :=
  media_type ← item eeprom_data offset ≫= int;
  if media_type =? 0x1e then
    byte85 ← item eeprom_data 85 ≫= int;
    byte86 ← item eeprom_data 86 ≫= int;
    byte87 ← item eeprom_data 87 ≫= int;
    byte88 ← item eeprom_data 88 ≫= int;
    byte89 ← item eeprom_data 89 ≫= int;
    let eeprom_data := (byte85, byte86, byte87, byte88, byte89) in
    Ok (if existsb (tuple5_eqb eeprom_data) qsfp56_eeprom_identifiers
        then "QSFP56" else "Unknown")%string
  else
    x ← item eeprom_data offset;
    getitem type_abbrv_name x.

End Inf8628.

(** ** Helpers of the transceiver daemon ([xcvrd.py]) *)

Module Xcvrd.
Import Identify Sfp.

(** A value handed to [strip_unit_and_beautify]: a [str], or any other
    object, given by its [str()]. *)
Inductive py_value : Type :=
| PyStr (s : string)
| PyOther (str : string).

(** [value[-width:]] with [width = len(unit) >= 0]: the last [width]
    characters, the whole string when it is shorter, and the whole string for
    [width = 0] (the slice is then [value[0:]]). *)
Definition last_chars (width : nat) (value : string) : string :=
  if (width =? 0)%nat then value
  else substring (String.length value - width) width value.

(** [value[:-width]]: all but the last [width] characters; the empty string
    for [width = 0] (the slice is then [value[:0]]). *)
Definition but_last_chars (width : nat) (value : string) : string :=
  if (width =? 0)%nat then EmptyString
  else substring 0 (String.length value - width) value.

(** Strip unit from raw data. *)
Definition strip_unit_and_beautify (value : py_value) (unit : string) : string :=
  match value with
  | PyStr value =>
      let width := String.length unit in
      if (last_chars width value =? unit)%string then but_last_chars width value
      else value
  | PyOther str => str
  end.

(** [info.get(key, default)] *)
Definition get (info : dict) (key default : string) : string :=
  match info !! key with Some v => v | None => default end.

Section Fixup.

(** Python's [int()] on a [str]; [None] is the [ValueError]. *)
Variable py_int : string -> option Z.

(** [_transceiver_info_fixup(info)]: the values of the record are strings. *)
Definition _transceiver_info_fixup (info : option dict) : option dict :=
  match info with
  | None => None
  | Some info =>
      Some
        (if str_in (get info "display_name" "N/A") ["N/A"]%string then
           let xtype := get info "type_abbrv_name" "N/A" in
           let xconn := get info "connector" "N/A" in
           if str_in xtype ["SFP"]%string
              && str_in xconn ["CopperPigtail"; "Copper pigtail";
                               "No separable connector"]%string
           then
             let nbr :=
               match py_int (get info "nominal_bit_rate" "0") with
               | Some n => n
               | None => 0
               end in
             if nbr >=? 250 then
               <["display_name"%string := "SFP28 25GBASE-CR-DAC"%string]> info
             else if nbr >=? 100 then
               <["display_name"%string := "SFP+ 10GBASE-CR-DAC"%string]> info
             else
               <["display_name"%string := "SFP 1000BASE-CX-DAC"%string]> info
           else if str_in xtype ["QSFP-DD"]%string then
             if str_in (get info "media_type" "N/A")
                  ["passive_copper_media_interface"]%string
             then
               let type := get info "type" "QSFP56-DD" in
               let appl := get info "application_advertisement" "N/A" in
               let media :=
                 if str_in appl [""; "N/A"; "n/a"]%string || contains "400G CR8" appl
                 then "400GBASE-CR8"%string
                 else "200GBASE-CR8"%string in
               <["display_name"%string := (type ++ " " ++ media)%string]> info
             else info
           else info
         else info)
  end.

End Fixup.

End Xcvrd.

(** * Properties *)

(** ** The EEPROM access layer *)

Module ChannelFacts.
Import Hex Channel.




Lemma io_read_inv (offset num_bytes : nat) (d d' : eeprom) (r : option (list byte)) :
  io_read offset num_bytes d = (r, d') ->
  present d' = present d /\ contents d' = contents d
  /\ (forall buf, r = Some buf -> buf = take num_bytes (drop offset (contents d))).
Proof.
  unfold io_read, next_fault. destruct (faults d) as [|[] fs]; intros [= <- <-]; simpl;
    repeat split; try congruence; intros buf [= <-]; reflexivity.
Qed.

Lemma read_attempts_inv (n offset num_bytes : nat) :
  forall (d d' : eeprom) (r : option (list byte)),
  read_attempts n offset num_bytes d = (r, d') ->
  present d' = present d /\ contents d' = contents d
  /\ (forall buf, r = Some buf -> buf = take num_bytes (drop offset (contents d))).
Proof.
  induction n as [|n IH]; intros d d' r; simpl.
  - intros [= <- <-]. repeat split; discriminate.
  - destruct (io_read offset num_bytes d) as [[buf|] d1] eqn:E;
      apply io_read_inv in E as (Hp & Hc & Hb).
    + intros [= <- <-]. repeat split; auto.
    + destruct (_ && _).
      * intros H. apply IH in H as (Hp' & Hc' & Hb'). simpl in *.
        repeat split; try congruence. intros buf Hbuf. rewrite (Hb' buf Hbuf). congruence.
      * intros [= <- <-]. repeat split; auto; discriminate.
Qed.




Lemma byte_to_Z_range (b : byte) : 0 <= byte_to_Z b < 256.
Proof.
  unfold byte_to_Z. pose proof (Byte.to_N_bounded b). lia.
Qed.

Lemma byte_of_to_Z (b : byte) : byte_of_Z (byte_to_Z b) = Some b.
Proof.
  unfold byte_of_Z. pose proof (byte_to_Z_range b) as H.
  destruct (0 <=? byte_to_Z b) eqn:E1; [|lia].
  destruct (byte_to_Z b <? 256) eqn:E2; [|lia]. simpl.
  unfold byte_to_Z. rewrite N2Z.id. apply Byte.of_to_N.
Qed.

Lemma byte_to_of_Z (v : Z) (b : byte) : byte_of_Z v = Some b -> byte_to_Z b = v.
Proof.
  unfold byte_of_Z, byte_to_Z.
  destruct (0 <=? v) eqn:E1; [|discriminate].
  destruct (v <? 256) eqn:E2; [|discriminate]. simpl.
  intros H. apply Byte.to_of_N in H. rewrite H. lia.
Qed.

Lemma byte_of_Z_Some (v : Z) : 0 <= v < 256 -> exists b, byte_of_Z v = Some b.
Proof.
  intros H. unfold byte_of_Z.
  destruct (0 <=? v) eqn:E1; [|lia]. destruct (v <? 256) eqn:E2; [|lia]. simpl.
  destruct (Byte.of_N (Z.to_N v)) as [b|] eqn:E; [eauto|].
  apply Byte.of_N_None_iff in E. lia.
Qed.

(** [__read_eeprom]: what a successful read returns. *)
Lemma read_eeprom_Some (d d' : eeprom) (offset num_bytes : nat) (buf : list Z) :
  read_eeprom offset num_bytes d = (Some buf, d') ->
  buf = pad_to num_bytes 0 (map byte_to_Z (take num_bytes (drop offset (contents d))))
  /\ contents d' = contents d /\ present d' = present d.
Proof.
  unfold read_eeprom, __read_eeprom. destruct (present d) eqn:Hp; cbn [negb]; [|discriminate].
  destruct (read_attempts retry_expiry offset num_bytes d) as [[data|] d1] eqn:E; [|discriminate].
  apply read_attempts_inv in E as (Hp' & Hc & Hb).
  intros [= <- <-]. rewrite (Hb data eq_refl). repeat split; congruence.
Qed.

Lemma pad_to_length {A} (n : nat) (x : A) (l : list A) :
  (length l <= n)%nat -> length (pad_to n x l) = n.
Proof. intros H. unfold pad_to. rewrite length_app, length_replicate. lia. Qed.

Lemma pad_to_full {A} (n : nat) (x : A) (l : list A) :
  (n <= length l)%nat -> pad_to n x l = l.
Proof.
  intros H. unfold pad_to. replace (n - length l)%nat with 0%nat by lia.
  apply app_nil_r.
Qed.

Lemma map_hex2_zeros (k : nat) :
  map hex2 (replicate k 0) = replicate k "00"%string.
Proof. induction k as [|k IH]; [reflexivity|]. cbn [replicate map]. rewrite IH. reflexivity. Qed.

(** The zero padding of a short read, seen through [hex2]. *)
Lemma map_hex2_pad (n : nat) (l : list Z) :
  map hex2 (pad_to n 0 l) = pad_to n "00"%string (map hex2 l).
Proof.
  unfold pad_to. rewrite map_app, length_map.
  f_equal. apply map_hex2_zeros.
Qed.


Lemma take_zero_extended (n : nat) (l : list Z) :
  take n (l ++ replicate n 0) = take n l ++ replicate (n - length (take n l)) 0.
Proof.
  destruct (le_lt_dec n (length l)) as [Hle|Hgt].
  - rewrite take_app_le by lia. rewrite length_take.
    replace (n - n `min` length l)%nat with 0%nat by lia.
    simpl. rewrite app_nil_r. reflexivity.
  - rewrite take_app_ge by lia. rewrite take_replicate.
    rewrite (take_ge l) by lia.
    replace ((n - length l) `min` n)%nat with (n - length l)%nat by lia.
    reflexivity.
Qed.

(** C10.  A successful read returns exactly [num_bytes] entries: what the
    node delivered, followed by zero bytes ([read_eeprom]) or by ["00"]
    strings ([get_eeprom_raw]) when the node delivered fewer; the result is
    the one that the node would give if it continued with zero bytes. *)
Theorem short_read_is_zero_padded (d d' : eeprom) (offset num_bytes : nat)
  (buf : list Z) :
  read_eeprom offset num_bytes d = (Some buf, d') ->
  let data := take num_bytes (drop offset (contents d)) in
  buf = map byte_to_Z data ++ replicate (num_bytes - length data) 0
  /\ length buf = num_bytes
  /\ get_eeprom_raw offset num_bytes d =
       (Some (map hex2 (map byte_to_Z data)
              ++ replicate (num_bytes - length data) "00"%string), d')
  /\ length (map hex2 (map byte_to_Z data)
             ++ replicate (num_bytes - length data) "00"%string) = num_bytes
  /\ buf = take num_bytes
             (map byte_to_Z (drop offset (contents d)) ++ replicate num_bytes 0).
Proof.
  intros H data.
  pose proof (read_eeprom_Some _ _ _ _ _ H) as (Hbuf & Hc & Hp).
  assert (Hlen : (length data <= num_bytes)%nat).
  { unfold data. rewrite length_take. lia. }
  assert (Hb : buf = map byte_to_Z data ++ replicate (num_bytes - length data) 0).
  { rewrite Hbuf. unfold pad_to. rewrite length_map. reflexivity. }
  split; [exact Hb|]. split.
  { rewrite Hb, length_app, length_map, length_replicate. lia. }
  split.
  { unfold get_eeprom_raw. rewrite H. f_equal. f_equal.
    rewrite pad_to_full.
    - rewrite Hb, map_app. f_equal. apply map_hex2_zeros.
    - rewrite length_map, Hb, length_app, length_map, length_replicate. lia. }
  split.
  { rewrite length_app, !length_map, length_replicate. lia. }
  rewrite take_zero_extended, Hb. unfold data.
  rewrite firstn_map, !length_map. reflexivity.
Qed.

(** Masked update: the new byte agrees with [value] under [mask] and is a
    byte. *)
Lemma masked_update_land (old value mask : Z) :
  Z.land (Z.lor (Z.land old (Z.lnot mask)) (Z.land value mask)) mask
  = Z.land value mask.
Proof.
  apply Z.bits_inj'. intros i Hi.
  rewrite !Z.land_spec, Z.lor_spec, !Z.land_spec, Z.lnot_spec by lia.
  destruct (Z.testbit old i), (Z.testbit value i), (Z.testbit mask i); reflexivity.
Qed.

Lemma masked_update_range (old value mask : Z) :
  0 <= old < 256 -> 0 <= mask < 256 ->
  0 <= Z.lor (Z.land old (Z.lnot mask)) (Z.land value mask) < 256.
Proof.
  intros Ho Hm.
  set (b := Z.lor _ _).
  assert (Hb : b = Z.land b (Z.ones 8)).
  { apply Z.bits_inj'. intros i Hi. unfold b.
    rewrite !Z.land_spec, Z.lor_spec, !Z.land_spec, Z.lnot_spec by lia.
    destruct (Z_lt_le_dec i 8) as [Hlt|Hge].
    - rewrite Z.ones_spec_low by lia. rewrite andb_true_r. reflexivity.
    - rewrite Z.ones_spec_high by lia. rewrite andb_false_r.
      assert (Z.testbit old i = false) as ->.
      { destruct (Z.eq_dec old 0) as [->|]; [apply Z.bits_0|].
        apply Z.bits_above_log2; [lia|].
        assert (Z.log2 old < 8) by (apply Z.log2_lt_pow2; lia). lia. }
      assert (Z.testbit mask i = false) as ->.
      { destruct (Z.eq_dec mask 0) as [->|]; [apply Z.bits_0|].
        apply Z.bits_above_log2; [lia|].
        assert (Z.log2 mask < 8) by (apply Z.log2_lt_pow2; lia). lia. }
      rewrite andb_false_r. reflexivity. }
  rewrite Hb, Z.land_ones by lia.
  apply Z.mod_pos_bound. lia.
Qed.

Lemma read_eeprom_no_fault (d : eeprom) (offset num_bytes : nat) :
  present d = true -> faults d = [] ->
  read_eeprom offset num_bytes d =
    (Some (pad_to num_bytes 0
             (map byte_to_Z (take num_bytes (drop offset (contents d))))),
     log (EvRead offset num_bytes) d).
Proof.
  intros Hp Hf. unfold read_eeprom, __read_eeprom. rewrite Hp. cbn [negb].
  unfold retry_expiry. cbn [read_attempts]. unfold io_read, next_fault.
  rewrite Hf. reflexivity.
Qed.

Lemma read_one_byte (d : eeprom) (offset : nat) (old : byte) :
  present d = true -> faults d = [] -> contents d !! offset = Some old ->
  read_eeprom offset 1 d = (Some [byte_to_Z old], log (EvRead offset 1) d).
Proof.
  intros Hp Hf Ho. rewrite read_eeprom_no_fault by assumption.
  rewrite (drop_S _ _ _ Ho). reflexivity.
Qed.

(** The first part of the claim on [modify_eeprom_byte], for any fault
    schedule: when the byte read already agrees with [value] under [mask],
    the call is the read alone and reports success. *)
Lemma modify_eeprom_byte_matching (d d1 : eeprom) (offset : nat)
  (value mask old : Z) (rest : list Z) :
  read_eeprom offset 1 d = (Some (old :: rest), d1) ->
  Z.land old mask = Z.land value mask ->
  modify_eeprom_byte offset value mask d = (Ok true, d1).
Proof.
  intros Hr Hm. unfold modify_eeprom_byte. rewrite Hr, Hm, Z.eqb_refl. reflexivity.
Qed.

Lemma writes_log (e : event) (d : eeprom) :
  writes (log e d) = (writes d + (if is_write e then 1 else 0))%nat.
Proof.
  unfold writes, log. cbn [journal]. rewrite List.filter_app, length_app.
  cbn [List.filter]. destruct (is_write e); reflexivity.
Qed.

(** C8, as amended.  On a present module without I/O faults, with a mask
    that is a byte: [modify_eeprom_byte] reports success and writes nothing
    when the byte at [offset] already agrees with [value] under [mask], and
    writes exactly one byte otherwise; a second call with the same [value]
    and [mask] writes nothing, changes nothing and reports success.  Two
    calls thus write at most once. *)
Theorem modify_eeprom_byte_twice (d : eeprom) (offset : nat) (value mask : Z)
  (old : byte) :
  present d = true -> faults d = [] -> contents d !! offset = Some old ->
  0 <= mask < 256 ->
  let matching := Z.land value mask =? Z.land (byte_to_Z old) mask in
  let first := modify_eeprom_byte offset value mask d in
  let second := modify_eeprom_byte offset value mask (snd first) in
  fst first = Ok true
  /\ writes (snd first) = (writes d + (if matching then 0 else 1))%nat
  /\ fst second = Ok true
  /\ writes (snd second) = writes (snd first)
  /\ contents (snd second) = contents (snd first).
Proof.
  intros Hp Hf Ho Hm matching first second.
  pose proof (byte_to_Z_range old) as Hold.
  pose proof (masked_update_range (byte_to_Z old) value mask Hold Hm) as Hrange.
  set (b := Z.lor (Z.land (byte_to_Z old) (Z.lnot mask)) (Z.land value mask)) in *.
  assert (Hlen : (offset < length (contents d))%nat) by (eapply lookup_lt_Some; eauto).
  destruct (byte_of_Z_Some b Hrange) as [nb Hnb].
  (* the state after the first call *)
  assert (Hfirst : first =
    if matching then (Ok true, log (EvRead offset 1) d)
    else (Ok true, store offset nb (log (EvOpenW offset) (log (EvRead offset 1) d)))).
  { unfold first, modify_eeprom_byte. rewrite (read_one_byte _ _ _ Hp Hf Ho).
    fold matching. destruct matching; cbn [negb]; [reflexivity|].
    fold b. destruct (0 <=? b) eqn:E1; [|lia]. destruct (b <? 256) eqn:E2; [|lia].
    cbn [andb]. unfold write_eeprom, __write_eeprom. cbn [present log].
    rewrite Hp. cbn [negb]. unfold next_fault. cbn [faults log]. rewrite Hf.
    cbn [write_each]. rewrite Hnb. cbn [contents log].
    apply Nat.ltb_lt in Hlen. rewrite Hlen. reflexivity. }
  (* the byte at [offset] after the first call agrees with [value] under [mask] *)
  assert (Hafter : exists cur : byte,
             contents (snd first) !! offset = Some cur
             /\ Z.land (byte_to_Z cur) mask = Z.land value mask
             /\ present (snd first) = true /\ faults (snd first) = []).
  { rewrite Hfirst. destruct matching eqn:Em.
    - exists old. cbn. repeat split; auto.
      unfold matching in Em. apply Z.eqb_eq in Em. congruence.
    - exists nb. cbn. repeat split; auto.
      + apply list_lookup_insert_eq. exact Hlen.
      + rewrite (byte_to_of_Z _ _ Hnb). apply masked_update_land. }
  destruct Hafter as (cur & Hcur & Hland & Hp1 & Hf1).
  assert (Hsecond : second = (Ok true, log (EvRead offset 1) (snd first))).
  { unfold second. eapply modify_eeprom_byte_matching.
    - apply read_one_byte; eassumption.
    - exact Hland. }
  rewrite Hsecond. cbn [fst snd].
  split; [rewrite Hfirst; destruct matching; reflexivity|].
  split.
  { rewrite Hfirst. destruct matching; cbn [snd].
    - rewrite writes_log. reflexivity.
    - unfold writes, store. cbn [journal log].
      rewrite !List.filter_app, !length_app. cbn. lia. }
  split; [reflexivity|]. split; [rewrite writes_log; cbn; lia | reflexivity].
Qed.


Lemma short_read_is_zero_padded_witness :
  length [171; 171; 0; 0] = 4%nat
  /\ get_eeprom_raw 18 4 short_module =
       (Some ["ab"; "ab"; "00"; "00"]%string, log (EvRead 18 4) short_module).
Proof.
  destruct (short_read_is_zero_padded short_module (log (EvRead 18 4) short_module)
              18 4 [171; 171; 0; 0] eq_refl) as (_ & H2 & H3 & _).
  split; [exact H2 | exact H3].
Defined.

Lemma modify_eeprom_byte_twice_witness :
  fst (modify_eeprom_byte 3 0x41 0xf0 register_module) = Ok true
  /\ writes (snd (modify_eeprom_byte 3 0x41 0xf0 register_module)) = 1%nat
  /\ fst (modify_eeprom_byte 3 0x41 0xf0
            (snd (modify_eeprom_byte 3 0x41 0xf0 register_module))) = Ok true
  /\ writes (snd (modify_eeprom_byte 3 0x41 0xf0
                    (snd (modify_eeprom_byte 3 0x41 0xf0 register_module)))) = 1%nat.
Proof.
  destruct (modify_eeprom_byte_twice register_module 3 0x41 0xf0 x05
              eq_refl eq_refl eq_refl ltac:(lia)) as (H1 & H2 & H3 & H4 & _).
  split; [exact H1 | split; [exact H2 | split; [exact H3 | rewrite H4; exact H2]]].
Defined.

(** C8, the claim as stated fails: the byte at offset 3 is already 0x05, and
    two calls with value 0x05 and mask 0xff write nothing at all, not
    "exactly one" byte. *)
Lemma modify_eeprom_byte_twice_no_write :
  fst (modify_eeprom_byte 3 0x05 0xff register_module) = Ok true
  /\ fst (modify_eeprom_byte 3 0x05 0xff
            (snd (modify_eeprom_byte 3 0x05 0xff register_module))) = Ok true
  /\ writes (snd (modify_eeprom_byte 3 0x05 0xff
                    (snd (modify_eeprom_byte 3 0x05 0xff register_module)))) = 0%nat.
Proof. vm_compute. repeat split. Qed.

End ChannelFacts.

(** ** Identification and the EEPROM cache *)

Module IdentifyFacts.
Import Hex Channel Identify Sfp.

Section IdentifyFacts.
Variable eng : field_engine.

Lemma item_Some (raw : list string) (i : nat) (x : string) :
  raw !! i = Some x -> item raw i = Ok x.
Proof. intros H. unfold item. rewrite H. reflexivity. Qed.

Lemma int_Some (s : string) (v : Z) : int16 s = Some v -> int s = Ok v.
Proof. intros H. unfold int. rewrite H. reflexivity. Qed.

Lemma get_eeprom_type_qsfp (pt : port_type) (raw : list string) :
  qsfp_port pt = true ->
  get_eeprom_type eng pt raw =
    ('(type, raw') ← qsfp_block eng raw; type' ← sfp_stage raw' type; Ok (type', raw')).
Proof. destruct pt; try discriminate; reflexivity. Qed.

(** With a QSFP-DD identifier, byte 0 is not a QSFP code and [id1] is byte 0. *)
Lemma resolve_id_qsfpdd (r0 r128 : string) :
  str_in (fst (resolve_id r0 r128)) SFF8024_TYPE_QSFPDD = true ->
  snd (resolve_id r0 r128) = r0
  /\ str_in r0 SFF8024_TYPE_QSFP = false
  /\ str_in (fst (resolve_id r0 r128)) SFF8024_TYPE_QSFP_CMIS_COMPLIANT = false.
Proof.
  unfold resolve_id.
  assert (Hdisj : forall x, str_in x SFF8024_TYPE_QSFPDD = true ->
            str_in x SFF8024_TYPE_QSFP = false
            /\ str_in x SFF8024_TYPE_QSFP_CMIS_COMPLIANT = false).
  { intros x. unfold str_in. cbn [existsb SFF8024_TYPE_QSFPDD SFF8024_TYPE_QSFP
      SFF8024_TYPE_QSFP_CMIS_COMPLIANT].
    rewrite !orb_false_r. intros H. apply orb_true_iff in H as [H|H];
      apply String.eqb_eq in H; subst x; split; reflexivity. }
  assert (Hsub : forall x, str_in x SFF8024_TYPE_QSFP = true ->
            str_in x (SFF8024_TYPE_QSFP ++ SFF8024_TYPE_QSFPDD
                      ++ SFF8024_TYPE_QSFP_CMIS_COMPLIANT) = true).
  { intros x. unfold str_in. rewrite existsb_app. intros ->. reflexivity. }
  destruct (str_in r0 _) eqn:E0; cbn [fst snd].
  - intros H. destruct (Hdisj _ H). auto.
  - destruct (str_in r128 _) eqn:E1; cbn [fst snd].
    + intros H. destruct (Hdisj _ H). repeat split; auto.
      destruct (str_in r0 SFF8024_TYPE_QSFP) eqn:E; auto.
      apply Hsub in E. congruence.
    + destruct (_ && _); cbn [fst snd]; intros H; vm_compute in H; discriminate.
Qed.


Lemma rest_of_cascade_types (id : string) (raw raw' : list string) (t : eeprom_type) :
  rest_of_cascade eng id raw = Ok (t, raw') ->
  t = XCVR_EEPROM_TYPE_UNKNOWN \/ t = XCVR_EEPROM_TYPE_QSFP
  \/ t = XCVR_EEPROM_TYPE_SFPDD \/ t = XCVR_EEPROM_TYPE_SFP.
Proof.
  unfold rest_of_cascade, settle. cbn [is_unknown negb].
  destruct (sff8436_vendor eng raw) as [[vend pn]|]; [|discriminate].
  destruct (_ && _); cbn [mbind result_bind].
  - unfold sfp_stage. cbn [is_unknown mbind result_bind].
    intros H; inversion H; subst; auto.
  - unfold sfp_stage. cbn [is_unknown].
    destruct (item raw 0) as [r0|]; cbn [mbind result_bind]; [|discriminate].
    destruct (str_in r0 SFF8024_TYPE_SFPDD); cbn [mbind result_bind].
    + intros H; inversion H; subst; auto.
    + destruct (sum_hex raw _ _ 0) as [s|]; cbn [mbind result_bind]; [|discriminate].
      destruct (item raw SFF8472_CC_BASE) as [x|]; cbn [mbind result_bind]; [|discriminate].
      destruct (int x) as [c|]; cbn [mbind result_bind]; [|discriminate].
      destruct (_ =? _); intros H; inversion H; subst; auto.
Qed.

(** C1, as amended.  On a QSFP or QSFP-DD port, for a buffer whose resolved
    identifier (byte 0 when it is a QSFP-family code, byte 128 otherwise) is
    a QSFP-DD code and to which no vendor override applies, identification
    returns QSFP-DD exactly when the sum of bytes [129,222) plus byte 0, or
    plus byte 128, equals byte 222 modulo 256.  When neither sum matches,
    the result is that of the rest of the cascade (last vendor override,
    SFP-DD identifier, SFF-8472 check code over [0,63)): never QSFP-DD, but
    possibly QSFP, SFP-DD or SFP as well as UNKNOWN. *)
Theorem cmis_checksum_classification (pt : port_type) (raw : list string)
  (r0 r128 cc : string) (sum a b c : Z) :
  qsfp_port pt = true ->
  raw !! 0%nat = Some r0 -> raw !! 128%nat = Some r128 ->
  raw !! CMIS_CHECKSUM = Some cc ->
  let id := fst (resolve_id r0 r128) in
  str_in id SFF8024_TYPE_QSFPDD = true ->
  vendor_override (fst (vendor_part eng id raw)) (snd (vendor_part eng id raw)) = None ->
  sum_hex raw CMIS_CHECKSUM_START (CMIS_CHECKSUM - CMIS_CHECKSUM_START) 0 = Ok sum ->
  int16 r0 = Some a -> int16 r128 = Some b -> int16 cc = Some c ->
  let valid := (Z.land (sum + a) 255 =? c) || (Z.land (sum + b) 255 =? c) in
  get_eeprom_type eng pt raw =
    (if valid then Ok (XCVR_EEPROM_TYPE_QSFPDD, set_ids id raw)
     else rest_of_cascade eng id raw)
  /\ ((exists raw', get_eeprom_type eng pt raw = Ok (XCVR_EEPROM_TYPE_QSFPDD, raw'))
      <-> valid = true)
  /\ (valid = false -> forall t raw',
        get_eeprom_type eng pt raw = Ok (t, raw') ->
        t = XCVR_EEPROM_TYPE_UNKNOWN \/ t = XCVR_EEPROM_TYPE_QSFP
        \/ t = XCVR_EEPROM_TYPE_SFPDD \/ t = XCVR_EEPROM_TYPE_SFP).
Proof.
  intros Hpt H0 H128 Hcc id Hid Hov Hsum Ha Hb Hc valid.
  destruct (resolve_id_qsfpdd r0 r128 Hid) as (Hid1 & Hnq & Hncmis).
  assert (Heq : get_eeprom_type eng pt raw =
            if valid then Ok (XCVR_EEPROM_TYPE_QSFPDD, set_ids id raw)
            else rest_of_cascade eng id raw).
  { rewrite get_eeprom_type_qsfp by assumption.
    unfold qsfp_block. rewrite (item_Some _ _ _ H0), (item_Some _ _ _ H128). cbn [mbind result_bind].
    fold id in Hid1 |- *.
    destruct (resolve_id r0 r128) as [id' id1] eqn:Er. cbn [fst snd] in *. subst id1.
    subst id. cbn [fst] in *.
    destruct (vendor_part eng id' raw) as [vend part]. cbn [fst snd] in Hov. rewrite Hov.
    unfold qsfpdd_check. rewrite Hid, Hsum. cbn [mbind result_bind].
    unfold cc_matches.
    repeat (progress (rewrite ?(int_Some _ _ Ha), ?(item_Some _ _ _ Hcc), ?(int_Some _ _ Hc);
                      cbn [mbind result_bind])).
    unfold valid.
    destruct (Z.land (sum + a) 255 =? c) eqn:E1; cbn [mbind result_bind orb].
    - unfold qsfp56_check. rewrite Hncmis. reflexivity.
    - repeat (progress (rewrite ?(int_Some _ _ Hb), ?(item_Some _ _ _ Hcc), ?(int_Some _ _ Hc);
                        cbn [mbind result_bind])).
      destruct (Z.land (sum + b) 255 =? c) eqn:E2; cbn [mbind result_bind].
      + unfold qsfp56_check. rewrite Hncmis. reflexivity.
      + unfold qsfp56_check. rewrite Hncmis. cbn [mbind result_bind].
        unfold qsfp28_check. cbn [is_unknown].
        rewrite (item_Some _ _ _ H0). cbn [mbind result_bind]. rewrite Hnq.
        cbn [mbind result_bind]. reflexivity. }
  split; [exact Heq|]. split.
  - rewrite Heq. destruct valid; split.
    + reflexivity.
    + intros _. eauto.
    + intros [raw' H]. apply rest_of_cascade_types in H.
      destruct H as [H|[H|[H|H]]]; discriminate.
    + discriminate.
  - intros Hv t raw'. rewrite Heq, Hv. apply rest_of_cascade_types.
Qed.



(** What [get_eeprom_type] leaves in its buffer: the buffer as it was, or
    the buffer with bytes 0 and 128 overwritten by the resolved identifier. *)
Lemma qsfp_block_buffer (raw raw' : list string) (t : eeprom_type) :
  qsfp_block eng raw = Ok (t, raw') ->
  raw' = raw \/ exists id, raw' = set_ids id raw.
Proof.
  unfold qsfp_block.
  destruct (item raw 0) as [r0|]; cbn [mbind result_bind]; [|discriminate].
  destruct (item raw 128) as [r128|]; cbn [mbind result_bind]; [|discriminate].
  destruct (resolve_id r0 r128) as [id id1].
  destruct (vendor_part eng id raw) as [vend part].
  destruct (vendor_override vend part).
  - intros H; inversion H; subst; eauto.
  - destruct (qsfpdd_check id id1 r128 raw _) as [t1|]; cbn [mbind result_bind]; [|discriminate].
    destruct (qsfp56_check id raw t1) as [t2|]; cbn [mbind result_bind]; [|discriminate].
    destruct (qsfp28_check id1 r128 raw t2) as [t3|]; cbn [mbind result_bind]; [|discriminate].
    unfold settle. destruct (negb (is_unknown t3)).
    + intros H; inversion H; subst; eauto.
    + destruct (sff8436_vendor eng raw) as [[v p]|]; [|discriminate].
      destruct (_ && _); intros H; inversion H; subst; eauto.
Qed.

Lemma get_eeprom_type_buffer (pt : port_type) (raw raw' : list string) (t : eeprom_type) :
  get_eeprom_type eng pt raw = Ok (t, raw') ->
  raw' = raw \/ exists id, raw' = set_ids id raw.
Proof.
  unfold get_eeprom_type.
  assert (Hq : forall r : result (eeprom_type * list string),
            (forall t0 raw0, r = Ok (t0, raw0) -> raw0 = raw \/ exists id, raw0 = set_ids id raw) ->
            ('(type, raw1) ← r; type' ← sfp_stage raw1 type; Ok (type', raw1)) = Ok (t, raw') ->
            raw' = raw \/ exists id, raw' = set_ids id raw).
  { intros [[t0 raw0]|] Hr; cbn [mbind result_bind]; [|discriminate].
    destruct (sfp_stage raw0 t0); cbn [mbind result_bind]; [|discriminate].
    intros H; inversion H; subst. eapply Hr; reflexivity. }
  destruct pt; apply Hq; intros t0 raw0 H;
    try (inversion H; subst; auto; fail);
    eapply qsfp_block_buffer; eassumption.
Qed.

Lemma set_ids_length (id : string) (raw : list string) :
  length (set_ids id raw) = length raw.
Proof. unfold set_ids. rewrite !length_insert. reflexivity. Qed.

Lemma set_ids_lookup (id : string) (raw : list string) (i : nat) :
  i <> 0%nat -> i <> 128%nat -> set_ids id raw !! i = raw !! i.
Proof.
  intros H0 H128. unfold set_ids.
  rewrite !list_lookup_insert_ne by congruence. reflexivity.
Qed.

(** What does hold of the cache.  With a populated cache,
    [populate_eeprom_cache] does nothing and [clear_eeprom_cache] empties
    the cache; every other operation keeps the cache populated, of the same
    length and with every byte other than bytes 0 and 128 unchanged; only
    [get_transceiver_info], whose identification works on the cache list
    itself, can change bytes 0 and 128 (to the resolved identifier). *)
Theorem cache_snapshot_invariant (h : sfp) (c : list string) :
  eeprom_cache h = Some c ->
  populate_eeprom_cache h = h
  /\ eeprom_cache (clear_eeprom_cache h) = None
  /\ forall op : cache_op, exists c',
       eeprom_cache (run_op eng op h) = Some c'
       /\ length c' = length c
       /\ (forall i : nat, i <> 0%nat -> i <> 128%nat -> c' !! i = c !! i)
       /\ (op <> OpInfo -> c' = c).
Proof.
  intros Hc.
  assert (Hpop : populate_eeprom_cache h = h).
  { unfold populate_eeprom_cache. rewrite Hc. reflexivity. }
  split; [exact Hpop|]. split.
  { unfold clear_eeprom_cache. rewrite Hc. reflexivity. }
  assert (Hsame : forall h', eeprom_cache h' = Some c ->
            exists c', eeprom_cache h' = Some c' /\ length c' = length c
              /\ (forall i : nat, i <> 0%nat -> i <> 128%nat -> c' !! i = c !! i)
              /\ c' = c).
  { intros h' H. exists c. auto. }
  assert (Hweak : forall (P : Prop) h',
            (exists c', eeprom_cache h' = Some c' /\ length c' = length c
              /\ (forall i : nat, i <> 0%nat -> i <> 128%nat -> c' !! i = c !! i)
              /\ c' = c) ->
            exists c', eeprom_cache h' = Some c' /\ length c' = length c
              /\ (forall i : nat, i <> 0%nat -> i <> 128%nat -> c' !! i = c !! i)
              /\ (P -> c' = c)).
  { intros P h' (c' & H1 & H2 & H3 & H4). exists c'. auto. }
  intros op. destruct op; cbn [run_op].
  - apply Hweak, Hsame. rewrite Hpop. exact Hc.
  - apply Hweak, Hsame.
    unfold get_eeprom_cache_raw. rewrite Hc. cbv zeta. rewrite Hc. cbn [snd]. exact Hc.
  - apply Hweak, Hsame.
    unfold get_eeprom_cache. rewrite Hc. cbv zeta. rewrite Hc. cbn [snd]. exact Hc.
  - (* get_transceiver_info: identification runs on the cache itself *)
    unfold get_transceiver_info. rewrite Hpop, Hc.
    destruct (get_eeprom_type eng (port h) c) as [[t raw']|] eqn:E.
    + apply get_eeprom_type_buffer in E.
      exists raw'. split.
      { destruct (is_unknown t); reflexivity. }
      destruct E as [->|[id ->]].
      * repeat split; auto.
      * split; [apply set_ids_length|]. split; [intros; apply set_ids_lookup; auto|].
        intros Hne. contradiction.
    + exists c. cbn [snd]. repeat split; auto.
  - apply Hweak, Hsame. unfold get_transceiver_bulk_status, dom_entry.
    destruct (get_eeprom_raw 0 256 (dev h)) as [[raw|] d'].
    + destruct (get_eeprom_type eng _ raw) as [[t raw']|]; [destruct (is_unknown t)|]; exact Hc.
    + exact Hc.
  - apply Hweak, Hsame. unfold get_transceiver_threshold_info, dom_entry.
    destruct (get_eeprom_raw 0 256 (dev h)) as [[raw|] d'].
    + destruct (get_eeprom_type eng _ raw) as [[t raw']|]; [destruct (is_unknown t)|]; exact Hc.
    + exact Hc.
  - apply Hweak, Hsame. exact Hc.
  - apply Hweak, Hsame. exact Hc.
  - apply Hweak, Hsame. exact Hc.
Qed.






End IdentifyFacts.

Lemma tuple5_eqb_eq (x y : Z * Z * Z * Z * Z) : tuple5_eqb x y = true <-> x = y.
Proof.
  destruct x as [[[[a b] c] d] e], y as [[[[a' b'] c'] d'] e'].
  unfold tuple5_eqb. rewrite !andb_true_iff, !Z.eqb_eq.
  split.
  - intros ((((-> & ->) & ->) & ->) & ->). reflexivity.
  - intros H. inversion H. auto.
Qed.

(** [is_qsfp56] of the extended media layer accepts the same two
    signatures, and only on a module whose byte 0 reads 0x1E and whose CMIS
    version is 0x40 or 0x50; no checksum is involved. *)
Lemma is_qsfp56_pattern {E : Type} (read_eeprom_byte : E -> Z -> Z)
  (get_cmis_version : E -> Z) (eeprom : E) :
  is_qsfp56 read_eeprom_byte get_cmis_version eeprom = true <->
  read_eeprom_byte eeprom 0 = 0x1E
  /\ (get_cmis_version eeprom = 0x40 \/ get_cmis_version eeprom = 0x50)
  /\ In (read_eeprom_byte eeprom 85, read_eeprom_byte eeprom 86,
         read_eeprom_byte eeprom 87, read_eeprom_byte eeprom 88,
         read_eeprom_byte eeprom 89) qsfp56_eeprom_identifiers.
Proof.
  unfold is_qsfp56.
  destruct (Z.eqb_spec (read_eeprom_byte eeprom 0) 0x1E) as [H0|H0];
    destruct (Z.eqb_spec (get_cmis_version eeprom) 0x40) as [H4|H4];
    destruct (Z.eqb_spec (get_cmis_version eeprom) 0x50) as [H5|H5];
    cbn [negb orb];
    try (split; [discriminate | intros (? & [?|?] & _); congruence]).
  all: cbv zeta;
    destruct (existsb _ qsfp56_eeprom_identifiers) eqn:Hex;
    [ apply existsb_exists in Hex; destruct Hex as (y & Hin & Heq);
      apply tuple5_eqb_eq in Heq; subst y; split; auto
    | split; [discriminate|]; intros (_ & _ & Hin);
      assert (existsb (tuple5_eqb
                (read_eeprom_byte eeprom 85, read_eeprom_byte eeprom 86,
                 read_eeprom_byte eeprom 87, read_eeprom_byte eeprom 88,
                 read_eeprom_byte eeprom 89)) qsfp56_eeprom_identifiers = true)
        by (apply existsb_exists; eexists; split; [exact Hin | apply tuple5_eqb_eq; reflexivity]);
      congruence ].
Qed.

Lemma cmis_checksum_classification_witness :
  get_eeprom_type sff8636_engine PORT_TYPE_QSFPDD qsfpdd_buffer
  = Ok (XCVR_EEPROM_TYPE_QSFPDD, set_ids "18" qsfpdd_buffer).
Proof.
  refine (proj1 (cmis_checksum_classification sff8636_engine PORT_TYPE_QSFPDD
                   qsfpdd_buffer "18" "18" "18" 0 24 24 24 _ _ _ _ _ _ _ _ _ _));
    vm_compute; reflexivity.
Defined.

(** C1, the claim as stated fails.  [qsfpdd_buffer] has a correct CMIS
    checksum and is classified QSFP-DD; changing its byte 130 from 0x00 to
    0x01 breaks the checksum, and the buffer is then classified SFP, since
    its bytes [0,63) sum to byte 63: a positive classification of another
    type. *)
Lemma cmis_checksum_false_positive :
  get_eeprom_type sff8636_engine PORT_TYPE_QSFPDD qsfpdd_buffer
  = Ok (XCVR_EEPROM_TYPE_QSFPDD, qsfpdd_buffer)
  /\ get_eeprom_type sff8636_engine PORT_TYPE_QSFPDD qsfpdd_buffer_flipped
     = Ok (XCVR_EEPROM_TYPE_SFP, qsfpdd_buffer_flipped).
Proof. split; vm_compute; reflexivity. Qed.



Lemma cache_snapshot_invariant_witness :
  populate_eeprom_cache cached_handle = cached_handle
  /\ eeprom_cache (clear_eeprom_cache cached_handle) = None.
Proof.
  destruct (cache_snapshot_invariant sff8636_engine cached_handle qsfpdd_buffer eq_refl)
    as (H1 & H2 & _).
  split; [exact H1 | exact H2].
Defined.

(** C7.  The cached snapshot is modified between population and
    invalidation: the cache of [mismatch_handle] is populated with byte 0
    reading "00"; [get_transceiver_info] hands the cache list itself to
    [get_eeprom_type], which identifies the module from byte 128 and
    assigns the resolved identifier to bytes 0 and 128, so that byte 0 of
    the cache reads "18" afterwards.  The other readers of the cache copy it
    first ([get_eeprom_cache_raw]: "copy the original cache so that the
    EEPROM cache contents are not modified") and the two DOM entry points
    identify a fresh buffer. *)
Lemma transceiver_info_rewrites_cache :
  (eeprom_cache (populate_eeprom_cache mismatch_handle) ≫= (.!! 0%nat)) = Some "00"%string
  /\ (eeprom_cache
        (snd (get_transceiver_info sff8636_engine
                (populate_eeprom_cache mismatch_handle))) ≫= (.!! 0%nat))
     = Some "18"%string.
Proof. split; vm_compute; reflexivity. Qed.



End IdentifyFacts.

(** ** CMIS initialization *)

Module CmisFacts.
Import Cmis.
Open Scope cmis_scope.

Section Framework.
Variable P : action -> Prop.
Variable L : Z.

Lemma appends_ret {A} (a : A) : appends P L (ret a).
Proof. intros s Hs. exists []. cbn. auto. Qed.

Lemma appends_raise {A} : appends P L (@raise A).
Proof. intros s Hs. exists []. cbn. auto. Qed.

Lemma appends_bind {A B} (m : M A) (f : A -> M B) :
  appends P L m -> (forall a, appends P L (f a)) -> appends P L (bind m f).
Proof.
  intros Hm Hf s Hs. destruct (Hm s Hs) as (l1 & Ht1 & HP1 & HL1).
  unfold bind. destruct (m s) as [[a|] s1]; cbn [snd] in *.
  - destruct (Hf a s1 HL1) as (l2 & Ht2 & HP2 & HL2).
    exists (l2 ++ l1). rewrite Ht2, Ht1, app_assoc. repeat split; auto.
    apply Forall_app; auto.
  - exists l1. auto.
Qed.

Lemma appends_act (a : action) : P a -> appends P L (act a).
Proof. intros Ha s Hs. exists [a]. cbn. repeat split; auto. Qed.

Lemma appends_fun {A} (f : Z -> M A) :
  appends P L (f L) -> appends P L (fun s => f (lanes s) s).
Proof. intros H s Hs. specialize (H s Hs). rewrite Hs. exact H. Qed.

Variable self : session.

Lemma appends_read_eeprom (o n : Z) : appends P L (sfp_read_eeprom self o n).
Proof. intros s Hs. exists []. cbn. auto. Qed.

Lemma appends_read_bytes (a : media_eeprom_address) (n : Z) :
  appends P L (read_bytes self a n).
Proof. apply appends_read_eeprom. Qed.

Lemma appends_idx (buf : option (list Z)) (i : nat) : appends P L (idx buf i).
Proof.
  unfold idx. destruct buf as [l|]; [destruct (l !! i)|];
    auto using appends_ret, appends_raise.
Qed.

Lemma appends_get_lpmode : appends P L (get_lpmode self).
Proof.
  unfold get_lpmode. destruct (lpmode_ctl self); [|apply appends_ret].
  intros s Hs. exists []. cbn. auto.
Qed.

Lemma appends_get_intl_state : appends P L (get_intl_state self).
Proof.
  unfold get_intl_state. destruct (intl_ctl self); [|apply appends_ret].
  intros s Hs. exists []. cbn. auto.
Qed.

Lemma appends_reset : P ModuleReset -> P (Sleep 2000) -> appends P L (reset self).
Proof.
  intros HR HS s Hs. unfold reset. destruct (on_reset self (resets s)).
  - exists [Sleep 2000; ModuleReset]. cbn. repeat split; auto.
  - exists [ModuleReset]. cbn. repeat split; auto.
Qed.

End Framework.

Lemma returns_ret {A} (Q : A -> Prop) (a : A) : Q a -> returns Q (ret a).
Proof. intros H s a' s' [= <- <-]. exact H. Qed.

Lemma returns_raise {A} (Q : A -> Prop) : returns Q (@raise A).
Proof. intros s a s' H. discriminate. Qed.

Lemma returns_bind {A B} (Q : B -> Prop) (m : M A) (f : A -> M B) :
  (forall a, returns Q (f a)) -> returns Q (bind m f).
Proof.
  intros Hf s b s'. unfold bind. destruct (m s) as [[a|] s1]; [|discriminate].
  apply Hf.
Qed.

Lemma bind_Ok {A B} (m : M A) (f : A -> M B) (s s' : st) (b : B) :
  bind m f s = (Ok b, s') ->
  exists a s1, m s = (Ok a, s1) /\ f a s1 = (Ok b, s').
Proof.
  unfold bind. destruct (m s) as [[a|] s1]; [|discriminate]. eauto.
Qed.

Lemma benign_select (application lanes_per_port : Z) :
  benign (select_conforms application lanes_per_port).
Proof. repeat split. Qed.


Ltac appends_step :=
  lazymatch goal with
  | |- appends _ _ (ret _) => apply appends_ret
  | |- appends _ _ raise => apply appends_raise
  | |- appends _ _ (bind _ _) => apply appends_bind; [|intro]
  | |- appends _ _ (sleep _) => apply appends_act
  | |- appends _ _ (act _) => apply appends_act
  | |- appends _ _ (write_bytes _ _) => apply appends_act
  | |- appends _ _ (read_bytes _ _ _) => apply appends_read_bytes
  | |- appends _ _ (idx _ _) => apply appends_idx
  | |- appends _ _ (get_lpmode _) => apply appends_get_lpmode
  | |- appends _ _ (get_intl_state _) => apply appends_get_intl_state
  | |- appends _ _ (reset _) => apply appends_reset
  | |- appends _ _ (if ?b then _ else _) => destruct b
  | |- appends _ _ (match ?x with _ => _ end) => destruct x
  end.

Ltac unfold_regs :=
  unfold set_tx_disable, set_datapath_init, set_high_power, set_lpmode,
    get_mod_fault, get_datapath_timeout, get_general_faults, get_module_flags,
    get_datapath_activated_states, get_config_errors, determine_init_type,
    check_power_compat, word32, test_dp_actv.

Ltac benign_side H :=
  first [ apply H | apply (proj1 (proj2 H)) | apply (proj2 (proj2 H)) ].

Section Loops.
Variable self : session.
Variable P : action -> Prop.
Variable L : Z.
Hypothesis HP : benign P.

Let Psleep := proj1 HP.

Lemma appends_deinit_wait (n : nat) : appends P L (deinit_wait self n).
Proof.
  induction n as [|n IH]; cbn [deinit_wait]; unfold_regs;
    repeat (first [exact IH | apply Psleep | appends_step]).
Qed.

Lemma appends_config_poll (n : nat) (lpp : Z) (err : option Z) :
  appends P L (config_poll self n lpp err).
Proof.
  revert err. induction n as [|n IH]; intros err; cbn [config_poll]; unfold_regs;
    repeat (first [apply IH | apply Psleep | appends_step]).
Qed.

Lemma appends_datapath_poll (n : nat) (lpp : Z) (err : option Z) :
  appends P L (datapath_poll self n lpp err).
Proof.
  revert err. induction n as [|n IH]; intros err; cbn [datapath_poll]; unfold_regs;
    repeat (first [apply IH | apply Psleep | appends_step]).
Qed.

Lemma appends_wait_intl (n : nat) : appends P L (wait_intl self n).
Proof.
  induction n as [|n IH]; cbn [wait_intl];
    repeat (first [exact IH | apply Psleep | appends_step]).
Qed.

Lemma appends_wait_dp_actv (n : nat) (dp : option (list Z)) :
  appends P L (wait_dp_actv self n dp).
Proof.
  revert dp. induction n as [|n IH]; intros dp; cbn [wait_dp_actv]; unfold_regs;
    repeat (first [apply IH | apply Psleep | appends_step]).
Qed.

Lemma appends_flag_passes (n : nat) (e : bool) : appends P L (flag_passes self n e).
Proof.
  revert e. induction n as [|n IH]; intros e; cbn [flag_passes]; unfold_regs;
    repeat (first [apply IH | apply Psleep | appends_step]).
Qed.

End Loops.

Lemma cmis4_app_select_pattern (application lanes_per_port retries : Z) :
  supported_lanes lanes_per_port ->
  cmis4_app_select application lanes_per_port retries
  = app_select_pattern application lanes_per_port (negb (Z.land retries 0x01 =? 0)).
Proof.
  intros [-> | [-> | [-> | ->]]];
    unfold cmis4_app_select, app_select_pattern;
    destruct (negb (Z.land retries 1 =? 0));
    cbn [Z.eqb Pos.eqb lane_markers map replicate ior alter list_alter];
    rewrite ?Z.lor_0_r; reflexivity.
Qed.

Lemma cmis3_app_select_pattern (application lanes_per_port retries : Z) :
  supported_lanes lanes_per_port ->
  cmis3_app_select application lanes_per_port retries
  = app_select_pattern application lanes_per_port (retries =? 0).
Proof.
  intros [-> | [-> | [-> | ->]]];
    unfold cmis3_app_select, app_select_pattern;
    destruct (retries =? 0);
    cbn [Z.eqb Pos.eqb lane_markers map replicate ior alter list_alter];
    rewrite ?Z.lor_0_r; reflexivity.
Qed.

Section SelectWrites.
Variable self : session.
Variables application lanes_per_port : Z.
Hypothesis Hlanes : supported_lanes lanes_per_port.

Let P := select_conforms application lanes_per_port.
Let HP : benign P := benign_select application lanes_per_port.

Ltac select_side :=
  first
    [ exact I
    | benign_side HP
    | cbv [P select_conforms];
      match goal with
      | |- if ?c then _ else _ =>
          let v := eval vm_compute in c in change c with v
      end;
      cbv iota;
      first [ exact I
            | eexists; first [ apply cmis4_app_select_pattern
                             | apply cmis3_app_select_pattern ]; exact Hlanes ] ].

Lemma select_cmis4_attempts (n : nat) (err : option Z) :
  appends P lanes_per_port (cmis4_attempts self n application lanes_per_port err).
Proof.
  revert err. induction n as [|n IH]; intros err; cbn [cmis4_attempts]; unfold_regs.
  - apply appends_ret.
  - repeat (first [ apply IH
                  | apply appends_deinit_wait; exact HP
                  | apply appends_config_poll; exact HP
                  | apply appends_datapath_poll; exact HP
                  | appends_step
                  | select_side ]).
Qed.

Lemma select_initialize_cmis4 (retries : Z) :
  appends P lanes_per_port (initialize_cmis4 self application lanes_per_port retries).
Proof.
  unfold initialize_cmis4. unfold_regs.
  repeat (first [ apply select_cmis4_attempts | appends_step | select_side ]).
Qed.

Lemma select_cmis3_sequence (retries init_type : Z) :
  appends P lanes_per_port
    (cmis3_sequence self application lanes_per_port retries init_type).
Proof.
  unfold cmis3_sequence. unfold_regs.
  repeat (first [ apply appends_deinit_wait; exact HP
                | apply appends_wait_intl; exact HP
                | apply appends_wait_dp_actv; exact HP
                | apply appends_flag_passes; exact HP
                | appends_step
                | select_side ]).
Qed.

Lemma select_cmis3_attempt (retries init_type : Z) (force : bool) :
  appends P lanes_per_port
    (cmis3_attempt self application lanes_per_port retries init_type force).
Proof.
  unfold cmis3_attempt. unfold_regs.
  repeat (first [ apply select_cmis3_sequence | appends_step | select_side ]).
Qed.

Lemma select_cmis3_run (depth : nat) (retries init_type : Z) (force : bool) :
  appends P lanes_per_port
    (cmis3_run self depth application lanes_per_port retries init_type force).
Proof.
  revert retries init_type. induction depth as [|depth IH]; intros retries init_type;
    cbn [cmis3_run].
  - apply appends_raise.
  - apply appends_bind; [apply select_cmis3_attempt|].
    intros [r|retries' init_type']; [apply appends_ret|].
    apply (appends_fun P lanes_per_port
             (fun l => cmis3_run self depth application l retries' init_type' force)).
    apply IH.
Qed.

Lemma select_initialize_body (retries : Z) (s : st) :
  exists l, trace (snd (initialize_body self application lanes_per_port retries s))
            = l ++ trace s /\ Forall P l.
Proof.
  unfold initialize_body, bind, set_lanes_per_port.
  match goal with
  | |- context [ if ?c then ?a else ?b ] =>
      assert (H : appends P lanes_per_port (if c then a else b))
  end.
  { destruct (cmis_ver self >=? 64); [apply select_initialize_cmis4|].
    destruct (cmis_ver self >=? 48); [apply select_cmis3_run | apply appends_ret]. }
  match goal with
  | |- context [ (if ?c then ?a else ?b) ?s0 ] =>
      destruct (H s0 eq_refl) as (l & Ht & Hl & _)
  end.
  exists l. split; assumption.
Qed.

End SelectWrites.

(** ** The tx-disable register *)














Section TxDisable.
Variable self : session.






End TxDisable.

(** ** The recursion of [initialize_cmis3] *)

Ltac returns_tac :=
  repeat lazymatch goal with
         | |- returns _ (bind _ _) => apply returns_bind; intro
         | |- returns _ (ret _) => apply returns_ret
         | |- returns _ raise => apply returns_raise
         | |- returns _ (if ?c then _ else _) => destruct c
         | |- returns _ (match ?x with _ => _ end) => destruct x
         end.

Section Recursion.
Variable self : session.

Lemma cmis3_attempt_again (application lanes_per_port retries init_type : Z)
  (force : bool) :
  returns (smaller_retries retries)
    (cmis3_attempt self application lanes_per_port retries init_type force).
Proof.
  unfold cmis3_attempt. destruct (retries <? 0) eqn:E.
  - apply returns_ret. exact I.
  - apply Z.ltb_ge in E. unfold cmis3_sequence.
    returns_tac; cbn [smaller_retries]; try exact I; lia.
Qed.

(** More depth than [retries + 1] is never used. *)
Lemma cmis3_run_depth (application : Z) (force : bool) (depth extra : nat) :
  forall (lanes_per_port retries init_type : Z) (s : st),
  (Z.to_nat (retries + 1) < depth)%nat ->
  cmis3_run self (depth + extra) application lanes_per_port retries init_type force s
  = cmis3_run self depth application lanes_per_port retries init_type force s.
Proof.
  induction depth as [|depth IH]; intros lanes_per_port retries init_type s Hd; [lia|].
  cbn [cmis3_run Nat.add]. unfold bind.
  destruct (cmis3_attempt self application lanes_per_port retries init_type force s)
    as [[[r|retries' init_type']|] s1] eqn:E; try reflexivity.
  apply cmis3_attempt_again in E. cbn [smaller_retries] in E.
  apply IH. lia.
Qed.

Lemma initialize_cmis3_depth (application lanes_per_port retries init_type : Z)
  (force : bool) (extra : nat) (s : st) :
  cmis3_run self (S (Z.to_nat (retries + 1)) + extra) application lanes_per_port
    retries init_type force s
  = initialize_cmis3 self application lanes_per_port retries init_type force s.
Proof. unfold initialize_cmis3. apply cmis3_run_depth. lia. Qed.

End Recursion.

(** ** The claims on the initialization sequences *)

Lemma try_except_ret_false (m : M bool) (s : st) :
  snd (try_except m (ret false) s) = snd (m s)
  /\ fst (try_except m (ret false) s)
     = match fst (m s) with Ok r => Ok r | Exn => Ok false end.
Proof. unfold try_except, ret. destruct (m s) as [[r|] s1]; auto. Qed.

Lemma select_writes_conform (application lanes_per_port : Z) (l : list action) :
  Forall (select_conforms application lanes_per_port) l ->
  Forall (fun bytes => exists toggle,
            bytes = app_select_pattern application lanes_per_port toggle)
         (app_select_writes l).
Proof.
  induction 1 as [|a l Ha _ IH]; [constructor|].
  unfold app_select_writes in *. cbn [omap list_omap].
  destruct a as [o bytes| | |]; try exact IH.
  unfold select_conforms in Ha.
  destruct (o =? _page_to_flat_offset (fst STAGED_CS0_SELECT_ADDR)); [|exact IH].
  constructor; assumption.
Qed.

(** C4, as amended.  For [lanes_per_port] in {1, 2, 4, 8} the array that
    either path builds is [application << 4] in all eight bytes with the
    lane markers of [lanes_per_port] OR-ed in and, on a toggled attempt, bit
    0x01 OR-ed into every byte: CMIS 4.x toggles when its retry counter is
    odd, CMIS 3.x when [retries] is 0.  Every write that a run of
    [initialize] makes to the application-select registers is such an
    array. *)
Theorem app_select_array (self : session) (application lanes_per_port retries : Z) :
  supported_lanes lanes_per_port ->
  (forall r, cmis4_app_select application lanes_per_port r
             = app_select_pattern application lanes_per_port
                 (negb (Z.land r 0x01 =? 0)))
  /\ (forall r, cmis3_app_select application lanes_per_port r
                = app_select_pattern application lanes_per_port (r =? 0))
  /\ Forall (fun bytes => exists toggle,
               bytes = app_select_pattern application lanes_per_port toggle)
            (app_select_writes
               (trace (snd (initialize self application lanes_per_port retries start)))).
Proof.
  intros Hl. split; [|split].
  - intros r. apply cmis4_app_select_pattern, Hl.
  - intros r. apply cmis3_app_select_pattern, Hl.
  - unfold initialize.
    rewrite (proj1 (try_except_ret_false _ _)).
    destruct (select_initialize_body self application lanes_per_port Hl retries start)
      as (l & Ht & Hf).
    rewrite Ht. cbn [start trace]. rewrite app_nil_r.
    apply select_writes_conform, Hf.
Qed.


(** C9, as amended.  The init type inferred from the media-type-encoding
    byte: 0x03 and 0x05 give Quick; 0x01 and 0x02 give Complete; the
    active-cable code 0x04 gives Medium except for CMIS version 0x30, where
    it gives Complete. *)
Theorem init_type_inference (self : session) (s : st) (m_type : Z) (rest : list Z) :
  on_read self (reads s)
    (_page_to_flat_offset (fst CMIS_MEDIA_TYPE_ENCODING_ADDR))
    (snd CMIS_MEDIA_TYPE_ENCODING_ADDR) = Some (m_type :: rest) ->
  (m_type = 0x03 \/ m_type = 0x05 ->
     fst (determine_init_type self s) = Ok INIT_TYPE_QUICK)
  /\ (m_type = 0x01 \/ m_type = 0x02 ->
     fst (determine_init_type self s) = Ok INIT_TYPE_COMPLETE)
  /\ (m_type = 0x04 ->
     fst (determine_init_type self s)
     = Ok (if cmis_ver self =? 0x30 then INIT_TYPE_COMPLETE else INIT_TYPE_MEDIUM)).
Proof.
  intros Hr.
  assert (E : fst (determine_init_type self s) = Ok (init_type_of (cmis_ver self) m_type)).
  { unfold determine_init_type, bind, read_bytes, sfp_read_eeprom. rewrite Hr. reflexivity. }
  rewrite E. unfold init_type_of.
  split; [|split].
  - intros [-> | ->]; reflexivity.
  - intros [-> | ->]; cbn; destruct (cmis_ver self =? 48); reflexivity.
  - intros ->. reflexivity.
Qed.

Lemma app_select_array_witness :
  cmis4_app_select 1 4 2 = app_select_pattern 1 4 false
  /\ cmis3_app_select 1 4 0 = app_select_pattern 1 4 true
  /\ Forall (fun bytes => exists toggle, bytes = app_select_pattern 1 4 toggle)
            (app_select_writes (trace (snd (initialize rejecting_session 1 4 1 start)))).
Proof.
  assert (Hl : supported_lanes 4) by (right; right; left; reflexivity).
  destruct (app_select_array rejecting_session 1 4 1 Hl) as (H1 & H2 & H3).
  split; [exact (H1 2) | split; [exact (H2 0) | exact H3]].
Defined.

(** C4, the claim as stated fails.  With application 1, [lanes_per_port] 4
    and [retries] 1, a CMIS 4.0 module that never accepts the configuration
    is written three arrays (newest first): the second attempt writes
    [0x11]*4 + [0x19]*4, not [0x10]*4 + [0x18]*4. *)
Lemma app_select_toggled_on_retry :
  app_select_writes (trace (snd (initialize rejecting_session 1 4 1 start)))
  = [ [0x10; 0x10; 0x10; 0x10; 0x18; 0x18; 0x18; 0x18];
      [0x11; 0x11; 0x11; 0x11; 0x19; 0x19; 0x19; 0x19];
      [0x10; 0x10; 0x10; 0x10; 0x18; 0x18; 0x18; 0x18] ].
Proof. vm_compute. reflexivity. Qed.



(** A run in which a register read fails: the exception leaves
    [initialize_cmis4] after tx-disable was asserted, [initialize] returns
    [False], and the last write to the tx-disable register is 0xFF. *)
Lemma read_failure_leaves_tx_disabled :
  fst (initialize unreadable_session 1 8 1 start) = Ok false
  /\ tx_disable_writes (trace (snd (initialize unreadable_session 1 8 1 start)))
     = [[0xFF]].
Proof. split; vm_compute; reflexivity. Qed.

Lemma init_type_inference_witness :
  fst (determine_init_type optical_session start) = Ok INIT_TYPE_COMPLETE.
Proof.
  destruct (init_type_inference optical_session start 0x01 [] eq_refl) as (_ & H & _).
  apply H. left. reflexivity.
Defined.

(** C9, the claim as stated fails.  For a CMIS 3.0 session the active-cable
    code 0x04 gives Complete, not Medium. *)
Lemma init_type_active_cable_cmis30 :
  cmis_ver active_cable_session = 0x30
  /\ fst (determine_init_type active_cable_session start) = Ok INIT_TYPE_COMPLETE.
Proof. split; vm_compute; reflexivity. Qed.

End CmisFacts.

Module ChannelWrites.
Import Hex Channel ChannelFacts.

Lemma store_fields (pos : nat) (b : byte) (d : eeprom) :
  present (store pos b d) = present d /\ faults (store pos b d) = faults d
  /\ contents (store pos b d) = <[pos := b]> (contents d).
Proof. repeat split. Qed.

(** The loop of [__write_eeprom] touches [contents] only inside
    [pos, pos + num_bytes), whether or not it runs to the end. *)
Lemma write_each_frame (num_bytes : nat) :
  forall (pos : nat) (write_buffer : list Z) (d : eeprom),
  let d' := snd (write_each pos num_bytes write_buffer d) in
  present d' = present d /\ faults d' = faults d
  /\ length (contents d') = length (contents d)
  /\ forall i : nat, (i < pos \/ pos + num_bytes <= i)%nat ->
       contents d' !! i = contents d !! i.
Proof.
  induction num_bytes as [|n IH]; intros pos buf d; cbn [write_each].
  - cbn. auto.
  - destruct buf as [|v rest]; [cbn; auto|].
    destruct (byte_of_Z v) as [b|]; [|cbn; auto].
    destruct (pos <? length (contents d))%nat; [|cbn; auto].
    specialize (IH (S pos) rest (store pos b d)). cbv zeta in *.
    destruct IH as (Hp & Hf & Hl & Hi).
    split; [rewrite Hp; reflexivity|].
    split; [rewrite Hf; reflexivity|]. split.
    + rewrite Hl. cbn. apply length_insert.
    + intros i Hi'. rewrite Hi by lia. cbn.
      apply list_lookup_insert_ne. lia.
Qed.

(** A run of the loop over valid bytes inside the node stores them all. *)
Lemma write_each_ok (num_bytes : nat) :
  forall (pos : nat) (write_buffer : list Z) (d : eeprom),
  (num_bytes <= length write_buffer)%nat ->
  (pos + num_bytes <= length (contents d))%nat ->
  Forall (fun v => 0 <= v < 256) (take num_bytes write_buffer) ->
  fst (write_each pos num_bytes write_buffer d) = true
  /\ map byte_to_Z
       (take num_bytes (drop pos (contents (snd (write_each pos num_bytes write_buffer d)))))
     = take num_bytes write_buffer.
Proof.
  induction num_bytes as [|n IH]; intros pos buf d Hn Hin Hv; cbn [write_each].
  - split; reflexivity.
  - destruct buf as [|v rest]; [cbn in Hn; lia|].
    cbn [take] in Hv. apply Forall_cons in Hv as [Hv Hrest].
    destruct (byte_of_Z_Some v Hv) as [b Hb]. rewrite Hb.
    destruct (pos <? length (contents d))%nat eqn:E; [|apply Nat.ltb_ge in E; lia].
    assert (Hlen : length (contents (store pos b d)) = length (contents d))
      by (cbn; apply length_insert).
    destruct (IH (S pos) rest (store pos b d)) as [Hok Hread].
    { cbn in Hn. lia. } { rewrite Hlen. lia. } { exact Hrest. }
    split; [exact Hok|].
    destruct (write_each_frame n (S pos) rest (store pos b d)) as (_ & _ & Hl & Hi).
    cbv zeta in Hl, Hi.
    set (d' := snd (write_each (S pos) n rest (store pos b d))) in *.
    assert (Hpos : contents d' !! pos = Some b).
    { rewrite Hi by lia. cbn. apply list_lookup_insert_eq. apply Nat.ltb_lt in E. lia. }
    rewrite (drop_S _ _ _ Hpos). cbn [take map]. rewrite Hread.
    f_equal. apply byte_to_of_Z. exact Hb.
Qed.

Lemma next_fault_none (d : eeprom) : faults d = [] -> next_fault d = (false, d).
Proof. intros H. unfold next_fault. rewrite H. reflexivity. Qed.

Lemma write_eeprom_no_fault (d : eeprom) (offset num_bytes : nat) (buf : list Z) :
  present d = true -> faults d = [] ->
  write_eeprom offset num_bytes buf d
  = write_each offset num_bytes buf (log (EvOpenW offset) d).
Proof.
  intros Hp Hf. unfold write_eeprom, __write_eeprom. rewrite Hp. cbn [negb].
  rewrite (next_fault_none _ Hf). reflexivity.
Qed.

(** [write_eeprom] followed by [read_eeprom]: on a present module without
    I/O faults, writing [num_bytes] byte values that fit inside the node
    succeeds, and reading the same range back returns the values written. *)
Theorem write_then_read (d : eeprom) (offset num_bytes : nat) (write_buffer : list Z) :
  present d = true -> faults d = [] ->
  (num_bytes <= length write_buffer)%nat ->
  (offset + num_bytes <= length (contents d))%nat ->
  Forall (fun v => 0 <= v < 256) (take num_bytes write_buffer) ->
  let written := write_eeprom offset num_bytes write_buffer d in
  fst written = true
  /\ fst (read_eeprom offset num_bytes (snd written)) = Some (take num_bytes write_buffer).
Proof.
  intros Hp Hf Hn Hin Hv. cbv zeta.
  rewrite write_eeprom_no_fault by assumption.
  destruct (write_each_ok num_bytes offset write_buffer (log (EvOpenW offset) d) Hn Hin Hv)
    as [Hok Hread].
  split; [exact Hok|].
  destruct (write_each_frame num_bytes offset write_buffer (log (EvOpenW offset) d))
    as (Hp' & Hf' & _ & _). cbv zeta in Hp', Hf'.
  rewrite read_eeprom_no_fault by (cbn in *; congruence).
  cbn [fst]. rewrite Hread. rewrite pad_to_full; [reflexivity|].
  rewrite length_take. lia.
Qed.

Lemma write_eeprom_outside (d : eeprom) (offset num_bytes : nat) (write_buffer : list Z) :
  let d' := snd (write_eeprom offset num_bytes write_buffer d) in
  length (contents d') = length (contents d)
  /\ forall i : nat, (i < offset \/ offset + num_bytes <= i)%nat ->
       contents d' !! i = contents d !! i.
Proof.
  cbv zeta. unfold write_eeprom, __write_eeprom.
  destruct (present d); cbn [negb]; [|split; reflexivity].
  destruct (next_fault d) as [f d1] eqn:E.
  assert (Hc : contents d1 = contents d).
  { unfold next_fault in E. destruct (faults d); inversion E; reflexivity. }
  destruct f; [cbn; rewrite Hc; split; reflexivity|].
  destruct (write_each_frame num_bytes offset write_buffer (log (EvOpenW offset) d1))
    as (_ & _ & Hl & Hi). cbv zeta in Hl, Hi. cbn [log contents] in Hl, Hi.
  rewrite Hl, Hc. split; [reflexivity|]. intros i H. rewrite Hi by exact H.
  rewrite Hc. reflexivity.
Qed.

(** [write_eeprom] never changes the size of the node nor a byte outside
    [offset, offset + num_bytes), whatever it returns and whatever the
    buffer holds; the module stays as present as it was. *)
Theorem write_eeprom_frame (d : eeprom) (offset num_bytes : nat) (write_buffer : list Z) :
  let d' := snd (write_eeprom offset num_bytes write_buffer d) in
  length (contents d') = length (contents d)
  /\ (forall i : nat, (i < offset \/ offset + num_bytes <= i)%nat ->
        contents d' !! i = contents d !! i)
  /\ present d' = present d.
Proof.
  cbv zeta.
  destruct (write_eeprom_outside d offset num_bytes write_buffer) as [Hl Hi].
  split; [exact Hl|]. split; [exact Hi|].
  unfold write_eeprom, __write_eeprom.
  destruct (present d) eqn:Hp; cbn [negb]; [|cbn; congruence].
  destruct (next_fault d) as [f d1] eqn:E.
  assert (Hc : present d1 = true).
  { unfold next_fault in E. destruct (faults d); inversion E; subst; cbn; exact Hp. }
  destruct f; [cbn; exact Hc|].
  destruct (write_each_frame num_bytes offset write_buffer (log (EvOpenW offset) d1))
    as (Hp' & _). cbv zeta in Hp'. cbn [log present] in Hp'. cbn [snd].
  rewrite Hp'. exact Hc.
Qed.

(** A write that fails part-way is not undone: with a buffer shorter than
    [num_bytes] the call returns [False] (the [IndexError] is caught), yet
    every byte of the buffer has been stored. *)
Theorem write_eeprom_short_buffer (d : eeprom) (offset num_bytes : nat)
  (write_buffer : list Z) :
  present d = true -> faults d = [] ->
  (length write_buffer < num_bytes)%nat ->
  (offset + length write_buffer <= length (contents d))%nat ->
  Forall (fun v => 0 <= v < 256) write_buffer ->
  let written := write_eeprom offset num_bytes write_buffer d in
  fst written = false
  /\ fst (read_eeprom offset (length write_buffer) (snd written)) = Some write_buffer.
Proof.
  intros Hp Hf Hn Hin Hv. cbv zeta.
  rewrite write_eeprom_no_fault by assumption.
  set (d0 := log (EvOpenW offset) d).
  assert (Hp0 : present d0 = true) by exact Hp.
  assert (Hf0 : faults d0 = []) by exact Hf.
  assert (Hin0 : (offset + length write_buffer <= length (contents d0))%nat) by exact Hin.
  clearbody d0. clear Hp Hf Hin d.
  revert offset num_bytes d0 Hn Hp0 Hf0 Hin0.
  induction write_buffer as [|v rest IH]; intros offset num_bytes d Hn Hp Hf Hin.
  - destruct num_bytes as [|n]; [cbn in Hn; lia|]. cbn [write_each fst snd length].
    split; [reflexivity|].
    rewrite read_eeprom_no_fault by assumption. reflexivity.
  - destruct num_bytes as [|n]; [cbn in Hn; lia|]. cbn [write_each].
    apply Forall_cons in Hv as [Hv Hrest].
    destruct (byte_of_Z_Some v Hv) as [b Hb]. rewrite Hb.
    cbn [length] in Hin, Hn.
    destruct (offset <? length (contents d))%nat eqn:E; [|apply Nat.ltb_ge in E; lia].
    assert (Hlen : length (contents (store offset b d)) = length (contents d))
      by (cbn; apply length_insert).
    destruct (IH Hrest (S offset) n (store offset b d)) as [Hr1 Hr2]; try assumption.
    { lia. } { rewrite Hlen. lia. }
    split; [exact Hr1|].
    destruct (write_each_frame n (S offset) rest (store offset b d)) as (Hp' & Hf' & Hl & Hi).
    cbv zeta in Hp', Hf', Hl, Hi.
    set (d' := snd (write_each (S offset) n rest (store offset b d))) in *.
    rewrite read_eeprom_no_fault in Hr2 |- * by (cbn in *; congruence).
    cbn [fst] in Hr2 |- *.
    assert (Hpos : contents d' !! offset = Some b).
    { rewrite Hi by lia. cbn. apply list_lookup_insert_eq. apply Nat.ltb_lt in E. lia. }
    rewrite (drop_S _ _ _ Hpos). cbn [length take map].
    rewrite (byte_to_of_Z _ _ Hb).
    rewrite pad_to_full in Hr2 |- *.
    + inversion Hr2 as [Hr3]. rewrite !Hr3. reflexivity.
    + rewrite length_map, length_take, length_drop. lia.
    + cbn [length]. rewrite length_map, length_take, length_drop. lia.
Qed.

Lemma read_one_inv (d d1 : eeprom) (offset : nat) (buf : list Z) :
  read_eeprom offset 1 d = (Some buf, d1) ->
  exists old, buf = [old] /\ 0 <= old < 256
    /\ contents d1 = contents d /\ present d1 = present d
    /\ (forall b, contents d !! offset = Some b -> old = byte_to_Z b).
Proof.
  intros H. apply read_eeprom_Some in H as (-> & Hc & Hp).
  destruct (contents d !! offset) as [b|] eqn:E.
  - rewrite (drop_S _ _ _ E). cbn. exists (byte_to_Z b).
    pose proof (byte_to_Z_range b) as Hb.
    repeat split; auto; try lia. intros b' [= <-]. reflexivity.
  - rewrite drop_ge by (apply lookup_ge_None; exact E). cbn.
    exists 0. repeat split; auto; try lia. intros b' [=].
Qed.

(** [modify_eeprom_byte] with a mask that is a byte (the default 0xff among
    them) never raises: what it hands to [bytearray] is a byte, whatever
    [value] is and whatever the module does. *)
Theorem modify_eeprom_byte_never_raises (d : eeprom) (offset : nat) (value mask : Z) :
  0 <= mask < 256 ->
  exists ret : bool, fst (modify_eeprom_byte offset value mask d) = Ok ret.
Proof.
  intros Hm. unfold modify_eeprom_byte.
  destruct (read_eeprom offset 1 d) as [[buf|] d1] eqn:E; [|exists false; reflexivity].
  apply read_one_inv in E as (old & -> & Ho & _).
  destruct (negb _); [|exists true; reflexivity].
  pose proof (masked_update_range old value mask Ho Hm) as Hb.
  destruct (0 <=? _) eqn:E1; [|lia]. destruct (_ <? 256) eqn:E2; [|lia]. cbn [andb].
  destruct (write_eeprom _ _ _ _) as [ret d2]. exists ret. reflexivity.
Qed.

Lemma masked_update_lnot (old value mask : Z) :
  Z.land (Z.lor (Z.land old (Z.lnot mask)) (Z.land value mask)) (Z.lnot mask)
  = Z.land old (Z.lnot mask).
Proof.
  apply Z.bits_inj'. intros i Hi.
  rewrite !Z.land_spec, Z.lor_spec, !Z.land_spec, Z.lnot_spec by lia.
  destruct (Z.testbit old i), (Z.testbit value i), (Z.testbit mask i); reflexivity.
Qed.

Lemma masked_update_same (old value mask : Z) :
  Z.land value mask = Z.land old mask ->
  Z.lor (Z.land old (Z.lnot mask)) (Z.land value mask) = old.
Proof.
  intros H. rewrite H. apply Z.bits_inj'. intros i Hi.
  rewrite Z.lor_spec, !Z.land_spec, Z.lnot_spec by lia.
  destruct (Z.testbit old i), (Z.testbit mask i); reflexivity.
Qed.

(** What [modify_eeprom_byte] leaves in the module: on a present module
    without I/O faults and with a mask that is a byte, the call succeeds and
    the byte at [offset] becomes [(old & ~mask) | (value & mask)]: it agrees
    with [value] on the bits of [mask] and with the old byte on all others;
    no other byte of the module changes. *)
Theorem modify_eeprom_byte_stores (d : eeprom) (offset : nat) (value mask : Z)
  (old : byte) :
  present d = true -> faults d = [] -> contents d !! offset = Some old ->
  0 <= mask < 256 ->
  let done := modify_eeprom_byte offset value mask d in
  exists new : byte,
    fst done = Ok true
    /\ contents (snd done) = <[offset := new]> (contents d)
    /\ byte_to_Z new = Z.lor (Z.land (byte_to_Z old) (Z.lnot mask)) (Z.land value mask)
    /\ Z.land (byte_to_Z new) mask = Z.land value mask
    /\ Z.land (byte_to_Z new) (Z.lnot mask) = Z.land (byte_to_Z old) (Z.lnot mask).
Proof.
  intros Hp Hf Ho Hm. cbv zeta. unfold modify_eeprom_byte.
  rewrite (read_one_byte d offset old Hp Hf Ho).
  pose proof (masked_update_range (byte_to_Z old) value mask (byte_to_Z_range old) Hm) as Hb.
  destruct (Z.land value mask =? Z.land (byte_to_Z old) mask) eqn:E; cbn [negb].
  - apply Z.eqb_eq in E. exists old. cbn [fst snd log contents].
    rewrite (masked_update_same _ _ _ E).
    repeat split; auto. symmetry. apply list_insert_id. exact Ho.
  - destruct (0 <=? _) eqn:E1; [|lia]. destruct (_ <? 256) eqn:E2; [|lia]. cbn [andb].
    destruct (byte_of_Z_Some _ Hb) as [new Hnew].
    rewrite write_eeprom_no_fault by assumption.
    cbn [write_each]. rewrite Hnew. cbn [log contents].
    assert (Hlt : (offset <? length (contents d))%nat = true).
    { apply Nat.ltb_lt. apply lookup_lt_is_Some. eauto. }
    rewrite Hlt. exists new. cbn [fst snd store contents log].
    rewrite (byte_to_of_Z _ _ Hnew).
    repeat split; auto using masked_update_land, masked_update_lnot.
Qed.

Lemma write_then_read_witness :
  fst (write_eeprom 4 2 [0x12; 0x34; 0x56] register_module) = true
  /\ fst (read_eeprom 4 2 (snd (write_eeprom 4 2 [0x12; 0x34; 0x56] register_module)))
     = Some [0x12; 0x34].
Proof.
  exact (write_then_read register_module 4 2 [0x12; 0x34; 0x56] eq_refl eq_refl
           ltac:(simpl; lia) ltac:(simpl; lia) ltac:(repeat constructor; lia)).
Defined.

Lemma write_eeprom_short_buffer_witness :
  fst (write_eeprom 4 3 [0x12; 0x34] register_module) = false
  /\ fst (read_eeprom 4 2 (snd (write_eeprom 4 3 [0x12; 0x34] register_module)))
     = Some [0x12; 0x34].
Proof.
  exact (write_eeprom_short_buffer register_module 4 3 [0x12; 0x34] eq_refl eq_refl
           ltac:(simpl; lia) ltac:(simpl; lia) ltac:(repeat constructor; lia)).
Defined.

Lemma modify_eeprom_byte_never_raises_witness :
  exists ret : bool, fst (modify_eeprom_byte 600 (-1) 0x0f failing_module) = Ok ret.
Proof.
  exact (modify_eeprom_byte_never_raises failing_module 600 (-1) 0x0f ltac:(lia)).
Defined.

Lemma modify_eeprom_byte_stores_witness :
  exists new : byte,
    fst (modify_eeprom_byte 3 0x41 0xf0 register_module) = Ok true
    /\ contents (snd (modify_eeprom_byte 3 0x41 0xf0 register_module))
       = <[3%nat := new]> (contents register_module)
    /\ byte_to_Z new = 0x45.
Proof.
  destruct (modify_eeprom_byte_stores register_module 3 0x41 0xf0 x05
              eq_refl eq_refl eq_refl ltac:(lia)) as (new & H1 & H2 & H3 & _).
  exists new. split; [exact H1 | split; [exact H2 | exact H3]].
Defined.

End ChannelWrites.

Module ControlFacts.
Import Hex Channel Identify Sfp Control ChannelFacts ChannelWrites.

Lemma cached_raw (h : sfp) (c : list string) (o l : nat) :
  eeprom_cache h = Some c ->
  get_eeprom_cache_raw o l h
  = (bytes ← ints_of_hex c; Ok (Some (cache_slice o l bytes)), h).
Proof. intros Hc. unfold get_eeprom_cache_raw. rewrite Hc. cbv zeta. rewrite Hc. reflexivity. Qed.

Lemma cached_slice (h : sfp) (c : list string) (o l : nat) :
  eeprom_cache h = Some c ->
  get_eeprom_cache o l h = (Some (cache_slice o l c), h).
Proof. intros Hc. unfold get_eeprom_cache. rewrite Hc. cbv zeta. rewrite Hc. reflexivity. Qed.

Lemma cached_module_type_raw (h : sfp) (c : list string) :
  eeprom_cache h = Some c ->
  get_module_type_raw h = (module_type_of_cache c, h).
Proof.
  intros Hc. unfold get_module_type_raw, get_module_type, hbind, module_type_of_cache.
  rewrite (cached_raw h c 0 1 Hc).
  destruct (ints_of_hex c) as [bytes|]; cbn [mbind result_bind]; [|reflexivity].
  destruct (cache_slice 0 1 bytes); reflexivity.
Qed.

Lemma cached_dac (h : sfp) (c : list string) :
  eeprom_cache h = Some c ->
  __is_direct_attach_cable h = (dac_of_cache c, h).
Proof.
  intros Hc. unfold __is_direct_attach_cable, dac_of_cache, hbind.
  rewrite (cached_module_type_raw h c Hc).
  destruct (module_type_of_cache c) as [mtype|]; cbn [mbind result_bind]; [|reflexivity].
  unfold connector_of_cache, total.
  destruct (str_in mtype SFF8024_TYPE_SFP);
    [rewrite (cached_slice h c _ _ Hc); destruct (cache_slice _ _ c); [reflexivity|];
     destruct (connector_dict !! _); reflexivity|].
  destruct (str_in mtype SFF8024_TYPE_QSFP);
    [rewrite (cached_slice h c _ _ Hc); destruct (cache_slice _ _ c); [reflexivity|];
     destruct (connector_dict !! _); reflexivity|].
  destruct (str_in mtype (_ ++ _));
    [rewrite (cached_slice h c _ _ Hc); destruct (cache_slice _ _ c); [reflexivity|];
     destruct (connector_dict !! _); reflexivity|].
  reflexivity.
Qed.

Lemma populate_cached (h : sfp) (c : list string) :
  eeprom_cache h = Some c -> populate_eeprom_cache h = h.
Proof. intros Hc. unfold populate_eeprom_cache. rewrite Hc. reflexivity. Qed.

Lemma module_type_raw_populate (h : sfp) :
  get_module_type_raw h
  = match eeprom_cache (populate_eeprom_cache h) with
    | None => (Exn, populate_eeprom_cache h)
    | Some c => (module_type_of_cache c, populate_eeprom_cache h)
    end.
Proof.
  destruct (eeprom_cache h) as [c|] eqn:Hc.
  - rewrite (populate_cached h c Hc), Hc. apply cached_module_type_raw. exact Hc.
  - unfold get_module_type_raw, get_module_type, hbind, get_eeprom_cache_raw.
    rewrite Hc. cbv zeta.
    destruct (eeprom_cache (populate_eeprom_cache h)) as [c|]; [|reflexivity].
    unfold module_type_of_cache.
    destruct (ints_of_hex c) as [bytes|]; cbn [mbind result_bind]; [|reflexivity].
    destruct (cache_slice 0 1 bytes); reflexivity.
Qed.

(** [__is_direct_attach_cable] populates the cache if need be and then
    depends on the cache alone. *)
Lemma dac_populate (h : sfp) :
  __is_direct_attach_cable h
  = match eeprom_cache (populate_eeprom_cache h) with
    | None => (Exn, populate_eeprom_cache h)
    | Some c => (dac_of_cache c, populate_eeprom_cache h)
    end.
Proof.
  destruct (eeprom_cache (populate_eeprom_cache h)) as [c|] eqn:Hc1.
  - pose proof (cached_dac _ c Hc1) as HK.
    unfold __is_direct_attach_cable, hbind in HK |- *.
    rewrite module_type_raw_populate, Hc1.
    rewrite (cached_module_type_raw _ c Hc1) in HK.
    destruct (module_type_of_cache c) as [mtype|] eqn:E.
    + exact HK.
    + unfold dac_of_cache. rewrite E. reflexivity.
  - unfold __is_direct_attach_cable, hbind.
    rewrite module_type_raw_populate, Hc1. reflexivity.
Qed.

Lemma only_read_refl (d : eeprom) : only_read d d.
Proof. unfold only_read. auto. Qed.

Lemma only_read_trans (d1 d2 d3 : eeprom) :
  only_read d1 d2 -> only_read d2 d3 -> only_read d1 d3.
Proof.
  unfold only_read. intros (Hc & Hp & Hw & Hf) (Hc' & Hp' & Hw' & Hf').
  repeat split; try congruence. auto.
Qed.

Lemma only_read_log (e : event) (d : eeprom) :
  is_write e = false -> only_read d (log e d).
Proof.
  intros He. unfold only_read. rewrite writes_log, He.
  cbn [log contents present faults]. repeat split; auto; lia.
Qed.

Lemma only_read_next_fault (d : eeprom) : only_read d (snd (next_fault d)).
Proof.
  unfold next_fault. destruct (faults d) as [|f fs] eqn:Hf; [apply only_read_refl|].
  unfold only_read, writes. cbn. repeat split; auto; congruence.
Qed.

Lemma only_read_io (offset num_bytes : nat) (d : eeprom) :
  only_read d (snd (io_read offset num_bytes d)).
Proof.
  unfold io_read. pose proof (only_read_next_fault d) as H.
  destruct (next_fault d) as [f d1]. cbn [snd] in H.
  apply (only_read_trans _ d1); [exact H|].
  destruct f; cbn [snd]; apply only_read_log; reflexivity.
Qed.

(** A read leaves the module as it is. *)
Lemma only_read_attempts (n offset num_bytes : nat) :
  forall d : eeprom, only_read d (snd (read_attempts n offset num_bytes d)).
Proof.
  induction n as [|n IH]; intros d; cbn [read_attempts]; [apply only_read_refl|].
  pose proof (only_read_io offset num_bytes d) as H.
  destruct (io_read offset num_bytes d) as [[buf|] d1]; cbn [snd] in H |- *; [exact H|].
  destruct (_ && _); [|exact H].
  apply (only_read_trans _ d1); [exact H|].
  apply (only_read_trans _ (log (EvSleep retry_interval_ms) d1));
    [apply only_read_log; reflexivity | apply IH].
Qed.

Lemma read_keeps (offset num_bytes : nat) (d : eeprom) :
  only_read d (snd (read_eeprom offset num_bytes d)).
Proof.
  unfold read_eeprom, __read_eeprom.
  destruct (present d); cbn [negb]; [|apply only_read_refl].
  pose proof (only_read_attempts retry_expiry offset num_bytes d) as H.
  destruct (read_attempts retry_expiry offset num_bytes d) as [[buf|] d1]; exact H.
Qed.

Lemma raw_keeps (offset num_bytes : nat) (d : eeprom) :
  only_read d (snd (get_eeprom_raw offset num_bytes d)).
Proof.
  unfold get_eeprom_raw.
  pose proof (read_keeps offset num_bytes d) as H.
  destruct (read_eeprom offset num_bytes d) as [[buf|] d1]; exact H.
Qed.

Lemma populate_keeps (h : sfp) :
  port (populate_eeprom_cache h) = port h
  /\ only_read (dev h) (dev (populate_eeprom_cache h)).
Proof.
  unfold populate_eeprom_cache.
  destruct (eeprom_cache h); [split; [reflexivity | apply only_read_refl]|].
  match goal with |- context [get_eeprom_raw 0 ?n (dev h)] =>
    pose proof (raw_keeps 0 n (dev h)) as H;
    destruct (get_eeprom_raw 0 n (dev h)) as [r d'] end.
  split; [reflexivity | exact H].
Qed.

Lemma dac_cached_populate (h : sfp) (c : list string) :
  eeprom_cache (populate_eeprom_cache h) = Some c ->
  __is_direct_attach_cable h = __is_direct_attach_cable (populate_eeprom_cache h).
Proof.
  intros Hc. rewrite (dac_populate h), Hc.
  rewrite (cached_dac _ c Hc). reflexivity.
Qed.

Lemma set_lpmode_populate (h : sfp) (c : list string) (lpmode : bool) :
  port h = PORT_TYPE_QSFP ->
  eeprom_cache (populate_eeprom_cache h) = Some c ->
  set_lpmode lpmode h = set_lpmode lpmode (populate_eeprom_cache h).
Proof.
  intros Hp Hc. unfold set_lpmode, guarded, hbind, is_sff8636.
  destruct (populate_keeps h) as [Hp' _]. rewrite Hp', Hp. cbn [hret].
  rewrite (dac_cached_populate h c Hc). reflexivity.
Qed.

Lemma power_ctrl_value (old : Z) (lpmode : bool) :
  0 <= old < 256 ->
  let val := if lpmode then Z.lor (Z.land old 0xf0) 0x03 else Z.lor (Z.land old 0xf0) 0x0d in
  0 <= val < 256
  /\ Z.land val 0xf0 = Z.land old 0xf0
  /\ (Z.land val 0x01 =? 0) = false
  /\ negb (Z.land val 0x02 =? 0) = lpmode.
Proof.
  intros Ho. cbv zeta.
  assert (Hall : forallb (fun o =>
            forallb (fun lp : bool =>
              let val := if lp then Z.lor (Z.land o 0xf0) 0x03 else Z.lor (Z.land o 0xf0) 0x0d in
              (0 <=? val) && (val <? 256) && (Z.land val 0xf0 =? Z.land o 0xf0)
              && negb (Z.land val 0x01 =? 0)
              && Bool.eqb (negb (Z.land val 0x02 =? 0)) lp) [true; false])
            (map Z.of_nat (seq 0 256)) = true) by (vm_compute; reflexivity).
  rewrite forallb_forall in Hall.
  specialize (Hall old).
  assert (Hin : In old (map Z.of_nat (seq 0 256))).
  { apply in_map_iff. exists (Z.to_nat old). split; [lia|]. apply in_seq. lia. }
  specialize (Hall Hin). rewrite forallb_forall in Hall.
  specialize (Hall lpmode). 
  assert (Hl : In lpmode [true; false]) by (destruct lpmode; cbn; auto).
  specialize (Hall Hl). cbv zeta in Hall.
  rewrite !andb_true_iff in Hall. destruct Hall as ((((H1 & H2) & H3) & H4) & H5).
  apply Z.leb_le in H1. apply Z.ltb_lt in H2. apply Z.eqb_eq in H3.
  apply negb_true_iff in H4. apply Bool.eqb_prop in H5.
  repeat split; auto.
Qed.

(** [set_lpmode] on a QSFP port whose cache is populated and whose module is
    not a direct attach cable: read the power control byte, write it back
    with the low nibble replaced. *)
Lemma set_lpmode_cached (h : sfp) (c : list string) (old : byte) (lpmode : bool) :
  port h = PORT_TYPE_QSFP -> eeprom_cache h = Some c -> dac_of_cache c = Ok false ->
  present (dev h) = true -> faults (dev h) = [] ->
  contents (dev h) !! SFF8636_PWR_CTRL_ADDR = Some old ->
  exists new : byte,
    byte_to_Z new
    = (if lpmode then Z.lor (Z.land (byte_to_Z old) 0xf0) 0x03
       else Z.lor (Z.land (byte_to_Z old) 0xf0) 0x0d)
    /\ set_lpmode lpmode h
        = (true, with_dev (store SFF8636_PWR_CTRL_ADDR new
                             (log (EvOpenW SFF8636_PWR_CTRL_ADDR)
                                (log (EvRead SFF8636_PWR_CTRL_ADDR 1) (dev h))))
                   (with_dev (log (EvRead SFF8636_PWR_CTRL_ADDR 1) (dev h)) h)).
Proof.
  intros Hp Hc Hdac Hpr Hf Ho.
  destruct (power_ctrl_value (byte_to_Z old) lpmode (byte_to_Z_range old)) as (Hr & _).
  cbv zeta in Hr.
  set (val := if lpmode then _ else _) in *.
  destruct (byte_of_Z_Some val Hr) as [new Hnew].
  exists new. split; [apply byte_to_of_Z; exact Hnew|].
  unfold set_lpmode, guarded, hbind, is_sff8636. rewrite Hp. cbn [hret].
  rewrite (cached_dac h c Hc), Hdac.
  unfold on_dev at 1. rewrite (read_one_byte (dev h) _ old Hpr Hf Ho).
  unfold hidx. cbn [lookup list_lookup hret].
  unfold on_dev. cbn [dev with_dev].
  rewrite write_eeprom_no_fault by assumption.
  cbn [write_each]. cbv zeta. fold val. rewrite Hnew.
  cbn [log contents].
  assert (Hlt : (SFF8636_PWR_CTRL_ADDR <? length (contents (dev h)))%nat = true).
  { apply Nat.ltb_lt. apply lookup_lt_is_Some. eauto. }
  rewrite Hlt. reflexivity.
Qed.

Lemma get_lpmode_cached (h : sfp) (c : list string) (b : byte) :
  port h = PORT_TYPE_QSFP -> eeprom_cache h = Some c -> dac_of_cache c = Ok false ->
  present (dev h) = true -> faults (dev h) = [] ->
  contents (dev h) !! SFF8636_PWR_CTRL_ADDR = Some b ->
  fst (get_lpmode h)
  = (if negb (Z.land (byte_to_Z b) 0x01 =? 0) then negb (Z.land (byte_to_Z b) 0x02 =? 0)
     else true).
Proof.
  intros Hp Hc Hdac Hpr Hf Ho.
  unfold get_lpmode, guarded, hbind, is_sff8636. rewrite Hp. cbn [hret].
  rewrite (cached_dac h c Hc), Hdac.
  unfold on_dev at 1. rewrite (read_one_byte (dev h) _ b Hpr Hf Ho).
  unfold hidx. cbn [lookup list_lookup hret].
  destruct (negb _); reflexivity.
Qed.

(** [set_lpmode] followed by [get_lpmode].  On a QSFP port, with a present
    module without I/O faults that is not a direct attach cable,
    [set_lpmode(lpmode)] succeeds, replaces the low nibble of the power
    control byte (byte 93) by 0x3 or 0xd and keeps its high nibble, and
    [get_lpmode()] then returns [lpmode]. *)
Theorem lpmode_round_trip (h : sfp) (lpmode : bool) (old : byte) :
  port h = PORT_TYPE_QSFP ->
  present (dev h) = true -> faults (dev h) = [] ->
  contents (dev h) !! SFF8636_PWR_CTRL_ADDR = Some old ->
  fst (__is_direct_attach_cable h) = Ok false ->
  let done := set_lpmode lpmode h in
  exists new : byte,
    fst done = true
    /\ contents (dev (snd done)) = <[SFF8636_PWR_CTRL_ADDR := new]> (contents (dev h))
    /\ byte_to_Z new
        = Z.lor (Z.land (byte_to_Z old) 0xf0) (if lpmode then 0x03 else 0x0d)
    /\ fst (get_lpmode (snd done)) = lpmode.
Proof.
  intros Hp Hpr Hf Ho Hdac. cbv zeta.
  rewrite dac_populate in Hdac.
  destruct (eeprom_cache (populate_eeprom_cache h)) as [c|] eqn:Hc; [|discriminate].
  cbn [fst] in Hdac.
  destruct (populate_keeps h) as (Hp1 & Hc1 & Hpr1 & _ & Hf1).
  rewrite (set_lpmode_populate h c lpmode Hp Hc).
  set (h1 := populate_eeprom_cache h) in *.
  assert (Ho1 : contents (dev h1) !! SFF8636_PWR_CTRL_ADDR = Some old) by (rewrite Hc1; exact Ho).
  destruct (set_lpmode_cached h1 c old lpmode) as (new & Hnew & ->); try congruence; auto.
  exists new. cbn [fst snd with_dev dev store contents log].
  split; [reflexivity|]. split; [rewrite Hc1; reflexivity|].
  split; [rewrite Hnew; destruct lpmode; reflexivity|].
  erewrite get_lpmode_cached with (c := c) (b := new); cbn [port with_dev dev eeprom_cache store log present faults contents]; 
    try congruence; auto.
  - destruct (power_ctrl_value (byte_to_Z old) lpmode (byte_to_Z_range old)) as (_ & _ & H1 & H2).
    cbv zeta in H1, H2. rewrite Hnew. rewrite H1. cbn [negb]. exact H2.
  - apply list_lookup_insert_eq. apply lookup_lt_is_Some. eauto.
Qed.

Section Related.
Variable R : eeprom -> eeprom -> Prop.
Hypothesis R_refl : forall d, R d d.
Hypothesis R_trans : forall d1 d2 d3, R d1 d2 -> R d2 d3 -> R d1 d3.
Hypothesis R_read : forall d d', only_read d d' -> R d d'.

Lemma related_ret {A} (a : A) : dev_related R (hret a).
Proof. intros h. split; [reflexivity | apply R_refl]. Qed.

Lemma related_raise {A} : dev_related R (@hraise A).
Proof. intros h. split; [reflexivity | apply R_refl]. Qed.

Lemma related_bind {A B} (m : H A) (f : A -> H B) :
  dev_related R m -> (forall a, dev_related R (f a)) -> dev_related R (hbind m f).
Proof.
  intros Hm Hf h. unfold hbind. specialize (Hm h).
  destruct (m h) as [[a|] h1]; cbn [snd] in Hm |- *; [|exact Hm].
  destruct (Hf a h1) as [Hp Hr]. destruct Hm as [Hp1 Hr1].
  split; [congruence | eapply R_trans; eauto].
Qed.

Lemma related_on_dev {A} (f : eeprom -> A * eeprom) :
  (forall d, R d (snd (f d))) -> dev_related R (on_dev f).
Proof.
  intros Hf h. unfold on_dev. specialize (Hf (dev h)).
  destruct (f (dev h)) as [a d']. split; [reflexivity | exact Hf].
Qed.

Lemma related_read (offset num_bytes : nat) :
  dev_related R (on_dev (read_eeprom offset num_bytes)).
Proof. apply related_on_dev. intros d. apply R_read, read_keeps. Qed.

Lemma related_populate (h : sfp) :
  port (populate_eeprom_cache h) = port h /\ R (dev h) (dev (populate_eeprom_cache h)).
Proof. destruct (populate_keeps h) as [Hp Hr]. split; [exact Hp | apply R_read, Hr]. Qed.

Lemma related_cache_raw (o l : nat) : dev_related R (get_eeprom_cache_raw o l).
Proof.
  intros h. unfold get_eeprom_cache_raw.
  destruct (eeprom_cache h) eqn:Hc.
  - rewrite Hc. split; [reflexivity | apply R_refl].
  - destruct (eeprom_cache (populate_eeprom_cache h)); apply related_populate.
Qed.

Lemma related_cache (o l : nat) : dev_related R (total (get_eeprom_cache o l)).
Proof.
  intros h. unfold total, get_eeprom_cache.
  destruct (eeprom_cache h) eqn:Hc.
  - rewrite Hc. split; [reflexivity | apply R_refl].
  - destruct (eeprom_cache (populate_eeprom_cache h)); apply related_populate.
Qed.

Lemma related_hidx (buf : list Z) (i : nat) : dev_related R (hidx buf i).
Proof. unfold hidx. destruct (buf !! i); [apply related_ret | apply related_raise]. Qed.

Lemma related_module_type_raw : dev_related R get_module_type_raw.
Proof.
  unfold get_module_type_raw, get_module_type.
  apply related_bind; [|intros; apply related_ret].
  apply related_bind; [apply related_cache_raw|].
  intros [[|b l]|]; auto using related_ret, related_raise.
Qed.

Lemma related_dac : dev_related R __is_direct_attach_cable.
Proof.
  unfold __is_direct_attach_cable.
  apply related_bind; [apply related_module_type_raw|]. intros mtype.
  apply related_bind.
  - repeat (match goal with |- context [if ?b then _ else _] => destruct b end);
      auto using related_cache, related_ret.
  - intros code. destruct (match code with Some (c :: _) => _ | _ => _ end);
      apply related_ret.
Qed.

Lemma related_is_sff8636 : dev_related R is_sff8636.
Proof.
  intros h. unfold is_sff8636. destruct (port h) eqn:Hp;
    try (split; [exact Hp | apply R_refl]).
  cbv iota. rewrite <- Hp.
  apply related_bind; [apply related_module_type_raw | intros; apply related_ret].
Qed.

Lemma related_get_lpmode (h : sfp) : R (dev h) (dev (snd (get_lpmode h))).
Proof.
  assert (Hm : dev_related R
    (sff8636 <- is_sff8636 ;;
     if sff8636 : bool then
       dac <- __is_direct_attach_cable ;;
       if dac : bool then hret true
       else
         buf <- on_dev (read_eeprom SFF8636_PWR_CTRL_ADDR 1) ;;
         match buf with
         | None => hret true
         | Some l =>
             b <- hidx l 0 ;;
             if negb (Z.land b 0x01 =? 0)
             then hret (negb (Z.land b 0x02 =? 0))
             else hret true
         end
     else hret true)).
  { apply related_bind; [apply related_is_sff8636|]. intros [|]; [|apply related_ret].
    apply related_bind; [apply related_dac|]. intros [|]; [apply related_ret|].
    apply related_bind; [apply related_read|]. intros [l|]; [|apply related_ret].
    apply related_bind; [apply related_hidx|]. intros b.
    destruct (negb _); apply related_ret. }
  unfold get_lpmode, guarded. specialize (Hm h).
  match goal with |- context [match ?m h with _ => _ end] =>
    change (snd (m h)) with (snd (m h)) in Hm; destruct (m h) as [[r|] h'] end;
    apply Hm.
Qed.

Lemma related_set_lpmode (lpmode : bool) (h : sfp) :
  (forall (val : Z) (d : eeprom),
     R d (snd (write_eeprom SFF8636_PWR_CTRL_ADDR 1 [val] d))) ->
  R (dev h) (dev (snd (set_lpmode lpmode h))).
Proof.
  intros Hw.
  assert (Hm : dev_related R
    (sff8636 <- is_sff8636 ;;
     if sff8636 : bool then
       dac <- __is_direct_attach_cable ;;
       if dac : bool then hret lpmode
       else
         buf <- on_dev (read_eeprom SFF8636_PWR_CTRL_ADDR 1) ;;
         match buf with
         | None => hret false
         | Some l =>
             b <- hidx l 0 ;;
             let val := Z.land b 0xf0 in
             let val := if lpmode then Z.lor val 0x03 else Z.lor val 0x0d in
             on_dev (write_eeprom SFF8636_PWR_CTRL_ADDR 1 [val])
         end
     else hret false)).
  { apply related_bind; [apply related_is_sff8636|]. intros [|]; [|apply related_ret].
    apply related_bind; [apply related_dac|]. intros [|]; [apply related_ret|].
    apply related_bind; [apply related_read|]. intros [l|]; [|apply related_ret].
    apply related_bind; [apply related_hidx|]. intros b. cbv zeta.
    apply related_on_dev. intros d. apply Hw. }
  unfold set_lpmode, guarded. specialize (Hm h).
  match goal with |- context [match ?m h with _ => _ end] =>
    destruct (m h) as [[r|] h'] end; apply Hm.
Qed.

End Related.

Lemma same_outside_refl (I : nat -> Prop) (d : eeprom) : same_outside I d d.
Proof. split; auto. Qed.

Lemma same_outside_trans (I : nat -> Prop) (d1 d2 d3 : eeprom) :
  same_outside I d1 d2 -> same_outside I d2 d3 -> same_outside I d1 d3.
Proof.
  intros [Hl Hi] [Hl' Hi']. split; [congruence|].
  intros i Hn. rewrite Hi', Hi by exact Hn. reflexivity.
Qed.

Lemma same_outside_read (I : nat -> Prop) (d d' : eeprom) :
  only_read d d' -> same_outside I d d'.
Proof. intros (Hc & _). split; intros; rewrite Hc; reflexivity. Qed.

(** The only byte of the module that [set_lpmode] can change is the power
    control byte at offset 93, on any port, for any module and whatever the
    I/O does; [get_lpmode] changes none and writes none. *)
Theorem lpmode_touches_power_control_only (h : sfp) (lpmode : bool) :
  same_outside (fun i => i = SFF8636_PWR_CTRL_ADDR)
    (dev h) (dev (snd (set_lpmode lpmode h)))
  /\ only_read (dev h) (dev (snd (get_lpmode h))).
Proof.
  split.
  - apply related_set_lpmode.
    + apply same_outside_refl.
    + apply same_outside_trans.
    + apply same_outside_read.
    + intros val d.
      destruct (write_eeprom_outside d SFF8636_PWR_CTRL_ADDR 1 [val]) as [Hl Hi].
      split; [exact Hl|]. intros i Hn. apply Hi. unfold SFF8636_PWR_CTRL_ADDR in *. lia.
  - apply related_get_lpmode.
    + apply only_read_refl.
    + apply only_read_trans.
    + auto.
Qed.

(** Where the low-power mode is not driven through the power control byte:
    on a port that is neither QSFP nor QSFP-DD the two calls do no I/O at
    all, and on a QSFP-DD port with a CMIS module (identifier 0x18, 0x19 or
    0x1e) they only read the identifier; [set_lpmode] reports failure and
    [get_lpmode] reports [True]. *)
Theorem lpmode_not_sff8636 (h : sfp) (lpmode : bool) :
  (port h <> PORT_TYPE_QSFP -> port h <> PORT_TYPE_QSFPDD ->
   set_lpmode lpmode h = (false, h) /\ get_lpmode h = (true, h))
  /\ (forall t : string,
      port h = PORT_TYPE_QSFPDD ->
      fst (get_module_type_raw h) = Ok t ->
      str_in t (SFF8024_TYPE_QSFPDD ++ SFF8024_TYPE_QSFP_CMIS_COMPLIANT) = true ->
      set_lpmode lpmode h = (false, snd (get_module_type_raw h))
      /\ get_lpmode h = (true, snd (get_module_type_raw h))
      /\ only_read (dev h) (dev (snd (get_module_type_raw h)))).
Proof.
  split.
  - intros H1 H2. unfold set_lpmode, get_lpmode, guarded, hbind, is_sff8636.
    destruct (port h); try contradiction; split; reflexivity.
  - intros t Hp Ht Hin.
    unfold set_lpmode, get_lpmode, guarded, hbind, is_sff8636. rewrite Hp.
    unfold hbind.
    destruct (related_module_type_raw only_read only_read_refl only_read_trans
                (fun _ _ H => H) h) as [_ Hr].
    destruct (get_module_type_raw h) as [[t'|] h1]; cbn [fst snd] in *; [|discriminate].
    inversion Ht; subst t'. cbn [hret]. rewrite Hin. cbn [negb].
    split; [reflexivity|]. split; [reflexivity | exact Hr].
Qed.

(** A direct attach cable on a QSFP port: [set_lpmode] reports whatever was
    asked for and [get_lpmode] reports [True], and neither writes to the
    module. *)
Theorem lpmode_direct_attach (h : sfp) (lpmode : bool) :
  port h = PORT_TYPE_QSFP ->
  fst (__is_direct_attach_cable h) = Ok true ->
  set_lpmode lpmode h = (lpmode, snd (__is_direct_attach_cable h))
  /\ get_lpmode h = (true, snd (__is_direct_attach_cable h))
  /\ only_read (dev h) (dev (snd (__is_direct_attach_cable h))).
Proof.
  intros Hp Hd.
  unfold set_lpmode, get_lpmode, guarded, hbind, is_sff8636. rewrite Hp. cbn [hret].
  destruct (related_dac only_read only_read_refl only_read_trans (fun _ _ H => H) h)
    as [_ Hr].
  destruct (__is_direct_attach_cable h) as [[r|] h1]; cbn [fst snd] in *; [|discriminate].
  inversion Hd; subst r. split; [reflexivity|]. split; [reflexivity | exact Hr].
Qed.

Lemma write_one (d : eeprom) (offset : nat) (v : Z) :
  let w := __write_eeprom offset 1 [v] d in
  present (snd w) = present d
  /\ (fst w = false -> contents (snd w) = contents d /\ writes (snd w) = writes d)
  /\ (fst w = true ->
      exists b, byte_of_Z v = Some b /\ (offset < length (contents d))%nat
        /\ contents (snd w) = <[offset := b]> (contents d)
        /\ journal (snd w) = journal d ++ [EvOpenW offset; EvWrite offset b]).
Proof.
  cbv zeta. unfold __write_eeprom.
  destruct (present d) eqn:Hp; cbn [negb].
  2:{ cbn. split; [exact Hp|]. split; [auto | discriminate]. }
  unfold next_fault.
  destruct (faults d) as [|f fs] eqn:Hf.
  - cbn [write_each log contents].
    destruct (byte_of_Z v) as [b|].
    + destruct (offset <? length (contents d))%nat eqn:E.
      * cbn. split; [exact Hp|]. split; [discriminate|]. intros _. exists b.
        apply Nat.ltb_lt in E. rewrite <- app_assoc. auto.
      * cbn. split; [exact Hp|]. split; [|discriminate]. intros _.
        split; [reflexivity|]. unfold writes. cbn.
        rewrite List.filter_app, length_app. cbn. lia.
    + cbn. split; [exact Hp|]. split; [|discriminate]. intros _.
      split; [reflexivity|]. unfold writes. cbn.
      rewrite List.filter_app, length_app. cbn. lia.
  - assert (Hw : forall l, writes {| present := present d; contents := contents d;
                                     faults := l; journal := journal d ++ [EvOpenW offset] |}
                           = writes d).
    { intros l. unfold writes. cbn. rewrite List.filter_app, length_app. cbn. lia. }
    destruct f.
    + cbn. split; [exact Hp|]. split; [|discriminate]. intros _. split; [reflexivity|].
      exact (Hw fs).
    + cbn [write_each log contents present faults journal].
      destruct (byte_of_Z v) as [b|].
      * destruct (offset <? length (contents d))%nat eqn:E.
        -- cbn. split; [exact Hp|]. split; [discriminate|]. intros _. exists b.
           apply Nat.ltb_lt in E. rewrite <- app_assoc. auto.
        -- cbn. split; [exact Hp|]. split; [|discriminate]. intros _.
           split; [reflexivity|]. exact (Hw fs).
      * cbn. split; [exact Hp|]. split; [|discriminate]. intros _.
        split; [reflexivity|]. exact (Hw fs).
Qed.

Lemma read_one_raw (d : eeprom) (offset : nat) :
  let r := __read_eeprom offset 1 d in
  only_read d (snd r)
  /\ forall buf, fst r = Some buf ->
       exists old, buf = [old]
         /\ (old = 0 \/ exists b, contents d !! offset = Some b /\ old = byte_to_Z b).
Proof.
  cbv zeta. split; [apply (read_keeps offset 1 d)|].
  intros buf Hb.
  destruct (__read_eeprom offset 1 d) as [r d1] eqn:E. cbn [fst] in Hb. subst r.
  apply read_eeprom_Some in E as (-> & _).
  destruct (contents d !! offset) as [b|] eqn:Eo.
  - rewrite (drop_S _ _ _ Eo). cbn. exists (byte_to_Z b). split; [reflexivity|].
    right. exists b. auto.
  - rewrite drop_ge by (apply lookup_ge_None; exact Eo). cbn.
    exists 0. auto.
Qed.

(** [soft_reset()] never raises.  It returns [True] only on a QSFP-DD port,
    for a module whose identifier (byte 128) is 0x18 or 0x19 and whose
    revision (byte 1) is at least 0x30, after writing 0x18 (software reset
    and forced low power) to the module control byte 26 and sleeping one
    second; when it returns [False] it has written nothing. *)
Theorem soft_reset_guards (h : sfp) :
  let r := soft_reset h in
  (exists ret : bool, fst r = Ok ret)
  /\ (fst r = Ok true ->
      port h = PORT_TYPE_QSFPDD
      /\ (exists id, contents (dev h) !! CMIS_REG_ID = Some id /\ In (byte_to_Z id) CMIS_IDS)
      /\ (exists rev, contents (dev h) !! CMIS_REG_REV = Some rev /\ 0x30 <= byte_to_Z rev)
      /\ contents (dev (snd r)) = <[CMIS_REG_MOD_CTRL := x18]> (contents (dev h))
      /\ exists before,
           journal (dev (snd r))
           = before ++ [EvOpenW CMIS_REG_MOD_CTRL; EvWrite CMIS_REG_MOD_CTRL x18;
                        EvSleep 1000])
  /\ (fst r = Ok false ->
      contents (dev (snd r)) = contents (dev h) /\ writes (dev (snd r)) = writes (dev h)).
Proof.
  cbv zeta. destruct (soft_reset h) as [res h'] eqn:E. cbn [fst snd].
  unfold soft_reset in E.
  assert (Hno : forall h0, only_read (dev h) (dev h0) ->
            (exists ret : bool, Ok false = Ok ret)
            /\ (@Ok bool false = Ok true -> 
                port h = PORT_TYPE_QSFPDD
                /\ (exists id, contents (dev h) !! CMIS_REG_ID = Some id
                                /\ In (byte_to_Z id) CMIS_IDS)
                /\ (exists rev, contents (dev h) !! CMIS_REG_REV = Some rev
                                 /\ 0x30 <= byte_to_Z rev)
                /\ contents (dev h0) = <[CMIS_REG_MOD_CTRL := x18]> (contents (dev h))
                /\ exists before,
                     journal (dev h0)
                     = before ++ [EvOpenW CMIS_REG_MOD_CTRL; EvWrite CMIS_REG_MOD_CTRL x18;
                                  EvSleep 1000])
            /\ (@Ok bool false = Ok false ->
                contents (dev h0) = contents (dev h) /\ writes (dev h0) = writes (dev h))).
  { intros h0 (Hc & _ & Hw & _). split; [eexists; reflexivity|].
    split; [discriminate | auto]. }
  destruct (port h) eqn:Hport;
    try (inversion E; subst; apply Hno, only_read_refl).
  unfold hbind at 1, on_dev at 1 in E.
  destruct (read_one_raw (dev h) CMIS_REG_ID) as [Hk1 Hb1]. cbv zeta in Hk1, Hb1.
  destruct (__read_eeprom CMIS_REG_ID 1 (dev h)) as [[idl|] d1]; cbn [fst snd] in *.
  2:{ inversion E; subst. apply Hno. exact Hk1. }
  destruct (Hb1 idl eq_refl) as (id0 & -> & Hid). clear Hb1.
  unfold hbind at 1, hidx at 1 in E. cbn [lookup list_lookup hret] in E.
  destruct (existsb (Z.eqb id0) CMIS_IDS) eqn:Eid; cbn [negb] in E.
  2:{ inversion E; subst. apply Hno. exact Hk1. }
  unfold hbind at 1, on_dev at 1 in E. cbn [dev with_dev] in E.
  destruct (read_one_raw d1 CMIS_REG_REV) as [Hk2 Hb2]. cbv zeta in Hk2, Hb2.
  pose proof (only_read_trans _ _ _ Hk1 Hk2) as Hk12.
  destruct (__read_eeprom CMIS_REG_REV 1 d1) as [[revl|] d2]; cbn [fst snd] in *.
  2:{ inversion E; subst. apply Hno. exact Hk12. }
  destruct (Hb2 revl eq_refl) as (rev0 & -> & Hrev). clear Hb2.
  unfold hbind at 1, hidx at 1 in E. cbn [lookup list_lookup hret] in E.
  destruct (rev0 <? 0x30) eqn:Erev.
  { inversion E; subst. apply Hno. exact Hk12. }
  cbv zeta in E. unfold hbind at 1, on_dev at 1 in E. cbn [dev with_dev] in E.
  destruct (write_one d2 CMIS_REG_MOD_CTRL (Z.lor CMIS_MOD_CTRL_SW_RESET CMIS_MOD_CTRL_FORCE_LP))
    as (_ & Hfalse & Htrue). cbv zeta in Hfalse, Htrue.
  destruct Hk12 as (Hc & _ & Hw & _).
  destruct (__write_eeprom _ _ _ d2) as [[|] d3]; cbn [fst snd] in *.
  - destruct (Htrue eq_refl) as (b & Hb & Hlt & Hc3 & Hj3).
    assert (b = x18) by (vm_compute in Hb; congruence). subst b.
    cbn in E. inversion E; subst res h'. clear E.
    cbn [dev with_dev log contents journal].
    split; [eexists; reflexivity|]. split; [|discriminate]. intros _.
    split; [reflexivity|]. split.
    { destruct Hid as [->|(b & Hb' & ->)]; [discriminate|].
      exists b. split; [exact Hb'|].
      unfold CMIS_IDS in *. cbn in Eid |- *. apply orb_true_iff in Eid as [E|E].
      - left. apply Z.eqb_eq in E. lia.
      - apply orb_true_iff in E as [E|E]; [|discriminate].
        right. left. apply Z.eqb_eq in E. lia. }
    split.
    { destruct Hrev as [->|(b & Hb' & ->)]; [discriminate|].
      exists b. rewrite <- (proj1 Hk1). split; [exact Hb'|].
      apply Z.ltb_ge in Erev. exact Erev. }
    split; [rewrite Hc3, Hc; reflexivity|].
    exists (journal d2). rewrite Hj3, <- app_assoc. reflexivity.
  - destruct (Hfalse eq_refl) as [Hc3 Hw3].
    cbn in E. inversion E; subst res h'. clear E. cbn [dev with_dev].
    split; [eexists; reflexivity|]. split; [discriminate|]. intros _.
    split; congruence.
Qed.

(** When [soft_reset()] goes through: a QSFP-DD port, a present module
    without I/O faults whose identifier is 0x18 or 0x19 and whose revision
    is at least 0x30, and a node that reaches the module control byte. *)
Theorem soft_reset_succeeds (h : sfp) (id rev : byte) :
  port h = PORT_TYPE_QSFPDD ->
  present (dev h) = true -> faults (dev h) = [] ->
  contents (dev h) !! CMIS_REG_ID = Some id -> In (byte_to_Z id) CMIS_IDS ->
  contents (dev h) !! CMIS_REG_REV = Some rev -> 0x30 <= byte_to_Z rev ->
  (CMIS_REG_MOD_CTRL < length (contents (dev h)))%nat ->
  fst (soft_reset h) = Ok true
  /\ contents (dev (snd (soft_reset h))) !! CMIS_REG_MOD_CTRL = Some x18.
Proof.
  intros Hport Hp Hf Hid Hin Hrev Hge Hlen.
  assert (E : soft_reset h
              = (Ok true,
                 with_dev (log (EvSleep 1000)
                   (store CMIS_REG_MOD_CTRL x18
                      (log (EvOpenW CMIS_REG_MOD_CTRL)
                         (log (EvRead CMIS_REG_REV 1) (log (EvRead CMIS_REG_ID 1) (dev h))))))
                   (with_dev
                      (store CMIS_REG_MOD_CTRL x18
                         (log (EvOpenW CMIS_REG_MOD_CTRL)
                            (log (EvRead CMIS_REG_REV 1) (log (EvRead CMIS_REG_ID 1) (dev h)))))
                      (with_dev (log (EvRead CMIS_REG_REV 1) (log (EvRead CMIS_REG_ID 1) (dev h)))
                         (with_dev (log (EvRead CMIS_REG_ID 1) (dev h)) h))))).
  { unfold soft_reset. rewrite Hport.
    unfold hbind at 1, on_dev at 1.
    change (__read_eeprom CMIS_REG_ID 1 (dev h)) with (read_eeprom CMIS_REG_ID 1 (dev h)).
    rewrite (read_one_byte (dev h) _ id Hp Hf Hid).
    unfold hbind at 1, hidx at 1. cbn [lookup list_lookup hret].
    assert (existsb (Z.eqb (byte_to_Z id)) CMIS_IDS = true) as ->.
    { apply existsb_exists. exists (byte_to_Z id). split; [exact Hin | apply Z.eqb_refl]. }
    cbn [negb].
    unfold hbind at 1, on_dev at 1. cbn [dev with_dev].
    change (__read_eeprom CMIS_REG_REV 1) with (read_eeprom CMIS_REG_REV 1).
    rewrite (read_one_byte _ _ rev) by assumption.
    unfold hbind at 1, hidx at 1. cbn [lookup list_lookup hret].
    assert ((byte_to_Z rev <? 48) = false) as -> by (apply Z.ltb_ge; exact Hge).
    cbv zeta. unfold hbind at 1, on_dev at 1. cbn [dev with_dev].
    change (__write_eeprom CMIS_REG_MOD_CTRL 1) with (write_eeprom CMIS_REG_MOD_CTRL 1).
    rewrite write_eeprom_no_fault by assumption.
    cbn [write_each]. 
    change (byte_of_Z (Z.lor CMIS_MOD_CTRL_SW_RESET CMIS_MOD_CTRL_FORCE_LP)) with (Some x18).
    cbn [log contents].
    apply Nat.ltb_lt in Hlen. rewrite Hlen. reflexivity. }
  rewrite E. cbn [fst snd dev with_dev log store contents].
  split; [reflexivity|]. apply list_lookup_insert_eq. exact Hlen.
Qed.

Lemma land_pow2 (num k : Z) :
  0 <= k -> (Z.land num (Z.shiftl 1 k) =? 0) = negb (Z.testbit num k).
Proof.
  intros Hk. rewrite Z.shiftl_1_l.
  destruct (Z.testbit num k) eqn:E; cbn [negb].
  - apply Z.eqb_neq. intros H.
    assert (Ht : Z.testbit (Z.land num (2 ^ k)) k = true).
    { rewrite Z.land_spec, E, Z.pow2_bits_true by lia. reflexivity. }
    rewrite H, Z.bits_0 in Ht. discriminate.
  - apply Z.eqb_eq. apply Z.bits_inj'. intros i Hi.
    rewrite Z.land_spec, Z.bits_0, Z.pow2_bits_eqb by lia.
    destruct (Z.eqb_spec k i) as [->|]; [rewrite E|]; cbn;
      [reflexivity | apply andb_false_r].
Qed.

Lemma twos_comp_range (num bits : Z) :
  1 <= bits -> 0 <= num < 2 ^ bits ->
  - 2 ^ (bits - 1) <= __twos_comp num bits < 2 ^ (bits - 1)
  /\ (__twos_comp num bits) mod 2 ^ bits = num
  /\ (num < 2 ^ (bits - 1) -> __twos_comp num bits = num).
Proof.
  intros Hb Hn. unfold __twos_comp.
  destruct (bits - 1 <? 0) eqn:E; [lia|].
  rewrite land_pow2 by lia. rewrite negb_involutive, Z.shiftl_1_l.
  assert (Hpow : 2 ^ bits = 2 * 2 ^ (bits - 1)).
  { replace bits with (Z.succ (bits - 1)) at 1 by lia. apply Z.pow_succ_r. lia. }
  assert (Hpos : 0 < 2 ^ (bits - 1)) by (apply Z.pow_pos_nonneg; lia).
  destruct (Z.testbit num (bits - 1)) eqn:Et.
  - assert (Hhi : 2 ^ (bits - 1) <= num).
    { destruct (Z_lt_le_dec num (2 ^ (bits - 1))) as [Hlt|]; [|assumption].
      destruct (Z.eq_dec num 0) as [->|Hnz]; [rewrite Z.bits_0 in Et; discriminate|].
      rewrite Z.bits_above_log2 in Et; [discriminate|lia|].
      apply Z.log2_lt_pow2; lia. }
    split; [lia|]. split; [|lia].
    rewrite <- (Z.mod_small num (2 ^ bits)) at 2 by lia.
    replace (num - 2 ^ bits) with (num + (-1) * 2 ^ bits) by lia.
    apply Z.mod_add. lia.
  - assert (Hlo : num < 2 ^ (bits - 1)).
    { destruct (Z_lt_le_dec num (2 ^ (bits - 1))) as [|Hge]; [assumption|].
      assert (Hd : num / 2 ^ (bits - 1) = 1).
      { symmetry. apply Z.div_unique with (r := num - 2 ^ (bits - 1)); lia. }
      rewrite Z.testbit_false in Et by lia. rewrite Hd in Et. discriminate. }
    split; [lia|]. split; [apply Z.mod_small; lia | auto].
Qed.

(** [__twos_comp(num, bits)] is the signed reading of a [bits]-bit value:
    for [bits >= 1] and [0 <= num < 2^bits] the result lies in
    [[-2^(bits-1), 2^(bits-1))] and is congruent to [num] modulo [2^bits];
    it is [num] itself below [2^(bits-1)].  For [bits < 1] the shift raises
    and the result is 0. *)
Theorem twos_comp_signed (num bits : Z) :
  (1 <= bits -> 0 <= num < 2 ^ bits ->
   - 2 ^ (bits - 1) <= __twos_comp num bits < 2 ^ (bits - 1)
   /\ (__twos_comp num bits) mod 2 ^ bits = num
   /\ (num < 2 ^ (bits - 1) -> __twos_comp num bits = num))
  /\ (bits < 1 -> __twos_comp num bits = 0).
Proof.
  split; [apply twos_comp_range|].
  intros Hb. unfold __twos_comp.
  destruct (bits - 1 <? 0) eqn:E; [reflexivity | lia].
Qed.

(** [__get_word(off)] never raises: a successful read is padded to two
    values, so [buf[1]] is there.  The result is a 16-bit value, the
    big-endian reading of the two bytes on a present module without I/O
    faults, and 0 when the read fails; the module is unchanged.  With
    [__twos_comp(.., 16)] on top it is a signed 16-bit value. *)
Theorem get_word_big_endian (off : nat) (d : eeprom) :
  let w := fst (__get_word off d) in
  0 <= w < 65536
  /\ - 32768 <= __twos_comp w 16 < 32768
  /\ only_read d (snd (__get_word off d))
  /\ (forall hi lo : byte,
      present d = true -> faults d = [] ->
      contents d !! off = Some hi -> contents d !! S off = Some lo ->
      w = 256 * byte_to_Z hi + byte_to_Z lo).
Proof.
  cbv zeta.
  assert (Hbytes : forall b0 b1, 0 <= b0 < 256 -> 0 <= b1 < 256 ->
            Z.lor (Z.shiftl b0 8) b1 = 256 * b0 + b1).
  { intros b0 b1 H0 H1. rewrite Z.shiftl_mul_pow2 by lia.
    assert (Hl : Z.land (b0 * 2 ^ 8) b1 = 0).
    { apply Z.bits_inj'. intros i Hi. rewrite Z.land_spec, Z.bits_0.
      destruct (Z_lt_le_dec i 8).
      - rewrite Z.mul_pow2_bits_low by lia. reflexivity.
      - destruct (Z.eq_dec b1 0) as [->|]; [rewrite Z.bits_0; apply andb_false_r|].
        assert (Z.log2 b1 < 8) by (apply Z.log2_lt_pow2; lia).
        rewrite (Z.bits_above_log2 b1) by lia. apply andb_false_r. }
    rewrite <- (Z.lxor_lor _ _ Hl), <- (Z.add_nocarry_lxor _ _ Hl).
    change (2 ^ 8) with 256. lia. }
  assert (Hw : 0 <= fst (__get_word off d) < 65536
               /\ only_read d (snd (__get_word off d))
               /\ (forall hi lo : byte,
                   present d = true -> faults d = [] ->
                   contents d !! off = Some hi -> contents d !! S off = Some lo ->
                   fst (__get_word off d) = 256 * byte_to_Z hi + byte_to_Z lo)).
  { unfold __get_word.
    pose proof (read_keeps off 2 d) as Hk.
    destruct (read_eeprom off 2 d) as [[buf|] d1] eqn:E; cbn [fst snd] in *.
    2:{ split; [lia|]. split; [exact Hk|]. intros hi lo Hp Hf.
        rewrite read_eeprom_no_fault in E by assumption. discriminate. }
    pose proof E as E'. apply read_eeprom_Some in E' as (Hbuf & _).
    assert (Hall : Forall (fun v => 0 <= v < 256) buf).
    { rewrite Hbuf. unfold pad_to. apply Forall_app. split.
      - apply List.Forall_forall. intros v Hv. apply in_map_iff in Hv as (b & <- & _).
        apply byte_to_Z_range.
      - apply Forall_forall. intros v Hv.
        apply elem_of_replicate in Hv as [-> _]. lia. }
    destruct buf as [|b0 [|b1 rest]].
    - cbn. split; [lia|]. split; [exact Hk|]. intros hi lo Hp Hf Hhi Hlo.
      rewrite read_eeprom_no_fault in E by assumption.
      rewrite (drop_S _ _ _ Hhi) in E. discriminate.
    - cbn. split; [lia|]. split; [exact Hk|]. intros hi lo Hp Hf Hhi Hlo.
      rewrite read_eeprom_no_fault in E by assumption.
      rewrite (drop_S _ _ _ Hhi), (drop_S _ _ _ Hlo) in E. discriminate.
    - cbn [fst snd].
      apply Forall_cons in Hall as [H0 Hall]. apply Forall_cons in Hall as [H1 _].
      rewrite (Hbytes b0 b1 H0 H1). split; [lia|]. split; [exact Hk|].
      intros hi lo Hp Hf Hhi Hlo.
      rewrite read_eeprom_no_fault in E by assumption.
      rewrite (drop_S _ _ _ Hhi), (drop_S _ _ _ Hlo) in E. cbn in E.
      inversion E. reflexivity. }
  destruct Hw as (Hr & Hk & Hv).
  split; [exact Hr|]. split; [|split; assumption].
  destruct (twos_comp_range (fst (__get_word off d)) 16) as (H16 & _); [lia | exact Hr | exact H16].
Qed.

Lemma lpmode_round_trip_witness :
  exists new : byte,
    fst (set_lpmode true qsfp_handle) = true
    /\ byte_to_Z new = 0x53
    /\ contents (dev (snd (set_lpmode true qsfp_handle)))
       = <[SFF8636_PWR_CTRL_ADDR := new]> (contents (dev qsfp_handle))
    /\ fst (get_lpmode (snd (set_lpmode true qsfp_handle))) = true.
Proof.
  destruct (lpmode_round_trip qsfp_handle true x50 eq_refl eq_refl eq_refl eq_refl
              ltac:(vm_compute; reflexivity)) as (new & H1 & H2 & H3 & H4).
  exists new. split; [exact H1 | split; [exact H3 | split; [exact H2 | exact H4]]].
Defined.

Lemma lpmode_direct_attach_witness :
  fst (set_lpmode false qsfp_dac_handle) = false
  /\ fst (get_lpmode qsfp_dac_handle) = true.
Proof.
  destruct (lpmode_direct_attach qsfp_dac_handle false eq_refl
              ltac:(vm_compute; reflexivity)) as (H1 & H2 & _).
  split; [rewrite H1 | rewrite H2]; reflexivity.
Defined.

Lemma soft_reset_succeeds_witness :
  fst (soft_reset qsfpdd_handle) = Ok true
  /\ contents (dev (snd (soft_reset qsfpdd_handle))) !! CMIS_REG_MOD_CTRL = Some x18.
Proof.
  exact (soft_reset_succeeds qsfpdd_handle x18 x40 eq_refl eq_refl eq_refl eq_refl
           ltac:(vm_compute; auto) eq_refl ltac:(vm_compute; discriminate)
           ltac:(vm_compute; lia)).
Defined.

End ControlFacts.

Module CacheFacts.
Import Hex Channel Identify Sfp Control ChannelFacts ChannelWrites ControlFacts.

Lemma bytes_range_in (b : Z) : 0 <= b < 256 -> In b (map Z.of_nat (seq 0 256)).
Proof.
  intros H. apply in_map_iff. exists (Z.to_nat b). split; [lia|]. apply in_seq. lia.
Qed.

(** [int(.., 16)] undoes ["{0:0{1}x}".format(.., 2)] on a byte. *)
Lemma int16_hex2 (b : Z) : 0 <= b < 256 -> int16 (hex2 b) = Some b.
Proof.
  intros H.
  assert (Hall : forallb (fun v => match int16 (hex2 v) with
                                   | Some v' => v' =? v
                                   | None => false
                                   end) (map Z.of_nat (seq 0 256)) = true)
    by (vm_compute; reflexivity).
  rewrite forallb_forall in Hall. specialize (Hall b (bytes_range_in b H)).
  destruct (int16 (hex2 b)) as [v|]; [|discriminate].
  apply Z.eqb_eq in Hall. congruence.
Qed.

Lemma format_02x_hex2 (b : Z) : 0 <= b < 256 -> format_02x b = hex2 b.
Proof.
  intros H.
  assert (Hall : forallb (fun v => String.eqb (format_02x v) (hex2 v))
                   (map Z.of_nat (seq 0 256)) = true)
    by (vm_compute; reflexivity).
  rewrite forallb_forall in Hall. specialize (Hall b (bytes_range_in b H)).
  apply String.eqb_eq in Hall. exact Hall.
Qed.

Lemma ints_of_hex_map (buf : list Z) :
  Forall (fun v => 0 <= v < 256) buf -> ints_of_hex (map hex2 buf) = Ok buf.
Proof.
  induction 1 as [|v buf Hv _ IH]; [reflexivity|].
  cbn [map ints_of_hex]. unfold int. rewrite (int16_hex2 v Hv).
  cbn [mbind result_bind]. rewrite IH. reflexivity.
Qed.

Lemma read_bytes_range (d d' : eeprom) (offset num_bytes : nat) (buf : list Z) :
  read_eeprom offset num_bytes d = (Some buf, d') ->
  length buf = num_bytes /\ Forall (fun v => 0 <= v < 256) buf.
Proof.
  intros E. apply read_eeprom_Some in E as (-> & _). split.
  - apply pad_to_length. rewrite length_map, length_take. lia.
  - unfold pad_to. apply Forall_app. split.
    + apply List.Forall_forall. intros v Hv. apply in_map_iff in Hv as (b & <- & _).
      apply byte_to_Z_range.
    + apply Forall_forall. intros v Hv. apply elem_of_replicate in Hv as [-> _]. lia.
Qed.

Lemma populate_reads (h : sfp) :
  eeprom_cache h = None ->
  populate_eeprom_cache h
  = {| port := port h;
       eeprom_cache := fst (get_eeprom_raw 0 (cache_size (port h)) (dev h));
       dev := snd (get_eeprom_raw 0 (cache_size (port h)) (dev h)) |}.
Proof.
  intros Hc. unfold populate_eeprom_cache. rewrite Hc.
  change (match port h with
          | PORT_TYPE_QSFP => 256%nat
          | PORT_TYPE_QSFPDD | PORT_TYPE_SFPDD => 384%nat
          | _ => 128%nat
          end) with (cache_size (port h)).
  destruct (get_eeprom_raw 0 (cache_size (port h)) (dev h)). reflexivity.
Qed.

(** The cache round trip.  With an empty cache, [get_eeprom_cache_raw]
    reads the module once, stores the bytes as two-digit hexadecimal strings
    and returns the requested slice of exactly the integers that the read
    returned: parsing undoes the formatting.  [get_eeprom_cache] returns the
    same slice of the strings. *)
Theorem cache_raw_round_trip (h : sfp) (offset length : nat) (buf : list Z) (d' : eeprom) :
  eeprom_cache h = None ->
  read_eeprom 0 (cache_size (port h)) (dev h) = (Some buf, d') ->
  let h' := {| port := port h; eeprom_cache := Some (map hex2 buf); dev := d' |} in
  get_eeprom_cache_raw offset length h = (Ok (Some (cache_slice offset length buf)), h')
  /\ get_eeprom_cache offset length h = (Some (cache_slice offset length (map hex2 buf)), h').
Proof.
  intros Hc Hr. cbv zeta.
  destruct (read_bytes_range _ _ _ _ _ Hr) as [Hlen Hall].
  assert (Hpop : populate_eeprom_cache h
                 = {| port := port h; eeprom_cache := Some (map hex2 buf); dev := d' |}).
  { rewrite (populate_reads h Hc). unfold get_eeprom_raw. rewrite Hr. cbn [fst snd].
    rewrite pad_to_full by (rewrite length_map; lia). reflexivity. }
  unfold get_eeprom_cache_raw, get_eeprom_cache. rewrite Hc, Hpop. cbn [eeprom_cache].
  rewrite (ints_of_hex_map buf Hall). split; reflexivity.
Qed.

Lemma handle_eta (h : sfp) :
  {| port := port h; eeprom_cache := eeprom_cache h; dev := dev h |} = h.
Proof. destruct h. reflexivity. Qed.

(** A module that is not present is never accessed.  Reads return no data,
    writes and [modify_eeprom_byte] return [False], the cache stays empty,
    [get_module_type] raises (the [len] of [None]), which [get_lpmode] and
    [set_lpmode] turn into [True] and [False], and [soft_reset] returns
    [False]: all of it without one I/O attempt, sleep or change of the
    handle. *)
Theorem absent_module_is_not_accessed (h : sfp) (offset num_bytes : nat)
  (write_buffer : list Z) (value mask : Z) (lpmode : bool) :
  present (dev h) = false -> eeprom_cache h = None ->
  read_eeprom offset num_bytes (dev h) = (None, dev h)
  /\ write_eeprom offset num_bytes write_buffer (dev h) = (false, dev h)
  /\ modify_eeprom_byte offset value mask (dev h) = (Ok false, dev h)
  /\ populate_eeprom_cache h = h
  /\ get_eeprom_cache_raw offset num_bytes h = (Ok None, h)
  /\ get_module_type h = (Exn, h)
  /\ (port h <> PORT_TYPE_NONE -> port h <> PORT_TYPE_SFP -> port h <> PORT_TYPE_SFPDD ->
      get_lpmode h = (true, h) /\ set_lpmode lpmode h = (false, h))
  /\ soft_reset h = (Ok false, h).
Proof.
  intros Hp Hc.
  assert (Hread : forall o n, read_eeprom o n (dev h) = (None, dev h)).
  { intros o n. unfold read_eeprom, __read_eeprom. rewrite Hp. reflexivity. }
  assert (Hpop : populate_eeprom_cache h = h).
  { rewrite (populate_reads h Hc). unfold get_eeprom_raw. rewrite Hread. cbn [fst snd].
    rewrite <- Hc. apply handle_eta. }
  assert (Hraw : forall o l, get_eeprom_cache_raw o l h = (Ok None, h)).
  { intros o l. unfold get_eeprom_cache_raw. rewrite Hc, Hpop, Hc. reflexivity. }
  assert (Hmt : get_module_type h = (Exn, h)).
  { unfold get_module_type, hbind. rewrite Hraw. reflexivity. }
  assert (Hmtr : get_module_type_raw h = (Exn, h)).
  { unfold get_module_type_raw, hbind. rewrite Hmt. reflexivity. }
  assert (Hdac : __is_direct_attach_cable h = (Exn, h)).
  { unfold __is_direct_attach_cable, hbind. rewrite Hmtr. reflexivity. }
  split; [apply Hread|].
  split; [unfold write_eeprom, __write_eeprom; rewrite Hp; reflexivity|].
  split; [unfold modify_eeprom_byte; rewrite Hread; reflexivity|].
  split; [exact Hpop|]. split; [apply Hraw|]. split; [exact Hmt|].
  split.
  - intros H1 H2 H3. unfold get_lpmode, set_lpmode, guarded, hbind, is_sff8636.
    destruct (port h); try contradiction.
    + cbn [hret]. rewrite Hdac. split; reflexivity.
    + unfold hbind. rewrite Hmtr. split; reflexivity.
  - unfold soft_reset. destruct (port h); try reflexivity.
    unfold hbind, on_dev.
    change (__read_eeprom CMIS_REG_ID 1 (dev h)) with (read_eeprom CMIS_REG_ID 1 (dev h)).
    rewrite Hread. cbn. unfold with_dev. rewrite <- (handle_eta h) at 4. reflexivity.
Qed.

Lemma cache_raw_round_trip_witness :
  fst (get_eeprom_cache_raw 93 1 qsfp_handle) = Ok (Some [0x50])
  /\ fst (get_eeprom_cache 93 1 qsfp_handle) = Some ["50"%string].
Proof.
  destruct (cache_raw_round_trip qsfp_handle 93 1
              (default [] (fst (read_eeprom 0 256 (dev qsfp_handle))))
              (snd (read_eeprom 0 256 (dev qsfp_handle)))
              eq_refl ltac:(vm_compute; reflexivity)) as [H1 H2].
  split; [rewrite H1 | rewrite H2]; vm_compute; reflexivity.
Defined.

Lemma absent_module_is_not_accessed_witness :
  read_eeprom 0 1 (dev empty_port_handle) = (None, dev empty_port_handle)
  /\ get_module_type empty_port_handle = (Exn, empty_port_handle)
  /\ get_lpmode empty_port_handle = (true, empty_port_handle)
  /\ soft_reset empty_port_handle = (Ok false, empty_port_handle).
Proof.
  destruct (absent_module_is_not_accessed empty_port_handle 0 1 [] 0 0xff true
              eq_refl eq_refl) as (H1 & _ & _ & _ & _ & H6 & H7 & H8).
  split; [exact H1 | split; [exact H6 | split; [|exact H8]]].
  apply H7; discriminate.
Defined.

End CacheFacts.

Module FormFactorFacts.
Import Identify FormFactor.

Section Readers.
Context {E : Type}.
Variable read_eeprom_byte : E -> Z -> Z.
Variable get_cmis_version : E -> Z.

Lemma if_bool (b : bool) : (if b then true else false) = b.
Proof. destruct b; reflexivity. Qed.

Lemma if_negb (b : bool) (x : bool) : (if negb b then false else x) = b && x.
Proof. destruct b; reflexivity. Qed.

Lemma tuple3_lists_disjoint (t : Z * Z * Z) :
  existsb (tuple3_eqb t) qsfp_dd_eeprom_identifiers
  && existsb (tuple3_eqb t) qsfp28_dd_eeprom_identifiers = false.
Proof.
  destruct t as [[a b] c].
  unfold qsfp_dd_eeprom_identifiers, qsfp28_dd_eeprom_identifiers, tuple3_eqb.
  cbn [existsb].
  repeat match goal with
         | |- context [?x =? ?y] => destruct (Z.eqb_spec x y); subst; cbn; try reflexivity;
                                    try lia
         end.
Qed.

Lemma existsb_int_in (x : Z) (l : list Z) : int_in x l = true -> In x l.
Proof.
  unfold int_in. intros H. apply existsb_exists in H as (y & Hy & Heq).
  apply Z.eqb_eq in Heq. subst. exact Hy.
Qed.

(** What each test says about the identifier byte. *)
Lemma is_sfp_id (e : E) :
  is_sfp read_eeprom_byte e = true ->
  read_eeprom_byte e 0 = 3 /\ 0 <= read_eeprom_byte e 12 < 22.
Proof.
  unfold is_sfp, in_range. rewrite if_bool, !andb_true_iff, Z.eqb_eq, Z.leb_le, Z.ltb_lt. tauto.
Qed.

Lemma is_sfp_plus_id (e : E) :
  is_sfp_plus read_eeprom_byte e = true ->
  read_eeprom_byte e 0 = 3 /\ 22 <= read_eeprom_byte e 12 < 141.
Proof.
  unfold is_sfp_plus, in_range.
  rewrite if_bool, !andb_true_iff, Z.eqb_eq, Z.leb_le, Z.ltb_lt. tauto.
Qed.

Lemma is_sfp28_id (e : E) :
  is_sfp28 read_eeprom_byte e = true ->
  read_eeprom_byte e 0 = 3 /\ read_eeprom_byte e 12 = 255.
Proof.
  unfold is_sfp28. cbv zeta. rewrite if_bool, !andb_true_iff, !Z.eqb_eq. tauto.
Qed.

Lemma is_sfp56_dd_id (e : E) :
  is_sfp56_dd read_eeprom_byte e = true -> read_eeprom_byte e 0 = 26.
Proof.
  unfold is_sfp56_dd. rewrite if_negb, andb_true_r, Z.eqb_eq. tauto.
Qed.

Lemma is_qsfp_plus_id (e : E) :
  is_qsfp_plus read_eeprom_byte e = true ->
  read_eeprom_byte e 0 = 12 \/ read_eeprom_byte e 0 = 13.
Proof.
  unfold is_qsfp_plus. rewrite if_negb, andb_true_r. intros H.
  apply existsb_int_in in H. cbn in H. intuition lia.
Qed.

Lemma is_qsfp56_depop_id (e : E) :
  is_qsfp56_depop read_eeprom_byte e = true -> read_eeprom_byte e 0 = 17.
Proof.
  unfold is_qsfp56_depop. cbv zeta. rewrite if_bool, andb_true_iff, Z.eqb_eq. tauto.
Qed.

Lemma is_qsfp28_id (e : E) :
  is_qsfp28 read_eeprom_byte e = true ->
  read_eeprom_byte e 0 = 17 /\ is_qsfp56_depop read_eeprom_byte e = false.
Proof.
  unfold is_qsfp28. destruct (is_qsfp56_depop read_eeprom_byte e); [discriminate|].
  rewrite if_negb, andb_true_r, Z.eqb_eq. tauto.
Qed.

Lemma is_qsfp_dd_id (e : E) :
  is_qsfp_dd read_eeprom_byte get_cmis_version e = true ->
  read_eeprom_byte e 0 = 24
  /\ 0x30 <= get_cmis_version e
  /\ existsb (tuple3_eqb (read_eeprom_byte e 86, read_eeprom_byte e 88,
                          read_eeprom_byte e 89)) qsfp_dd_eeprom_identifiers = true.
Proof.
  unfold is_qsfp_dd. cbv zeta.
  rewrite if_negb, if_bool, !andb_true_iff, Z.eqb_eq, Z.leb_le. tauto.
Qed.

Lemma is_qsfp28_dd_id (e : E) :
  is_qsfp28_dd read_eeprom_byte get_cmis_version e = true ->
  read_eeprom_byte e 0 = 24
  /\ 0x30 <= get_cmis_version e
  /\ existsb (tuple3_eqb (read_eeprom_byte e 86, read_eeprom_byte e 88,
                          read_eeprom_byte e 89)) qsfp28_dd_eeprom_identifiers = true.
Proof.
  unfold is_qsfp28_dd. cbv zeta.
  rewrite if_negb, if_bool, !andb_true_iff, Z.eqb_eq, Z.leb_le. tauto.
Qed.

Lemma is_qsfp56_dd_id (e : E) :
  is_qsfp56_dd read_eeprom_byte get_cmis_version e = true ->
  read_eeprom_byte e 0 = 24
  /\ is_qsfp28_dd read_eeprom_byte get_cmis_version e = false.
Proof.
  unfold is_qsfp56_dd. rewrite if_negb, andb_true_iff, Z.eqb_eq, negb_true_iff. tauto.
Qed.

Lemma is_qsfp56_id (e : E) :
  is_qsfp56 read_eeprom_byte get_cmis_version e = true -> read_eeprom_byte e 0 = 30.
Proof.
  unfold is_qsfp56.
  destruct (Z.eqb_spec (read_eeprom_byte e 0) 30) as [H|H]; [auto|]. cbn. discriminate.
Qed.

(** [is_qsfp_dd] and [is_qsfp28_dd] exclude each other, and [is_qsfp_dd]
    implies [is_qsfp56_dd]. *)
Lemma is_qsfp_dd_overlap (e : E) :
  is_qsfp_dd read_eeprom_byte get_cmis_version e = true ->
  is_qsfp28_dd read_eeprom_byte get_cmis_version e = false
  /\ is_qsfp56_dd read_eeprom_byte get_cmis_version e = true.
Proof.
  intros H. pose proof H as H'. apply is_qsfp_dd_id in H' as (Hid & Hv & Hdd).
  assert (H28 : is_qsfp28_dd read_eeprom_byte get_cmis_version e = false).
  { destruct (is_qsfp28_dd read_eeprom_byte get_cmis_version e) eqn:Heq28; [|reflexivity].
    apply is_qsfp28_dd_id in Heq28 as (_ & _ & H28).
    pose proof (tuple3_lists_disjoint (read_eeprom_byte e 86, read_eeprom_byte e 88,
                                       read_eeprom_byte e 89)) as Hd.
    rewrite Hdd, H28 in Hd. discriminate. }
  split; [exact H28|].
  unfold is_qsfp56_dd. rewrite H28, Hid. reflexivity.
Qed.

Ltac drop_test H :=
  match type of H with
  | ?b = true -> _ =>
      destruct b; [exfalso; specialize (H eq_refl); intuition (try lia; try discriminate)|];
      clear H
  end.

(** The tests of the table are pairwise exclusive, with one exception: a
    module that [is_qsfp_dd] accepts is accepted by [is_qsfp56_dd] too.  So
    at most one test accepts an EEPROM, or the two named ones do. *)
Theorem form_factor_tests_exclusive (eeprom : E) :
  (length (accepted read_eeprom_byte get_cmis_version eeprom) <= 1)%nat
  \/ accepted read_eeprom_byte get_cmis_version eeprom = ["QSFP-DD"; "QSFP56-DD"]%string.
Proof.
  unfold accepted, form_factor_handler_to_ff_info.
  cbv beta iota delta [List.filter fst snd].
  pose proof (is_sfp_id eeprom) as H1.
  pose proof (is_sfp_plus_id eeprom) as H2.
  pose proof (is_sfp28_id eeprom) as H3.
  pose proof (is_sfp56_dd_id eeprom) as H4.
  pose proof (is_qsfp_plus_id eeprom) as H5.
  pose proof (is_qsfp28_id eeprom) as H6.
  pose proof (is_qsfp_dd_id eeprom) as H7.
  pose proof (is_qsfp_dd_overlap eeprom) as H7'.
  pose proof (is_qsfp28_dd_id eeprom) as H8.
  pose proof (is_qsfp56_id eeprom) as H9.
  pose proof (is_qsfp56_dd_id eeprom) as H10.
  pose proof (is_qsfp56_depop_id eeprom) as H11.
  set (id := read_eeprom_byte eeprom 0) in *.
  clearbody id.
  destruct (is_sfp read_eeprom_byte eeprom).
  { destruct (H1 eq_refl) as [Hid Hr]. clear H1.
    drop_test H2. drop_test H3. drop_test H4. drop_test H5. drop_test H6.
    destruct (is_qsfp_dd _ _ eeprom); [exfalso; specialize (H7 eq_refl); intuition lia|].
    drop_test H8. drop_test H9. drop_test H10. drop_test H11.
    left. cbn. lia. }
  clear H1.
  destruct (is_sfp_plus read_eeprom_byte eeprom).
  { destruct (H2 eq_refl) as [Hid Hr]. clear H2.
    drop_test H3. drop_test H4. drop_test H5. drop_test H6.
    destruct (is_qsfp_dd _ _ eeprom); [exfalso; specialize (H7 eq_refl); intuition lia|].
    drop_test H8. drop_test H9. drop_test H10. drop_test H11.
    left. cbn. lia. }
  clear H2.
  destruct (is_sfp28 read_eeprom_byte eeprom).
  { destruct (H3 eq_refl) as [Hid Hr]. clear H3.
    drop_test H4. drop_test H5. drop_test H6.
    destruct (is_qsfp_dd _ _ eeprom); [exfalso; specialize (H7 eq_refl); intuition lia|].
    drop_test H8. drop_test H9. drop_test H10. drop_test H11.
    left. cbn. lia. }
  clear H3.
  destruct (is_sfp56_dd read_eeprom_byte eeprom).
  { specialize (H4 eq_refl).
    drop_test H5. drop_test H6.
    destruct (is_qsfp_dd _ _ eeprom); [exfalso; specialize (H7 eq_refl); intuition lia|].
    drop_test H8. drop_test H9. drop_test H10. drop_test H11.
    left. cbn. lia. }
  clear H4.
  destruct (is_qsfp_plus read_eeprom_byte eeprom).
  { specialize (H5 eq_refl).
    drop_test H6.
    destruct (is_qsfp_dd _ _ eeprom); [exfalso; specialize (H7 eq_refl); intuition lia|].
    drop_test H8. drop_test H9. drop_test H10. drop_test H11.
    left. cbn. lia. }
  clear H5.
  destruct (is_qsfp28 read_eeprom_byte eeprom).
  { destruct (H6 eq_refl) as [Hid Hd]. clear H6.
    destruct (is_qsfp_dd _ _ eeprom); [exfalso; specialize (H7 eq_refl); intuition lia|].
    drop_test H8. drop_test H9. drop_test H10. rewrite Hd.
    left. cbn. lia. }
  clear H6.
  destruct (is_qsfp_dd read_eeprom_byte get_cmis_version eeprom).
  { destruct (H7' eq_refl) as [H28 H56]. destruct (H7 eq_refl) as [Hid _].
    rewrite H28, H56. drop_test H9. drop_test H11.
    right. reflexivity. }
  clear H7 H7'.
  destruct (is_qsfp28_dd read_eeprom_byte get_cmis_version eeprom).
  { destruct (H8 eq_refl) as [Hid _]. drop_test H9. drop_test H10. drop_test H11.
    left. cbn. lia. }
  clear H8.
  destruct (is_qsfp56 read_eeprom_byte get_cmis_version eeprom).
  { specialize (H9 eq_refl). drop_test H10. drop_test H11. left. cbn. lia. }
  clear H9.
  destruct (is_qsfp56_dd read_eeprom_byte get_cmis_version eeprom).
  { destruct (H10 eq_refl) as [Hid _]. drop_test H11. left. cbn. lia. }
  destruct (is_qsfp56_depop read_eeprom_byte eeprom); left; cbn; lia.
Qed.

Ltac found H idlemma :=
  intros H; inversion H; subst; clear H;
  match goal with Ht : _ = true |- _ => apply idlemma in Ht end.

(** The form factor that [get_form_factor_info] returns goes with the
    identifier byte: 0x03 for the SFP family, 0x1A for SFP56-DD, 0x0C and
    0x0D for QSFP+, 0x11 for QSFP28 and its depopulated variant, 0x18 for
    the three double-density QSFP kinds, 0x1E for QSFP56. *)
Theorem form_factor_by_identifier (eeprom : E) (name : string) (driver : handler) :
  get_form_factor_info read_eeprom_byte get_cmis_version eeprom = Some (name, driver) ->
  let id := read_eeprom_byte eeprom 0 in
  (id = 0x03 /\ In name ["SFP"; "SFP+"; "SFP28"]%string)
  \/ (id = 0x1A /\ name = "SFP56-DD"%string)
  \/ ((id = 0x0C \/ id = 0x0D) /\ name = "QSFP+"%string)
  \/ (id = 0x11 /\ In name ["QSFP28"; "QSFP56-DEPOP"]%string)
  \/ (id = 0x18 /\ In name ["QSFP-DD"; "QSFP28-DD"; "QSFP56-DD"]%string)
  \/ (id = 0x1E /\ name = "QSFP56"%string).
Proof.
  unfold get_form_factor_info, form_factor_handler_to_ff_info.
  cbv beta iota delta [first_match]. cbv zeta.
  destruct (is_sfp read_eeprom_byte eeprom) eqn:T1;
    [found H is_sfp_id; left; cbn; tauto|].
  destruct (is_sfp_plus read_eeprom_byte eeprom) eqn:T2;
    [found H is_sfp_plus_id; left; cbn; tauto|].
  destruct (is_sfp28 read_eeprom_byte eeprom) eqn:T3;
    [found H is_sfp28_id; left; cbn; tauto|].
  destruct (is_sfp56_dd read_eeprom_byte eeprom) eqn:T4;
    [found H is_sfp56_dd_id; right; left; cbn; tauto|].
  destruct (is_qsfp_plus read_eeprom_byte eeprom) eqn:T5;
    [found H is_qsfp_plus_id; right; right; left; cbn; tauto|].
  destruct (is_qsfp28 read_eeprom_byte eeprom) eqn:T6;
    [found H is_qsfp28_id; right; right; right; left; cbn; tauto|].
  destruct (is_qsfp_dd read_eeprom_byte get_cmis_version eeprom) eqn:T7;
    [found H is_qsfp_dd_id; right; right; right; right; left; cbn; tauto|].
  destruct (is_qsfp28_dd read_eeprom_byte get_cmis_version eeprom) eqn:T8;
    [found H is_qsfp28_dd_id; right; right; right; right; left; cbn; tauto|].
  destruct (is_qsfp56 read_eeprom_byte get_cmis_version eeprom) eqn:T9;
    [found H is_qsfp56_id; right; right; right; right; right; cbn; tauto|].
  destruct (is_qsfp56_dd read_eeprom_byte get_cmis_version eeprom) eqn:T10;
    [found H is_qsfp56_dd_id; right; right; right; right; left; cbn; tauto|].
  destruct (is_qsfp56_depop read_eeprom_byte eeprom) eqn:T11;
    [found H is_qsfp56_depop_id; right; right; right; left; cbn; tauto|].
  discriminate.
Qed.

(** Which identifiers always find a form factor, and which never: the
    identifiers 0x0C, 0x0D, 0x11, 0x18 and 0x1A are always classified; an
    identifier outside 0x03, 0x0C, 0x0D, 0x11, 0x18, 0x1A and 0x1E never is.
    A module that both [is_qsfp_dd] and [is_qsfp56_dd] accept is a QSFP-DD:
    the table lists that test first. *)
Theorem form_factor_found (eeprom : E) :
  let id := read_eeprom_byte eeprom 0 in
  let info := get_form_factor_info read_eeprom_byte get_cmis_version eeprom in
  (In id [0x0C; 0x0D; 0x11; 0x18; 0x1A] -> exists found, info = Some found)
  /\ (~ In id [0x03; 0x0C; 0x0D; 0x11; 0x18; 0x1A; 0x1E] -> info = None)
  /\ (is_qsfp_dd read_eeprom_byte get_cmis_version eeprom = true ->
      info = Some ("QSFP-DD"%string, ext_media_handler_qsfp_dd)).
Proof.
  cbv zeta.
  pose proof (is_sfp_id eeprom) as H1.
  pose proof (is_sfp_plus_id eeprom) as H2.
  pose proof (is_sfp28_id eeprom) as H3.
  pose proof (is_sfp56_dd_id eeprom) as H4.
  pose proof (is_qsfp_plus_id eeprom) as H5.
  pose proof (is_qsfp28_id eeprom) as H6.
  pose proof (is_qsfp_dd_id eeprom) as H7.
  pose proof (is_qsfp28_dd_id eeprom) as H8.
  pose proof (is_qsfp56_id eeprom) as H9.
  pose proof (is_qsfp56_dd_id eeprom) as H10.
  pose proof (is_qsfp56_depop_id eeprom) as H11.
  split; [|split].
  - intros Hin. cbn [In] in Hin.
    unfold get_form_factor_info, form_factor_handler_to_ff_info.
    cbv beta iota delta [first_match].
    destruct (is_sfp read_eeprom_byte eeprom); [eauto|].
    destruct (is_sfp_plus read_eeprom_byte eeprom); [eauto|].
    destruct (is_sfp28 read_eeprom_byte eeprom); [eauto|].
    unfold is_sfp56_dd, is_qsfp_plus, is_qsfp28, is_qsfp56_dd, int_in. cbn [existsb].
    destruct Hin as [Hid|[Hid|[Hid|[Hid|[Hid|[]]]]]]; rewrite <- Hid; cbn [Z.eqb negb orb].
    + eauto.
    + eauto.
    + destruct (is_qsfp56_depop read_eeprom_byte eeprom) eqn:Hd; [|eauto].
      apply is_qsfp56_depop_id in Hd as Hd'.
      destruct (is_qsfp_dd _ _ eeprom); [eauto|].
      destruct (is_qsfp28_dd _ _ eeprom) eqn:H28; [eauto|].
      destruct (is_qsfp56 _ _ eeprom); eauto.
    + unfold is_qsfp56_depop. rewrite <- Hid. cbn [Z.eqb andb].
      destruct (is_qsfp_dd _ _ eeprom); [eauto|].
      destruct (is_qsfp28_dd _ _ eeprom) eqn:H28; [eauto|].
      destruct (is_qsfp56 _ _ eeprom); [eauto|]. cbn. eauto.
    + eauto.
  - intros Hout. cbn [In] in Hout.
    unfold get_form_factor_info, form_factor_handler_to_ff_info.
    cbv beta iota delta [first_match].
    destruct (is_sfp read_eeprom_byte eeprom); [exfalso; intuition lia|].
    destruct (is_sfp_plus read_eeprom_byte eeprom); [exfalso; intuition lia|].
    destruct (is_sfp28 read_eeprom_byte eeprom); [exfalso; intuition lia|].
    destruct (is_sfp56_dd read_eeprom_byte eeprom); [exfalso; intuition lia|].
    destruct (is_qsfp_plus read_eeprom_byte eeprom); [exfalso; intuition lia|].
    destruct (is_qsfp28 read_eeprom_byte eeprom); [exfalso; intuition lia|].
    destruct (is_qsfp_dd _ _ eeprom); [exfalso; intuition lia|].
    destruct (is_qsfp28_dd _ _ eeprom); [exfalso; intuition lia|].
    destruct (is_qsfp56 _ _ eeprom); [exfalso; intuition lia|].
    destruct (is_qsfp56_dd _ _ eeprom); [exfalso; intuition lia|].
    destruct (is_qsfp56_depop read_eeprom_byte eeprom); [exfalso; intuition lia|].
    reflexivity.
  - intros Hdd. destruct (H7 Hdd) as (Hid & _).
    unfold get_form_factor_info, form_factor_handler_to_ff_info.
    cbv beta iota delta [first_match].
    destruct (is_sfp read_eeprom_byte eeprom); [exfalso; intuition lia|].
    destruct (is_sfp_plus read_eeprom_byte eeprom); [exfalso; intuition lia|].
    destruct (is_sfp28 read_eeprom_byte eeprom); [exfalso; intuition lia|].
    destruct (is_sfp56_dd read_eeprom_byte eeprom); [exfalso; intuition lia|].
    destruct (is_qsfp_plus read_eeprom_byte eeprom); [exfalso; intuition lia|].
    destruct (is_qsfp28 read_eeprom_byte eeprom); [exfalso; intuition lia|].
    rewrite Hdd. reflexivity.
Qed.

End Readers.

Lemma form_factor_by_identifier_witness :
  get_form_factor_info image_byte image_version (image [(0%nat, 0x11)])
  = Some ("QSFP28"%string, ext_media_handler_qsfp28)
  /\ image_byte (image [(0%nat, 0x11)]) 0 = 0x11.
Proof.
  split; [vm_compute; reflexivity|].
  destruct (form_factor_by_identifier image_byte image_version
              (image [(0%nat, 0x11)]) "QSFP28" ext_media_handler_qsfp28
              ltac:(vm_compute; reflexivity))
    as [[H _]|[[H _]|[[_ H]|[[H _]|[[_ H]|[_ H]]]]]];
    first [exact H | vm_compute in H; simpl in H; discriminate
          | vm_compute in H; simpl in H; intuition discriminate].
Defined.

End FormFactorFacts.

Module MediaApiFacts.
Import Identify Cmis CmisFacts MediaApi.
Open Scope cmis_scope.

(** ** The flat address space *)

Lemma land_127 (o : Z) : 128 <= o < 256 -> Z.land o 0x7f = o - 128.
Proof.
  intros H. change 0x7f with (Z.ones 7). rewrite Z.land_ones by lia.
  change (2 ^ 7) with 128.
  symmetry. apply Z.mod_unique with (q := 1); lia.
Qed.

(** [_page_to_flat_offset] lays the pages out one after the other: the
    lower memory and page 0 keep their offsets, page [p >= 1] starts at
    [(p + 1) * 128], the [CMIS_PAGE_ADDR] of sfp_standard.py; an offset below
    128 ignores the page.  Two different addresses of the memory map never
    share a flat offset. *)
Theorem page_to_flat_offset_layout (a b : media_eeprom_address) :
  (page a <= 0 \/ offset a <= 127 -> _page_to_flat_offset a = offset a)
  /\ (0 < page a -> 128 <= offset a < 256 ->
      _page_to_flat_offset a = CMIS_PAGE_ADDR (page a) + (offset a - 128))
  /\ (canonical a -> canonical b ->
      _page_to_flat_offset a = _page_to_flat_offset b -> a = b).
Proof.
  assert (Hlow : forall x, page x <= 0 \/ offset x <= 127 ->
                   _page_to_flat_offset x = offset x).
  { intros x H. unfold _page_to_flat_offset.
    destruct (page x >? 0) eqn:E1; [|reflexivity].
    destruct (offset x >? 127) eqn:E2; [|reflexivity]. lia. }
  assert (Hhigh : forall x, 0 < page x -> 128 <= offset x < 256 ->
                    _page_to_flat_offset x = (page x + 1) * 128 + (offset x - 128)).
  { intros x Hp Ho. unfold _page_to_flat_offset.
    destruct (page x >? 0) eqn:E1; [|lia].
    destruct (offset x >? 127) eqn:E2; [|lia]. cbn [andb].
    rewrite land_127 by lia. reflexivity. }
  split; [apply Hlow|]. split.
  - intros Hp Ho. rewrite (Hhigh a Hp Ho). unfold CMIS_PAGE_ADDR.
    rewrite Z.shiftl_mul_pow2 by lia. reflexivity.
  - intros (Hoa & Hpa & Hla) (Hob & Hpb & Hlb) Heq.
    assert (Hcases : forall x, 0 <= offset x < 256 -> 0 <= page x ->
              (offset x < 128 -> page x = 0) ->
              (page x = 0 /\ _page_to_flat_offset x = offset x)
              \/ (0 < page x /\ 128 <= offset x
                  /\ _page_to_flat_offset x = (page x + 1) * 128 + (offset x - 128))).
    { intros x Ho Hp Hl. destruct (Z.eq_dec (page x) 0) as [H0|H0].
      - left. split; [exact H0|]. apply Hlow. lia.
      - right. assert (128 <= offset x) by lia. repeat split; try lia.
        apply Hhigh; lia. }
    destruct a as [pa oa], b as [pb ob]. cbn [page offset] in *.
    destruct (Hcases {| page := pa; offset := oa |}) as [[Ha Hfa]|(Ha & Ha' & Hfa)];
      cbn [page offset]; auto;
    destruct (Hcases {| page := pb; offset := ob |}) as [[Hb Hfb]|(Hb & Hb' & Hfb)];
      cbn [page offset]; auto;
    rewrite Hfa, Hfb in Heq; cbn [page offset] in *.
    + f_equal; lia.
    + exfalso. nia.
    + exfalso. nia.
    + assert (pa = pb) by nia. subst pb. f_equal. lia.
Qed.

(** ** [get_max_port_power] *)

(** With a platform that has no [get_max_port_power] of its own, the port
    defaults are 4.0 W for QSFP and QSFP+, 4.5 W for QSFP28 and 8.0 W for
    QSFP28-DD and QSFP56; every other form factor, QSFP56-DD among them,
    gets [DEFAULT_NO_DATA_VALUE]: the two last branches of the source (10.0
    and 2.5) are behind a name that is not bound, and are never reached. *)
Theorem max_port_power_defaults {P : Type} (sfp_obj : port_object P) (port_ff : string) :
  get_max_port_power_method sfp_obj = Exn ->
  get_port_form_factor sfp_obj = Ok port_ff ->
  get_max_port_power sfp_obj
  = (if str_in port_ff ["QSFP"; "QSFP+"]%string then Watts 4.0%Q
     else if str_in port_ff ["QSFP28"]%string then Watts 4.5%Q
     else if str_in port_ff ["QSFP28-DD"; "QSFP56"]%string then Watts 8.0%Q
     else DEFAULT_NO_DATA_VALUE)
  /\ get_max_port_power sfp_obj <> Watts 10.0%Q
  /\ get_max_port_power sfp_obj <> Watts 2.5%Q.
Proof.
  intros Hm Hf. unfold get_max_port_power, port_defaults, port. rewrite Hm, Hf.
  cbn [mbind result_bind str_in existsb].
  destruct (port_ff =? "QSFP")%string, (port_ff =? "QSFP+")%string,
    (port_ff =? "QSFP28")%string, (port_ff =? "QSFP28-DD")%string,
    (port_ff =? "QSFP56")%string; cbn; repeat split; discriminate.
Qed.

(** ** Which registers the bring-up writes *)



Section Written.
Variable self : session.
Variables application L : Z.






End Written.



(** ** How often the module is reset *)

Lemma within_ret {A} (a : A) : resets_within 0 (ret a).
Proof. intros s. cbn. lia. Qed.

Lemma within_raise {A} : resets_within 0 (@raise A).
Proof. intros s. cbn. lia. Qed.

Lemma within_weaken {A} (k k' : nat) (m : M A) :
  (k <= k')%nat -> resets_within k m -> resets_within k' m.
Proof. intros Hk H s. specialize (H s). lia. Qed.

Lemma within_bind {A B} (k1 k2 : nat) (m : M A) (f : A -> M B) :
  resets_within k1 m -> (forall a, resets_within k2 (f a)) ->
  resets_within (k1 + k2) (bind m f).
Proof.
  intros Hm Hf s. unfold bind. specialize (Hm s).
  destruct (m s) as [[a|] s1]; cbn [snd] in *; [|lia].
  specialize (Hf a s1). lia.
Qed.

Lemma within_bind0 {A B} (k : nat) (m : M A) (f : A -> M B) :
  resets_within 0 m -> (forall a, resets_within k (f a)) ->
  resets_within k (bind m f).
Proof. intros Hm Hf. apply (within_bind 0 k); assumption. Qed.

Lemma within_act (a : action) : resets_within 0 (act a).
Proof. intros s. cbn. lia. Qed.

Lemma within_idx (buf : option (list Z)) (i : nat) : resets_within 0 (idx buf i).
Proof.
  unfold idx. destruct buf as [l|]; [destruct (l !! i)|];
    auto using within_ret, within_raise.
Qed.

Section Within.
Variable self : session.

Lemma within_read_bytes (a : media_eeprom_address) (n : Z) :
  resets_within 0 (read_bytes self a n).
Proof. intros s. cbn. lia. Qed.

Lemma within_get_lpmode : resets_within 0 (get_lpmode self).
Proof.
  unfold get_lpmode. destruct (lpmode_ctl self); [|apply within_ret].
  intros s. cbn. lia.
Qed.

Lemma within_set_lpmode (b : bool) : resets_within 0 (set_lpmode self b).
Proof.
  unfold set_lpmode. destruct (lpmode_ctl self); [apply within_act | apply within_ret].
Qed.

Lemma within_get_intl_state : resets_within 0 (get_intl_state self).
Proof.
  unfold get_intl_state. destruct (intl_ctl self); [|apply within_ret].
  intros s. cbn. lia.
Qed.

Lemma within_reset : resets_within 1 (reset self).
Proof.
  intros s. unfold reset. destruct (on_reset self (resets s)); cbn; lia.
Qed.

End Within.

Ltac within_step :=
  lazymatch goal with
  | |- resets_within _ (ret _) => apply within_ret
  | |- resets_within _ raise => apply within_raise
  | |- resets_within _ (bind _ _) => apply within_bind0; [|intro]
  | |- resets_within _ (sleep _) => apply within_act
  | |- resets_within _ (act _) => apply within_act
  | |- resets_within _ (write_bytes _ _) => apply within_act
  | |- resets_within _ (read_bytes _ _ _) => apply within_read_bytes
  | |- resets_within _ (idx _ _) => apply within_idx
  | |- resets_within _ (get_lpmode _) => apply within_get_lpmode
  | |- resets_within _ (set_lpmode _ _) => apply within_set_lpmode
  | |- resets_within _ (get_intl_state _) => apply within_get_intl_state
  | |- resets_within _ (if ?b then _ else _) => destruct b
  | |- resets_within _ (match ?x with _ => _ end) => destruct x
  end.

Ltac unfold_regs' :=
  unfold set_tx_disable, set_datapath_init, set_high_power,
    get_mod_fault, get_datapath_timeout, get_general_faults, get_module_flags,
    get_datapath_activated_states, get_config_errors, determine_init_type,
    check_power_compat, word32, test_dp_actv.

Section WithinLoops.
Variable self : session.

Lemma within_deinit_wait (n : nat) : resets_within 0 (deinit_wait self n).
Proof.
  induction n as [|n IH]; cbn [deinit_wait]; unfold_regs';
    repeat (first [exact IH | within_step]).
Qed.

Lemma within_config_poll (n : nat) (lpp : Z) (err : option Z) :
  resets_within 0 (config_poll self n lpp err).
Proof.
  revert err. induction n as [|n IH]; intros err; cbn [config_poll]; unfold_regs';
    repeat (first [apply IH | within_step]).
Qed.

Lemma within_datapath_poll (n : nat) (lpp : Z) (err : option Z) :
  resets_within 0 (datapath_poll self n lpp err).
Proof.
  revert err. induction n as [|n IH]; intros err; cbn [datapath_poll]; unfold_regs';
    repeat (first [apply IH | within_step]).
Qed.

Lemma within_wait_intl (n : nat) : resets_within 0 (wait_intl self n).
Proof.
  induction n as [|n IH]; cbn [wait_intl]; repeat (first [exact IH | within_step]).
Qed.

Lemma within_wait_dp_actv (n : nat) (dp : option (list Z)) :
  resets_within 0 (wait_dp_actv self n dp).
Proof.
  revert dp. induction n as [|n IH]; intros dp; cbn [wait_dp_actv]; unfold_regs';
    repeat (first [apply IH | within_step]).
Qed.

Lemma within_flag_passes (n : nat) (e : bool) : resets_within 0 (flag_passes self n e).
Proof.
  revert e. induction n as [|n IH]; intros e; cbn [flag_passes]; unfold_regs';
    repeat (first [apply IH | within_step]).
Qed.

Lemma within_cmis4_attempts (n : nat) (application lpp : Z) (err : option Z) :
  resets_within n (cmis4_attempts self n application lpp err).
Proof.
  revert err. induction n as [|n IH]; intros err; cbn [cmis4_attempts].
  - apply within_ret.
  - change (S n) with (1 + n)%nat.
    apply within_bind; [apply within_reset|]. intros _. unfold_regs'.
    repeat (first [ apply IH
                  | apply within_deinit_wait
                  | apply within_config_poll
                  | apply within_datapath_poll
                  | within_step
                  | apply (within_weaken 0 n); [lia|] ]).
Qed.

Lemma within_initialize_cmis4 (application lpp retries : Z) :
  resets_within (Z.to_nat (2 * retries + 1))
    (initialize_cmis4 self application lpp retries).
Proof.
  unfold initialize_cmis4.
  repeat (apply within_bind0;
          [first [apply within_read_bytes | apply within_idx]|]; intro).
  destruct (_ && _).
  - apply (within_weaken 0); [lia | apply within_ret].
  - apply (within_weaken (Z.to_nat (retries * 2 + 1) + 0)); [lia|].
    apply within_bind; [apply within_cmis4_attempts|]. intros ready.
    unfold set_tx_disable. repeat within_step.
Qed.

Lemma within_cmis3_sequence (application lpp retries init_type : Z) :
  resets_within 0 (cmis3_sequence self application lpp retries init_type).
Proof.
  unfold cmis3_sequence. unfold_regs'.
  repeat (first [ apply within_deinit_wait
                | apply within_wait_intl
                | apply within_wait_dp_actv
                | apply within_flag_passes
                | within_step ]).
Qed.

Lemma within_cmis3_attempt (application lpp retries init_type : Z) (force : bool) :
  resets_within (if retries <? 0 then 0 else 1)
    (cmis3_attempt self application lpp retries init_type force).
Proof.
  unfold cmis3_attempt. destruct (retries <? 0); [apply within_ret|].
  repeat (apply within_bind0;
          [first [apply within_read_bytes | apply within_idx]|]; intro).
  destruct (_ && _); [apply (within_weaken 0); [lia | apply within_ret]|].
  destruct force.
  - change 1%nat with (1 + 0)%nat. apply within_bind; [apply within_reset|]. intros _.
    repeat (first [ apply within_cmis3_sequence | within_step ]).
  - apply (within_weaken 0); [lia|]. unfold check_power_compat.
    repeat (first [ apply within_cmis3_sequence | within_step ]).
Qed.

Lemma within_cmis3_run (depth : nat) (application : Z) (force : bool) :
  forall lpp retries init_type,
  resets_within (Z.to_nat (retries + 1))
    (cmis3_run self depth application lpp retries init_type force).
Proof.
  induction depth as [|depth IH]; intros lpp retries init_type; cbn [cmis3_run].
  - apply (within_weaken 0); [lia | apply within_raise].
  - intros s. unfold bind.
    pose proof (within_cmis3_attempt application lpp retries init_type force s) as H1.
    pose proof (cmis3_attempt_again self application lpp retries init_type force s) as H2.
    destruct (cmis3_attempt self application lpp retries init_type force s)
      as [[[r|retries' init_type']|] s1]; cbn [snd] in *.
    + unfold ret. cbn [snd]. destruct (Z.ltb_spec retries 0); lia.
    + specialize (H2 _ _ eq_refl). cbn [smaller_retries] in H2.
      specialize (IH (lanes s1) retries' init_type' s1).
      destruct (Z.ltb_spec retries 0); lia.
    + destruct (Z.ltb_spec retries 0); lia.
Qed.

End WithinLoops.

(** The retry budget bounds the resets.  A run of [initialize] calls
    [sfp_obj.reset()] at most [2 * retries + 1] times on a CMIS 4.x module,
    at most [retries + 1] times on a CMIS 3.x module, and never on a module
    of an older version or with a negative budget on CMIS 3.x. *)
Theorem initialize_resets_bounded (self : session)
  (application lanes_per_port retries : Z) (s : st) :
  let s' := snd (initialize self application lanes_per_port retries s) in
  (resets s' <= resets s +
     (if cmis_ver self >=? 0x40 then Z.to_nat (2 * retries + 1)
      else if cmis_ver self >=? 0x30 then Z.to_nat (retries + 1)
      else 0))%nat.
Proof.
  cbv zeta. unfold initialize.
  rewrite (proj1 (try_except_ret_false _ s)).
  unfold initialize_body, bind, set_lanes_per_port.
  destruct (cmis_ver self >=? 64).
  - match goal with |- context [initialize_cmis4 _ _ _ _ ?s0] =>
      pose proof (within_initialize_cmis4 self application lanes_per_port retries s0) as H
    end. exact H.
  - destruct (cmis_ver self >=? 48).
    + unfold initialize_cmis3.
      match goal with |- context [cmis3_run _ ?d _ _ _ _ _ ?s0] =>
        pose proof (within_cmis3_run self d application true lanes_per_port retries
                      INIT_TYPE_AUTO s0) as H
      end. exact H.
    + cbn. lia.
Qed.

(** ** [default_cmis_3_4_init] *)

Lemma within_cmis_init_new (sfp_obj : session) :
  resets_within 0 (cmis_init_new sfp_obj).
Proof.
  unfold cmis_init_new.
  apply within_bind0; [intros s; cbn; lia|]. intros _.
  repeat (first [ within_step ]).
Qed.

Lemma within_initialize (self : session) (application lanes_per_port retries : Z) :
  resets_within (Z.to_nat (2 * retries + 1))
    (initialize self application lanes_per_port retries).
Proof.
  intros s. unfold initialize.
  rewrite (proj1 (try_except_ret_false _ s)).
  unfold initialize_body, bind, set_lanes_per_port.
  destruct (cmis_ver self >=? 64).
  - match goal with |- context [initialize_cmis4 _ _ _ _ ?s0] =>
      exact (within_initialize_cmis4 self application lanes_per_port retries s0)
    end.
  - destruct (cmis_ver self >=? 48).
    + unfold initialize_cmis3.
      match goal with |- context [cmis3_run _ ?d _ _ _ _ _ ?s0] =>
        pose proof (within_cmis3_run self d application true lanes_per_port retries
                      INIT_TYPE_AUTO s0) as H
      end.
      cbn [resets] in H |- *.
      assert (Hle : (Z.to_nat (retries + 1) <= Z.to_nat (2 * retries + 1))%nat) by lia.
      etransitivity; [exact H|]. apply Nat.add_le_mono_l. exact Hle.
    + cbn. lia.
Qed.

Lemma initialize_returns (self : session) (application lanes_per_port retries : Z)
  (s : st) :
  exists ret : bool, fst (initialize self application lanes_per_port retries s) = Ok ret.
Proof.
  unfold initialize. rewrite (proj2 (try_except_ret_false _ s)).
  destruct (fst _) as [r|]; eauto.
Qed.

(** [default_cmis_3_4_init] never raises, whatever the module answers and
    wherever a read fails: it returns a boolean.  It runs [initialize] with
    a retry budget of 1, so the module is reset at most three times. *)
Theorem default_init_returns (sfp_obj : session) (application lanes_per_port : Z)
  (s : st) :
  let done := default_cmis_3_4_init sfp_obj application lanes_per_port s in
  (exists ret : bool, fst done = Ok ret)
  /\ (resets (snd done) <= resets s + 3)%nat.
Proof.
  cbv zeta. unfold default_cmis_3_4_init.
  rewrite (proj1 (try_except_ret_false _ s)), (proj2 (try_except_ret_false _ s)).
  split.
  - destruct (fst _) as [r|]; eauto.
  - change 3%nat with (0 + Z.to_nat (2 * 1 + 1))%nat.
    apply (within_bind 0 (Z.to_nat (2 * 1 + 1))).
    + apply within_cmis_init_new.
    + intros self. apply within_initialize.
Qed.

(** A module whose identifier (byte 0) is none of 0x18, 0x19 and 0x1e, or
    whose identifier cannot be read, is left alone by
    [default_cmis_3_4_init]: the call returns [False] after that one read,
    with no reset, no write, no lpmode change and no sleep. *)
Theorem default_init_needs_cmis_identifier (sfp_obj : session)
  (application lanes_per_port : Z) (s : st) :
  match on_read sfp_obj (reads s) 0 1 with
  | Some (id :: _) => ~ In id [0x18; 0x19; 0x1e]
  | _ => True
  end ->
  let done := default_cmis_3_4_init sfp_obj application lanes_per_port s in
  fst done = Ok false
  /\ trace (snd done) = trace s
  /\ resets (snd done) = resets s
  /\ reads (snd done) = S (reads s).
Proof.
  intros Hid. cbv zeta.
  unfold default_cmis_3_4_init, try_except, cmis_init_new, bind, set_lanes_per_port,
    read_bytes, sfp_read_eeprom.
  cbn [reads FORM_FACTOR_VER_ADDR fst snd _page_to_flat_offset page offset Z.gtb
       Z.compare andb].
  destruct (on_read sfp_obj (reads s) 0 1) as [[|id rest]|]; try (cbn; auto; fail).
  cbn [idx lookup list_lookup ret existsb].
  assert (Hn : (id =? 24) || ((id =? 25) || ((id =? 30) || false)) = false).
  { cbn [In] in Hid.
    destruct (Z.eqb_spec id 24), (Z.eqb_spec id 25), (Z.eqb_spec id 30); cbn; auto;
      exfalso; apply Hid; auto. }
  rewrite Hn. cbn [negb ret].
  unfold initialize, try_except, initialize_body, bind, set_lanes_per_port, with_ver.
  cbn. auto.
Qed.

(** ** A lane count that the bitmask table of CMIS 4.x does not list *)

Lemma returns_bind_with {A B} (Q1 : A -> Prop) (Q : B -> Prop) (m : M A) (f : A -> M B) :
  returns Q1 m -> (forall a, Q1 a -> returns Q (f a)) -> returns Q (bind m f).
Proof.
  intros Hm Hf s b s'. unfold bind. destruct (m s) as [[a|] s1] eqn:E; [|discriminate].
  apply Hf. eapply Hm. exact E.
Qed.

Lemma idx_state (buf : option (list Z)) (i : nat) (s s' : st) (r : result Z) :
  idx buf i s = (r, s') -> s' = s.
Proof.
  unfold idx. destruct buf as [l|]; [destruct (l !! i)|]; intros [= _ <-]; reflexivity.
Qed.

Section Bitmask.
Variable self : session.
Variables application lanes_per_port : Z.
Hypothesis Hmask : bitmask lanes_per_port = None.

Lemma config_poll_not_ready (n : nat) (err : option Z) :
  returns (fun r => fst r = false) (config_poll self n lanes_per_port err).
Proof.
  revert err. induction n as [|n IH]; intros err; cbn [config_poll].
  - apply returns_ret. reflexivity.
  - rewrite Hmask. apply returns_bind. intros _. apply returns_bind. intros buf.
    destruct (word32_pure buf); apply IH.
Qed.

Lemma cmis4_attempts_not_ready (n : nat) (err : option Z) :
  returns (fun ready => ready = false)
    (cmis4_attempts self n application lanes_per_port err).
Proof.
  revert err. induction n as [|n IH]; intros err; cbn [cmis4_attempts].
  - apply returns_ret. reflexivity.
  - do 9 (apply returns_bind; intros ?).
    apply (returns_bind_with (fun r => fst r = false)); [apply config_poll_not_ready|].
    intros [conf_ready err'] Hr. cbn [fst] in Hr. subst conf_ready. cbn [negb].
    apply returns_bind. intros _. apply IH.
Qed.

End Bitmask.

(** The table [bitmask] of [initialize_cmis4] has entries for 2, 4 and 8
    lanes per port only.  With any other lane count (1 among them) the
    lookup raises inside the [try] of the configuration poll, the
    configuration is never seen as accepted, and the bring-up of a CMIS 4.x
    module cannot succeed: [initialize] returns [True] only when the module
    was found ready with the application already selected, in which case it
    has done nothing to the module. *)
Theorem cmis4_unlisted_lane_count (self : session)
  (application lanes_per_port retries : Z) (s : st) :
  cmis_ver self >= 0x40 ->
  lanes_per_port <> 2 -> lanes_per_port <> 4 -> lanes_per_port <> 8 ->
  fst (initialize self application lanes_per_port retries s) = Ok true ->
  trace (snd (initialize self application lanes_per_port retries s)) = trace s.
Proof.
  intros Hv H2 H4 H8.
  assert (Hmask : bitmask lanes_per_port = None).
  { unfold bitmask. destruct lanes_per_port as [|p|p]; try reflexivity.
    destruct p as [p|p|]; try reflexivity.
    destruct p as [p|p|]; try reflexivity; try lia.
    destruct p as [p|p|]; try reflexivity; try lia.
    destruct p as [p|p|]; try reflexivity; try lia. }
  unfold initialize.
  rewrite (proj1 (try_except_ret_false _ s)), (proj2 (try_except_ret_false _ s)).
  unfold initialize_body.
  destruct (cmis_ver self >=? 64) eqn:E; [|lia].
  set (s0 := {| reads := reads s; resets := resets s; lpmode_gets := lpmode_gets s;
                intl_gets := intl_gets s; lanes := lanes_per_port; trace := trace s |}).
  assert (Hb : forall m : M bool,
             bind (set_lanes_per_port lanes_per_port) (fun _ => m) s = m s0)
    by reflexivity.
  rewrite !Hb. change (trace s) with (trace s0).
  generalize s0. clear s s0 Hb. intros s.
  destruct (initialize_cmis4 self application lanes_per_port retries s)
    as [res s'] eqn:E0.
  cbn [fst snd]. destruct res as [[|]|]; try discriminate. intros _.
  unfold initialize_cmis4 in E0.
  apply bind_Ok in E0 as (buf1 & s1 & E1 & E0).
  apply bind_Ok in E0 as (b1 & s2 & E2 & E0).
  apply bind_Ok in E0 as (buf2 & s3 & E3 & E0).
  apply bind_Ok in E0 as (b2 & s4 & E4 & E0).
  apply idx_state in E2, E4. subst s2 s4.
  assert (Ht : trace s3 = trace s).
  { unfold read_bytes, sfp_read_eeprom in E1, E3.
    inversion E1; subst. inversion E3; subst. reflexivity. }
  destruct (_ && _).
  - inversion E0; subst. exact Ht.
  - apply bind_Ok in E0 as (ready & s5 & E5 & E0).
    apply (cmis4_attempts_not_ready self application lanes_per_port Hmask) in E5.
    subst ready. unfold set_tx_disable, write_bytes, bind, act, ret in E0.
    inversion E0.
Qed.

(** ** Passive copper on CMIS 3.x *)


Lemma benign_no_write : benign no_register_write.
Proof. repeat split. Qed.

Section Copper.
Variable self : session.
Variables application L : Z.
Hypothesis Hcopper :
  forall k, exists m rest, on_read self k 85 1 = Some (m :: rest) /\ (m = 0x03 \/ m = 0x05).





End Copper.


Lemma max_port_power_defaults_witness :
  get_max_port_power
    {| get_max_port_power_method := Exn : result unit;
       get_port_form_factor := Ok "QSFP56-DD"%string |}
  = DEFAULT_NO_DATA_VALUE.
Proof.
  destruct (max_port_power_defaults
              {| get_max_port_power_method := Exn : result unit;
                 get_port_form_factor := Ok "QSFP56-DD"%string |}
              "QSFP56-DD" eq_refl eq_refl) as [H _].
  exact H.
Defined.

Lemma default_init_needs_cmis_identifier_witness :
  fst (default_cmis_3_4_init sff8636_session 1 4 start) = Ok false
  /\ trace (snd (default_cmis_3_4_init sff8636_session 1 4 start)) = [].
Proof.
  destruct (default_init_needs_cmis_identifier sff8636_session 1 4 start
              ltac:(vm_compute; intuition discriminate)) as (H1 & H2 & _).
  split; [exact H1 | exact H2].
Defined.

Lemma cmis4_unlisted_lane_count_witness :
  fst (initialize ready_session 1 1 3 start) = Ok true
  /\ trace (snd (initialize ready_session 1 1 3 start)) = [].
Proof.
  split; [vm_compute; reflexivity|].
  exact (cmis4_unlisted_lane_count ready_session 1 1 3 start
           ltac:(vm_compute; discriminate) ltac:(lia) ltac:(lia) ltac:(lia)
           ltac:(vm_compute; reflexivity)).
Defined.


End MediaApiFacts.

Module Inf8628Facts.
Import Hex Identify Control Cmis CacheFacts Inf8628.

Lemma item_int (eeprom_data : list string) (offset : nat) (b : Z) :
  0 <= b < 256 ->
  eeprom_data !! offset = Some (hex2 b) ->
  item eeprom_data offset ≫= int = Ok b.
Proof.
  intros Hb Hi. unfold item. rewrite Hi. cbn. unfold int.
  rewrite (int16_hex2 b Hb). reflexivity.
Qed.

Lemma power_class_byte (b : Z) :
  0 <= b < 256 ->
  getitem power_class_of_transceiver (format_02x (Z.land (Z.shiftr b 5) 0x07))
  = Ok ("Power Class " ++ str_of_int (b / 32 + 1))%string.
Proof.
  intros Hb.
  assert (Hall : forallb
            (fun v =>
               match getitem power_class_of_transceiver
                       (format_02x (Z.land (Z.shiftr v 5) 0x07)) with
               | Ok s => String.eqb s ("Power Class " ++ str_of_int (v / 32 + 1))
               | Exn => false
               end) (map Z.of_nat (seq 0 256)) = true)
    by (vm_compute; reflexivity).
  rewrite forallb_forall in Hall. specialize (Hall b (bytes_range_in b Hb)).
  destruct (getitem _ _) as [s|]; [|discriminate].
  apply String.eqb_eq in Hall. congruence.
Qed.

Lemma module_state_byte (b : Z) :
  0 <= b < 256 ->
  exists name,
    decode_module_state [hex2 b] 0 = Ok name
    /\ (name = "Ready State"%string
        <-> Z.land (Z.shiftr b 1) MOD_STATE_MASK = MOD_STATE_READY)
    /\ (name = "Low Power State"%string
        <-> Z.land (Z.shiftr b 1) MOD_STATE_MASK = 1)
    /\ (String.prefix "Unknown State" name = true
        <-> In (Z.land (Z.shiftr b 1) MOD_STATE_MASK) [0; 6; 7]).
Proof.
  intros Hb.
  assert (Hall : forallb
            (fun v =>
               let sta := Z.land (Z.shiftr v 1) MOD_STATE_MASK in
               match decode_module_state [hex2 v] 0 with
               | Ok name =>
                   Bool.eqb (String.eqb name "Ready State") (sta =? MOD_STATE_READY)
                   && Bool.eqb (String.eqb name "Low Power State") (sta =? 1)
                   && Bool.eqb (String.prefix "Unknown State" name)
                        ((sta =? 0) || (sta =? 6) || (sta =? 7))
               | Exn => false
               end)
            (map Z.of_nat (seq 0 256)) = true)
    by (vm_compute; reflexivity).
  rewrite forallb_forall in Hall. specialize (Hall b (bytes_range_in b Hb)).
  cbv zeta in Hall.
  destruct (decode_module_state [hex2 b] 0) as [name|]; [|discriminate].
  exists name. split; [reflexivity|].
  apply andb_prop in Hall as [Hall H3]. apply andb_prop in Hall as [H1 H2].
  apply Bool.eqb_prop in H1, H2, H3.
  split; [|split].
  - rewrite <- String.eqb_eq, H1. apply Z.eqb_eq.
  - rewrite <- String.eqb_eq, H2. apply Z.eqb_eq.
  - rewrite H3. rewrite !orb_true_iff, !Z.eqb_eq. cbn [In]. intuition lia.
Qed.

(** A status byte kept as two hexadecimal digits is always decoded: the
    power class is the number in its three top bits plus one, and the module
    state is named after bits 3..1, the field the initialisation sequence
    polls: "Ready State" exactly for the value it waits for, and an
    "Unknown State" exactly for the values 0, 6 and 7. *)
Theorem status_byte_decoders (eeprom_data : list string) (offset : nat) (b : Z) :
  0 <= b < 256 ->
  eeprom_data !! offset = Some (hex2 b) ->
  decode_power_class eeprom_data offset
  = Ok ("Power Class " ++ str_of_int (b / 32 + 1))%string
  /\ exists name,
       decode_module_state eeprom_data offset = Ok name
       /\ (name = "Ready State"%string
           <-> Z.land (Z.shiftr b 1) MOD_STATE_MASK = MOD_STATE_READY)
       /\ (name = "Low Power State"%string
           <-> Z.land (Z.shiftr b 1) MOD_STATE_MASK = 1)
       /\ (String.prefix "Unknown State" name = true
           <-> In (Z.land (Z.shiftr b 1) MOD_STATE_MASK) [0; 6; 7]).
Proof.
  intros Hb Hi. split.
  - unfold decode_power_class. rewrite (item_int _ _ _ Hb Hi). cbn.
    apply power_class_byte, Hb.
  - replace (decode_module_state eeprom_data offset)
      with (decode_module_state [hex2 b] 0)
      by (unfold decode_module_state, item; rewrite Hi; reflexivity).
    apply module_state_byte, Hb.
Qed.

Lemma status_byte_decoders_witness :
  decode_power_class ["00"; "00"; "00"; "e6"]%string 3 = Ok "Power Class 8"%string
  /\ decode_module_state ["00"; "00"; "00"; "e6"]%string 3 = Ok "Ready State"%string.
Proof.
  destruct (status_byte_decoders ["00"; "00"; "00"; "e6"]%string 3 0xe6
              ltac:(lia) eq_refl) as [Hp [name [Hn [Hr _]]]].
  split; [exact Hp|]. rewrite Hn. f_equal. apply Hr. reflexivity.
Defined.

(** The abbreviated type name and the EEPROM type agree on QSFP56: for a
    buffer whose identifier is ["1e"], [decode_type_abbrv_name] answers
    "QSFP56" exactly when the QSFP56 stage of [get_eeprom_type] selects
    [XCVR_EEPROM_TYPE_QSFP56], "Unknown" exactly when that stage leaves the
    type as it was, and the two raise on the same buffers. *)
Theorem type_abbrv_name_qsfp56 (raw : list string) (offset : nat)
  (type : eeprom_type) :
  raw !! offset = Some "1e"%string ->
  type <> XCVR_EEPROM_TYPE_QSFP56 ->
  (decode_type_abbrv_name raw offset = Ok "QSFP56"%string
   <-> qsfp56_check "1e" raw type = Ok XCVR_EEPROM_TYPE_QSFP56)
  /\ (decode_type_abbrv_name raw offset = Ok "Unknown"%string
      <-> qsfp56_check "1e" raw type = Ok type)
  /\ (decode_type_abbrv_name raw offset = Exn
      <-> qsfp56_check "1e" raw type = Exn).
Proof.
  intros Hi Ht. unfold decode_type_abbrv_name, qsfp56_check.
  assert (Hm : item raw offset ≫= int = Ok 30)
    by (unfold item; rewrite Hi; reflexivity).
  rewrite Hm.
  cbn [mbind result_bind Z.eqb Pos.eqb str_in existsb String.eqb
       SFF8024_TYPE_QSFP_CMIS_COMPLIANT orb Ascii.eqb Bool.eqb].
  destruct (item raw 85 ≫= int) as [b85|]; cbn [mbind result_bind];
    [|repeat split; intros; try discriminate; reflexivity].
  destruct (item raw 86 ≫= int) as [b86|]; cbn [mbind result_bind];
    [|repeat split; intros; try discriminate; reflexivity].
  destruct (item raw 87 ≫= int) as [b87|]; cbn [mbind result_bind];
    [|repeat split; intros; try discriminate; reflexivity].
  destruct (item raw 88 ≫= int) as [b88|]; cbn [mbind result_bind];
    [|repeat split; intros; try discriminate; reflexivity].
  destruct (item raw 89 ≫= int) as [b89|]; cbn [mbind result_bind];
    [|repeat split; intros; try discriminate; reflexivity].
  destruct (existsb _ _).
  - repeat split; intros H; try reflexivity; try discriminate.
    inversion H. congruence.
  - repeat split; intros H; try reflexivity; try discriminate.
    inversion H. congruence.
Qed.

Lemma type_abbrv_name_qsfp56_witness :
  decode_type_abbrv_name qsfp56_buffer 128 = Ok "QSFP56"%string.
Proof.
  apply (type_abbrv_name_qsfp56 qsfp56_buffer 128 XCVR_EEPROM_TYPE_UNKNOWN
           ltac:(vm_compute; reflexivity) ltac:(discriminate)).
  vm_compute. reflexivity.
Defined.

End Inf8628Facts.

Module XcvrdFacts.
Import Identify Sfp Xcvrd.

Lemma append_cons (c : ascii) (s1 s2 : string) :
  (String c s1 ++ s2)%string = String c (s1 ++ s2).
Proof. reflexivity. Qed.

Lemma length_append (s1 s2 : string) :
  String.length (s1 ++ s2) = (String.length s1 + String.length s2)%nat.
Proof.
  induction s1 as [|c s1 IH]; [reflexivity|].
  rewrite append_cons. simpl. f_equal. exact IH.
Qed.

Lemma substring_all (s : string) (n : nat) :
  (String.length s <= n)%nat -> substring 0 n s = s.
Proof.
  revert n. induction s as [|c s IH]; intros n Hn.
  - destruct n; reflexivity.
  - destruct n as [|n]; simpl in Hn; [lia|]. simpl. f_equal. apply IH. lia.
Qed.

Lemma substring_skip (s1 s2 : string) (n : nat) :
  substring (String.length s1) n (s1 ++ s2) = substring 0 n s2.
Proof.
  induction s1 as [|c s1 IH]; [reflexivity|].
  rewrite append_cons. simpl. exact IH.
Qed.

Lemma substring_head (s1 s2 : string) :
  substring 0 (String.length s1) (s1 ++ s2) = s1.
Proof.
  induction s1 as [|c s1 IH].
  - destruct s2; reflexivity.
  - rewrite append_cons. simpl. f_equal. exact IH.
Qed.

Lemma substring_split (s : string) (n : nat) :
  (n <= String.length s)%nat ->
  (substring 0 n s ++ substring n (String.length s - n) s)%string = s.
Proof.
  revert n. induction s as [|c s IH]; intros n Hn.
  - destruct n; reflexivity.
  - destruct n as [|n].
    + simpl. rewrite substring_all by lia. reflexivity.
    + simpl in Hn. simpl. rewrite append_cons. f_equal. apply IH. lia.
Qed.

Lemma last_chars_append (body unit : string) :
  last_chars (String.length unit) (body ++ unit) = (if (String.length unit =? 0)%nat then body ++ unit else unit)%string.
Proof.
  unfold last_chars. destruct (String.length unit =? 0)%nat eqn:E; [reflexivity|].
  rewrite length_append.
  replace (String.length body + String.length unit - String.length unit)%nat
    with (String.length body) by lia.
  rewrite substring_skip. apply substring_all. lia.
Qed.

Lemma length_zero (s : string) : String.length s = 0%nat -> s = EmptyString.
Proof. destruct s; [reflexivity|discriminate]. Qed.

Lemma append_empty (s : string) : (s ++ "")%string = s.
Proof.
  induction s as [|c s IH]; [reflexivity|]. rewrite append_cons. f_equal. exact IH.
Qed.

(** [strip_unit_and_beautify] removes a trailing unit and nothing else: a
    string made of a body and the unit comes back as the body; whatever the
    input, the result is the input itself or the input without the unit at
    its end; a value that is not a string comes back as its [str()]. *)
Theorem strip_unit_removes_suffix :
  (forall body unit : string,
     strip_unit_and_beautify (PyStr (body ++ unit)) unit = body)
  /\ (forall value unit : string,
        strip_unit_and_beautify (PyStr value) unit = value
        \/ value = (strip_unit_and_beautify (PyStr value) unit ++ unit)%string)
  /\ (forall str unit : string, strip_unit_and_beautify (PyOther str) unit = str).
Proof.
  split; [|split].
  - intros body unit. unfold strip_unit_and_beautify.
    rewrite last_chars_append. unfold but_last_chars.
    destruct (String.length unit =? 0)%nat eqn:E.
    + apply Nat.eqb_eq, length_zero in E. subst unit. rewrite append_empty.
      destruct (body =? "")%string eqn:Eb; [|reflexivity].
      apply String.eqb_eq in Eb. congruence.
    + rewrite String.eqb_refl, length_append.
      replace (String.length body + String.length unit - String.length unit)%nat
        with (String.length body) by lia.
      apply substring_head.
  - intros value unit. unfold strip_unit_and_beautify.
    destruct (last_chars (String.length unit) value =? unit)%string eqn:E;
      [|left; reflexivity].
    apply String.eqb_eq in E. right. unfold last_chars, but_last_chars in *.
    destruct (String.length unit =? 0)%nat eqn:E0.
    + subst unit. reflexivity.
    + destruct (le_lt_dec (String.length unit) (String.length value)) as [Hle|Hgt].
      * pose proof (substring_split value
                      (String.length value - String.length unit) ltac:(lia)) as Hs.
        replace (String.length value - (String.length value - String.length unit))%nat
          with (String.length unit) in Hs by lia.
        rewrite E in Hs. symmetry. exact Hs.
      * replace (String.length value - String.length unit)%nat with 0%nat in * by lia.
        rewrite substring_all in E by lia. subst unit. lia.
  - reflexivity.
Qed.

Lemma not_na_by_length (type media : string) :
  (3 < String.length media)%nat -> (type ++ " " ++ media)%string <> "N/A"%string.
Proof.
  intros Hl He. apply (f_equal String.length) in He.
  rewrite !length_append in He. simpl in He. lia.
Qed.

Lemma str_in_na (x : string) : str_in x ["N/A"]%string = false <-> x <> "N/A"%string.
Proof.
  unfold str_in. cbn [existsb]. rewrite orb_false_r.
  destruct (String.eqb_spec x "N/A"); split; intros; congruence.
Qed.

Section FixupFacts.

Variable py_int : string -> option Z.

Lemma fixup_named (info : dict) :
  get info "display_name" "N/A" <> "N/A"%string ->
  _transceiver_info_fixup py_int (Some info) = Some info.
Proof.
  intros Hn. unfold _transceiver_info_fixup.
  apply str_in_na in Hn. rewrite Hn. reflexivity.
Qed.

Lemma fixup_cases (info : dict) :
  _transceiver_info_fixup py_int (Some info) = Some info
  \/ exists x : string,
       x <> "N/A"%string
       /\ get info "display_name" "N/A" = "N/A"%string
       /\ _transceiver_info_fixup py_int (Some info)
          = Some (<["display_name"%string := x]> info).
Proof.
  unfold _transceiver_info_fixup.
  destruct (str_in (get info "display_name" "N/A") ["N/A"]%string) eqn:Hd;
    [|left; reflexivity].
  assert (Hna : get info "display_name" "N/A" = "N/A"%string).
  { destruct (String.eqb_spec (get info "display_name" "N/A") "N/A") as [e|n];
      [exact e|]. apply str_in_na in n. congruence. }
  destruct (str_in (get info "type_abbrv_name" "N/A") ["SFP"]%string
            && str_in (get info "connector" "N/A")
                 ["CopperPigtail"; "Copper pigtail"; "No separable connector"]%string).
  - right.
    destruct (_ >=? 250); [|destruct (_ >=? 100)];
      eexists; (split; [|split; [exact Hna|reflexivity]]); discriminate.
  - destruct (str_in (get info "type_abbrv_name" "N/A") ["QSFP-DD"]%string);
      [|left; reflexivity].
    destruct (str_in (get info "media_type" "N/A")
                ["passive_copper_media_interface"]%string);
      [|left; reflexivity].
    right. eexists. split; [|split; [exact Hna|reflexivity]].
    apply not_na_by_length. destruct (_ || _); simpl; lia.
Qed.

(** [_transceiver_info_fixup] fills in a missing display name and does
    nothing else: every other key of the record keeps its value, a record
    that already has a display name other than "N/A" comes back unchanged,
    and a record that went through the fixup once is not changed by a second
    pass. *)
Theorem transceiver_info_fixup_display_name (info : dict) :
  exists info' : dict,
    _transceiver_info_fixup py_int (Some info) = Some info'
    /\ (forall key : string,
          key <> "display_name"%string -> info' !! key = info !! key)
    /\ (forall v : string,
          info !! "display_name"%string = Some v -> v <> "N/A"%string ->
          info' = info)
    /\ _transceiver_info_fixup py_int (Some info') = Some info'.
Proof.
  destruct (fixup_cases info) as [E|[x [Hx [Hna E]]]].
  - exists info. repeat split; auto.
  - exists (<["display_name"%string := x]> info). split; [exact E|]. split; [|split].
    + intros key Hk. apply lookup_insert_ne. congruence.
    + intros v Hv Hn. unfold get in Hna. rewrite Hv in Hna. congruence.
    + apply fixup_named. unfold get. rewrite lookup_insert_eq. exact Hx.
Qed.

End FixupFacts.

End XcvrdFacts.
